(** * Aggregations of trajectory_data_analysis/utils/nuplan.py

    A shallow embedding of the four plotting helpers of [nuplan.py]
    ([plot_trajectories], [plot_class_proportion],
    [plot_mean_speed_distribution], [plot_speed_distribution]) up to the
    point where the aggregated table is handed to the charting library.

    Conventions of the embedding:
    - a float64 is a real number, NaN or an infinity. Arithmetic on numbers
      is exact, rounding is left out; what is kept of the finite range is
      overflow: a result of magnitude 2^1024 or more is an infinity for
      numpy and for Python's [+], [-] and [/], and an OverflowError for
      Python's [**];
    - a cell of a REAL column of a frame read with [pd.read_sql_query] is a
      float64, NaN where the table holds NULL, or None: pandas reads a
      column that holds nothing but NULL as a column of objects;
    - the map boundary and the proportion are real numbers, and memory is
      unbounded: a grid of any size is allocated;
    - a Python exception is a [Raise] in the error monad [result];
    - the SQLite files are a finite map from path to the three tables the
      code reads;
    - the process-wide random generator of numpy is an abstract state
      [rng] with the in-place [np_random_shuffle]; the caller's list
      object is threaded through every function that shuffles it. *)

From Stdlib Require Import Reals Lra Lia ZArith List Permutation.
From stdpp Require Import gmap strings list fin_maps sorting.

Open Scope R_scope.

(** ** Exceptions *)

Inductive exn : Set :=
| KeyError
| IndexError
| ValueError
| ZeroDivisionError
| DatabaseError
| OverflowError
| TypeError.

Inductive result (A : Type) : Type :=
| Ok (a : A)
| Raise (e : exn).
Arguments Ok {A} a.
Arguments Raise {A} e.

Definition bind {A B} (m : result A) (k : A -> result B) : result B :=
  match m with
  | Ok a => k a
  | Raise e => Raise e
  end.

Notation "x <- m ;; k" := (bind m (fun x => k))
  (at level 100, m at next level, right associativity).

Definition is_ok {A} (m : result A) : bool :=
  match m with Ok _ => true | Raise _ => false end.

(** [for x in l: acc = body(acc, x)] where the body may raise. *)
Fixpoint for_each {A S} (body : S -> A -> result S) (l : list A) (acc : S)
  : result S :=
  match l with
  | [] => Ok acc
  | a :: l' => acc' <- body acc a ;; for_each body l' acc'
  end.

(** ** Numbers *)

Inductive float64 : Type :=
| Num (r : R)
| NaN
| PosInf
| NegInf.

(** The magnitude from which a result is out of the range of float64. *)
Definition float_max : R := IZR (2 ^ 1024).
Arguments float_max : simpl never.

(** The float64 for the exact result [r] of an operation on numbers. *)
Definition np_float (r : R) : float64 :=
  if Rle_dec float_max r then PosInf
  else if Rle_dec r (- float_max) then NegInf
  else Num r.

(** [a + b] *)
Definition f_add (a b : float64) : float64 :=
  match a, b with
  | NaN, _ | _, NaN => NaN
  | PosInf, NegInf | NegInf, PosInf => NaN
  | PosInf, _ | _, PosInf => PosInf
  | NegInf, _ | _, NegInf => NegInf
  | Num r, Num s => np_float (r + s)
  end.

(** [a - m] for a number [m] *)
Definition f_sub (a : float64) (m : R) : float64 :=
  match a with
  | Num r => np_float (r - m)
  | _ => a
  end.

(** [a / b] on float64 arrays, for a number [b] (errstate "warn": never
    raises). *)
Definition np_div (a : float64) (b : R) : float64 :=
  match a with
  | Num r =>
    if Req_dec_T b 0 then
      if Req_dec_T r 0 then NaN
      else if Rlt_dec 0 r then PosInf else NegInf
    else np_float (r / b)
  | NaN => NaN
  | PosInf => if Rlt_dec b 0 then NegInf else PosInf
  | NegInf => if Rlt_dec b 0 then PosInf else NegInf
  end.

(** [a ** 2] on a float64 array *)
Definition np_square (a : float64) : float64 :=
  match a with
  | Num r => np_float (r * r)
  | NaN => NaN
  | PosInf | NegInf => PosInf
  end.

(** [np.sqrt(a)] *)
Definition np_sqrt (a : float64) : float64 :=
  match a with
  | Num r => if Rle_dec 0 r then Num (sqrt r) else NaN
  | NaN | NegInf => NaN
  | PosInf => PosInf
  end.

(** [np.sqrt(vx ** 2 + vy ** 2 + vz ** 2)] on float64 arrays *)
Definition np_speed (vx vy vz : float64) : float64 :=
  np_sqrt (f_add (f_add (np_square vx) (np_square vy)) (np_square vz)).

(** [int(r)]: truncation toward zero. *)
Definition py_int (r : R) : Z :=
  if Rle_dec 0 r then Zfloor r else (- Zfloor (- r))%Z.

(** [int(a)] of a float *)
Definition py_int_float (a : float64) : result Z :=
  match a with
  | Num r => Ok (py_int r)
  | NaN => Raise ValueError
  | PosInf | NegInf => Raise OverflowError
  end.

(** What a row holds in a REAL column. *)
Inductive pyfloat : Type :=
| PyNone
| PyFloat (a : float64).

(** [v - m] for a number [m] *)
Definition py_sub (v : pyfloat) (m : R) : result float64 :=
  match v with
  | PyNone => Raise TypeError
  | PyFloat a => Ok (f_sub a m)
  end.

(** [v ** 2] on a Python float *)
Definition py_square (v : pyfloat) : result float64 :=
  match v with
  | PyNone => Raise TypeError
  | PyFloat (Num r) =>
    if Rle_dec float_max (r * r) then Raise OverflowError else Ok (Num (r * r))
  | PyFloat NaN => Ok NaN
  | PyFloat _ => Ok PosInf
  end.

(** The float64 of a cell of a float64 column. *)
Definition float_of (v : pyfloat) : float64 :=
  match v with
  | PyNone => NaN
  | PyFloat a => a
  end.

Definition is_nan (a : float64) : bool :=
  match a with NaN => true | _ => false end.

(** The number that a float64 stands for, 0 for NaN and the infinities. *)
Definition float_value (a : float64) : R :=
  match a with
  | Num r => r
  | _ => 0
  end.

Definition is_none (v : pyfloat) : bool :=
  match v with PyNone => true | PyFloat _ => false end.

(** ** Python sequences and dictionaries *)

(** [s[-3:]] *)
Definition py_last3 (s : string) : string :=
  String.substring (String.length s - 3) 3 s.

Definition is_db (trajectory_file : string) : bool :=
  bool_decide (py_last3 trajectory_file = ".db").

(** [l[:k]] *)
Definition py_slice_to {A} (k : Z) (l : list A) : list A :=
  if (0 <=? k)%Z then take (Z.to_nat k) l
  else take (Z.to_nat (Z.of_nat (length l) + k)) l.

(** [dict(zip(keys, values))]: a later pair overrides an earlier one. *)
Definition py_dict (kvs : list (string * string)) : gmap string string :=
  foldl (fun m kv => <[kv.1 := kv.2]> m) ∅ kvs.

(** [d[k]] *)
Definition dict_get (d : gmap string string) (k : string) : result string :=
  match d !! k with
  | Some v => Ok v
  | None => Raise KeyError
  end.

(** An integer index into an axis of length [n]: negative indices count
    from the end, anything else out of range is an IndexError. *)
Definition np_index (n : nat) (i : Z) : result nat :=
  if ((0 <=? i) && (i <? Z.of_nat n))%Z then Ok (Z.to_nat i)
  else if ((- Z.of_nat n <=? i) && (i <? 0))%Z then Ok (Z.to_nat (Z.of_nat n + i))
  else Raise IndexError.

(** ** The databases *)

(** A row of the frame [df_lidar_box]. *)
Record lidar_box_row : Type := {
  track_token : string;
  x : pyfloat; y : pyfloat; z : pyfloat;
  vx : pyfloat; vy : pyfloat; vz : pyfloat
}.

(** The three tables read with [pd.read_sql_query]; [category] rows are
    (token, name), [track] rows are (token, category_token). *)
Record motion_db : Type := {
  category : list (string * string);
  track : list (string * string);
  lidar_box : list lidar_box_row
}.

(** [sqlite3.connect(file_path)] followed by the queries. *)
Definition read_db (fs : gmap string motion_db) (file_path : string)
  : result motion_db :=
  match fs !! file_path with
  | Some db => Ok db
  | None => Raise DatabaseError
  end.

Definition categories : list string :=
  ["vehicle"; "bicycle"; "pedestrian"; "traffic_cone"; "barrier";
   "czone_sign"; "generic_object"].

Definition dynamic_category : list string :=
  ["vehicle"; "bicycle"; "pedestrian"; "generic_object"].

(** [dict_category[dict_track[tok]]] with
    [dict_category : token -> name] and [dict_track : token -> category token]. *)
Definition track_category (db : motion_db) (tok : string) : result string :=
  let dict_category := py_dict (category db) in
  let dict_track := py_dict (track db) in
  category_token <- dict_get dict_track tok ;;
  dict_get dict_category category_token.

(** [dict_category[dict_track[row[1]["track_token"]]]] *)
Definition resolve_category (db : motion_db) (row : lidar_box_row)
  : result string :=
  track_category db (track_token row).

(** ** plot_speed_distribution *)

(** [speed_map]: rows along axis 0 (y), columns along axis 1 (x), and the
    two channels (sum of speeds, count) of the last axis. *)
Abbreviation speed_map_t := (list (list (float64 * R))) (only parsing).

(** [np.zeros((matrix_y, matrix_x, 2))] *)
Definition np_zeros (matrix_y matrix_x : Z) : result speed_map_t :=
  if ((matrix_y <? 0) || (matrix_x <? 0))%Z then Raise ValueError
  else Ok (replicate (Z.to_nat matrix_y) (replicate (Z.to_nat matrix_x) (Num 0, 0))).

(** The guard of line 229, as written. *)
Definition out_of_map (cx matrix_x cy matrix_y : Z) : bool :=
  ((cx <? 0) && (cx >=? matrix_x) && (cy <? 0) && (cy >=? matrix_y))%Z.

(** [np.sqrt(row[1]["vx"] ** 2 + row[1]["vy"] ** 2 + row[1]["vz"] ** 2)]:
    the operands are Python floats. *)
Definition py_speed (row : lidar_box_row) : result float64 :=
  a <- py_square (vx row) ;;
  b <- py_square (vy row) ;;
  c <- py_square (vz row) ;;
  Ok (np_sqrt (f_add (f_add a b) c)).

(** [speed_map[y, x, 0] += speed; speed_map[y, x, 1] += 1]: the cell is
    read before the right-hand side is evaluated. *)
Definition add_speed (speed_map : speed_map_t) (matrix_x : Z) (cy cx : Z)
    (speed : result float64) : result speed_map_t :=
  i <- np_index (length speed_map) cy ;;
  j <- np_index (Z.to_nat matrix_x) cx ;;
  s <- speed ;;
  Ok (alter (alter (fun c => (f_add c.1 s, c.2 + 1)) j) i speed_map).

(** Lines 227-228: the cell [(x, y)] of a record. *)
Definition record_cell (x_min y_min : R) (row : lidar_box_row) : result (Z * Z) :=
  dx <- py_sub (x row) x_min ;;
  cx <- py_int_float dx ;;
  dy <- py_sub (y row) y_min ;;
  cy <- py_int_float dy ;;
  Ok (cx, cy).

(** The body of the loop over [df_lidar_box.iterrows()] (lines 224-235). *)
Definition speed_row (x_min y_min : R) (matrix_x matrix_y : Z) (db : motion_db)
    (speed_map : speed_map_t) (row : lidar_box_row) : result speed_map_t :=
  cat <- resolve_category db row ;;
  if bool_decide (cat = "vehicle") then
    cell <- record_cell x_min y_min row ;;
    if out_of_map cell.1 matrix_x cell.2 matrix_y then Ok speed_map
    else add_speed speed_map matrix_x cell.2 cell.1 (py_speed row)
  else Ok speed_map.

(** One database file (lines 215-235). *)
Definition speed_file (fs : gmap string motion_db) (x_min y_min : R)
    (matrix_x matrix_y : Z) (data_path trajectory_folder : string)
    (speed_map : speed_map_t) (trajectory_file : string) : result speed_map_t :=
  let file_path := data_path +:+ trajectory_folder +:+ "/" +:+ trajectory_file in
  db <- read_db fs file_path ;;
  for_each (speed_row x_min y_min matrix_x matrix_y db) (lidar_box db) speed_map.

(** The loop over the files (lines 212-241): an entry that is not a
    [.db] is passed over before the counter moves; [max_iter] is [None]
    when [proportion] is. *)
Fixpoint speed_files (fs : gmap string motion_db) (x_min y_min : R)
    (matrix_x matrix_y : Z) (data_path trajectory_folder : string)
    (max_iter : option Z) (trajectory_files : list string) (cnt : Z)
    (speed_map : speed_map_t) : result speed_map_t :=
  match trajectory_files with
  | [] => Ok speed_map
  | trajectory_file :: rest =>
    if negb (is_db trajectory_file) then
      speed_files fs x_min y_min matrix_x matrix_y data_path trajectory_folder
        max_iter rest cnt speed_map
    else
      speed_map' <- speed_file fs x_min y_min matrix_x matrix_y data_path
                      trajectory_folder speed_map trajectory_file ;;
      match max_iter with
      | Some m =>
        if (cnt + 1 >=? m)%Z then Ok speed_map'
        else speed_files fs x_min y_min matrix_x matrix_y data_path
               trajectory_folder max_iter rest (cnt + 1) speed_map'
      | None =>
        speed_files fs x_min y_min matrix_x matrix_y data_path
          trajectory_folder max_iter rest cnt speed_map'
      end
  end.

(** [speed_map[:, :, 0] /= speed_map[:, :, 1]], keeping channel 0. *)
Definition finalize (speed_map : speed_map_t) : list (list float64) :=
  (fun row : list (float64 * R) => (fun c : float64 * R => np_div c.1 c.2) <$> row)
    <$> speed_map.

(** ** plot_mean_speed_distribution *)

(** A sum of float64 values, from the left. *)
Definition f_sum (l : list float64) : float64 := foldl f_add (Num 0) l.

(** [mean()] of one group of [groupby]: the NaN entries are left out, and
    the mean of a group that has no other entry is NaN. *)
Definition group_mean (l : list float64) : float64 :=
  match filter (fun a => is_nan a = false) l with
  | [] => NaN
  | obs => np_div (f_sum obs) (INR (length obs))
  end.

(** The entry of a row in the column [speed] of lines 171-173. *)
Definition row_speed (row : lidar_box_row) : float64 :=
  np_speed (float_of (vx row)) (float_of (vy row)) (float_of (vz row)).

(** A column [vx], [vy] or [vz] with a None in it is a column of objects,
    on which lines 171-173 raise TypeError. *)
Definition has_none (rows : list lidar_box_row) : bool :=
  existsb (fun row => is_none (vx row) || is_none (vy row) || is_none (vz row)) rows.

(** The rows of one group of [groupby("track_token")]. *)
Definition frames_of (k : string) (rows : list lidar_box_row) : list lidar_box_row :=
  filter (fun row => track_token row = k) rows.

(** [df_lidar_box.groupby("track_token")["speed"].mean()]: one entry per
    distinct token, the tokens in increasing order. *)
Definition groupby_mean (rows : list lidar_box_row) : list (string * float64) :=
  let keys := merge_sort String.le (remove_dups (track_token <$> rows)) in
  (fun k => (k, group_mean (row_speed <$> frames_of k rows))) <$> keys.

Abbreviation speeds_t := (list (string * string * float64)) (only parsing).

(** The loop of lines 176-179. *)
Definition mean_speed_entry (trajectory_folder : string) (db : motion_db)
    (speeds : speeds_t) (kv : string * float64) : result speeds_t :=
  cat <- track_category db kv.1 ;;
  Ok (speeds ++ [(trajectory_folder, cat, kv.2)]).

Definition mean_speed_file (fs : gmap string motion_db)
    (data_path trajectory_folder : string) (speeds : speeds_t)
    (trajectory_file : string) : result speeds_t :=
  if negb (is_db trajectory_file) then Ok speeds
  else
    let file_path := data_path +:+ trajectory_folder +:+ "/" +:+ trajectory_file in
    db <- read_db fs file_path ;;
    if has_none (lidar_box db) then Raise TypeError
    else for_each (mean_speed_entry trajectory_folder db)
           (groupby_mean (lidar_box db)) speeds.

(** [for i, trajectory_folder in enumerate(trajectory_folders)] *)
Fixpoint mean_speed_folders (fs : gmap string motion_db) (data_path : string)
    (trajectory_files : list (list string)) (trajectory_folders : list string)
    (i : nat) (speeds : speeds_t) : result speeds_t :=
  match trajectory_folders with
  | [] => Ok speeds
  | trajectory_folder :: rest =>
    match trajectory_files !! i with
    | None => Raise IndexError
    | Some files =>
      speeds' <- for_each (mean_speed_file fs data_path trajectory_folder) files speeds ;;
      mean_speed_folders fs data_path trajectory_files rest (S i) speeds'
    end
  end.

(** The table handed to [sns.FacetGrid]. *)
Definition plot_mean_speed_distribution (fs : gmap string motion_db)
    (data_path : string) (trajectory_folders : list string)
    (trajectory_files : list (list string)) : result speeds_t :=
  mean_speed_folders fs data_path trajectory_files trajectory_folders 0 [].

(** ** plot_class_proportion: the frame of counts *)

(** A cell of the object-dtype frame [df_proportion]: the NaN it is
    created with, or the Python int that [len] returned. *)
Inductive pyobj : Set :=
| PyNaN
| PyInt (n : Z).

(** Rows in index order, each with its label and its cells in column
    order. *)
Abbreviation row_t := (list (string * pyobj)) (only parsing).
Abbreviation frame_t := (list (string * list (string * pyobj))) (only parsing).

(** [pd.DataFrame(columns=dynamic_category, index=trajectory_folders)] *)
Definition new_frame (trajectory_folders : list string) : frame_t :=
  (fun folder => (folder, (fun c => (c, PyNaN)) <$> dynamic_category))
    <$> trajectory_folders.

Definition row_set (column : string) (v : pyobj) (row : row_t) : row_t :=
  (fun cell : string * pyobj =>
     if bool_decide (cell.1 = column) then (cell.1, v) else cell) <$> row.

(** How many rows of the frame have the label. *)
Definition count_label (label : string) (df : frame_t) : nat :=
  length (filter (fun r : string * row_t => r.1 = label) df).

(** The cell of the row [label], column [column], written in place. *)
Definition frame_write (label column : string) (v : pyobj) (df : frame_t) : frame_t :=
  (fun r : string * row_t =>
     if bool_decide (r.1 = label) then (r.1, row_set column v r.2) else r) <$> df.

(** [df.loc[label][column] = v], for a label of the index. With the label
    once in the index, [df.loc[label]] is the row itself and the cell is
    written. With the label repeated it is a copy of the rows of that
    label: the copy is written and the frame keeps its values. The label
    is the folder of the loop of line 117 and the index is the list of
    these folders (line 115), so a label outside the index, on which
    [df.loc] raises KeyError, does not reach this assignment. *)
Definition frame_set (label column : string) (v : pyobj) (df : frame_t) : frame_t :=
  if bool_decide (count_label label df = 1%nat) then frame_write label column v df
  else df.

(** [len(df_track[df_track["category_token"] == tok])] *)
Definition count_tracks (db : motion_db) (tok : string) : Z :=
  Z.of_nat (length (filter (fun r : string * string => r.2 = tok) (track db))).

(** The loop of lines 137-140; [dict_category] maps name to token here. *)
Definition class_category (trajectory_folder : string) (db : motion_db)
    (df : frame_t) (cat : string) : result frame_t :=
  let dict_category :=
    py_dict ((fun r : string * string => (r.2, r.1)) <$> category db) in
  tok <- dict_get dict_category cat ;;
  Ok (frame_set trajectory_folder cat (PyInt (count_tracks db tok)) df).

Definition class_file (fs : gmap string motion_db)
    (data_path trajectory_folder : string) (df : frame_t)
    (trajectory_file : string) : result frame_t :=
  if negb (is_db trajectory_file) then Ok df
  else
    let file_path := data_path +:+ trajectory_folder +:+ "/" +:+ trajectory_file in
    db <- read_db fs file_path ;;
    for_each (class_category trajectory_folder db) dynamic_category df.

(** [df.sum(axis=1)] of one row: NaN cells are skipped. *)
Fixpoint row_sum (row : row_t) : Z :=
  match row with
  | [] => 0
  | (_, PyInt n) :: row' => n + row_sum row'
  | (_, PyNaN) :: row' => row_sum row'
  end.

(** [a / s] on the cells of an object-dtype frame is Python's own
    division of the two objects, which raises on a zero divisor. *)
Definition py_truediv (a : pyobj) (s : Z) : result float64 :=
  if (s =? 0)%Z then Raise ZeroDivisionError
  else match a with
       | PyNaN => Ok NaN
       | PyInt n => Ok (Num (IZR n / IZR s))
       end.

Definition div_row (row : row_t) : result (list (string * float64)) :=
  let s := row_sum row in
  for_each (fun acc (cell : string * pyobj) =>
              v <- py_truediv cell.2 s ;;
              Ok (acc ++ [(cell.1, v)]))
           row [].

(** [df_proportion.div(df_proportion.sum(axis=1), axis=0)] (line 147). *)
Definition normalize (df : frame_t)
  : result (list (string * list (string * float64))) :=
  for_each (fun acc (r : string * row_t) =>
              row <- div_row r.2 ;;
              Ok (acc ++ [(r.1, row)]))
           df [].

(** ** The random generator and the operations that sample *)

(** [np.random.shuffle(l)]: the list object [l] is reordered in place and
    the generator moves to its next state. *)
Class Generator (rng : Type) : Type :=
  np_random_shuffle : rng -> list string -> list string * rng.

(** A generator reorders: it neither drops nor invents an entry. *)
Class GeneratorOk (rng : Type) `{Generator rng} : Prop :=
  shuffle_perm : forall (g : rng) (l : list string), (np_random_shuffle g l).1 ≡ₚ l.

(** [int(len(trajectory_files) * proportion)] *)
Definition sample_size (trajectory_files : list string) (proportion : R) : Z :=
  py_int (INR (length trajectory_files) * proportion).

(** The columns [x], [y] and [category] of the scatter plot. *)
Abbreviation scatter_t :=
  (list pyfloat * list pyfloat * list string)%type (only parsing).

(** The argument [trajectory_files] of [plot_class_proportion] is a list
    of list objects. The objects live in a heap, addressed by position, so
    that two entries of [trajectory_files] may be one and the same list. *)
Abbreviation heap_t := (list (list string)) (only parsing).

Section operations.
Context {rng : Type} `{Generator rng}.

(** *** plot_speed_distribution *)

(** Lines 202-243: what the caller's list and the generator are left
    as, and the grid of mean speeds before it is flipped. *)
Definition speed_grid (fs : gmap string motion_db) (map_boundary : R * R * R * R)
    (data_path trajectory_folder : string) (trajectory_files : list string)
    (proportion : option R) (g : rng)
  : (list string * rng) * result (list (list float64)) :=
  let '(x_min, x_max, y_min, y_max) := map_boundary in
  let matrix_x := py_int (x_max - x_min) in
  let matrix_y := py_int (y_max - y_min) in
  match np_zeros matrix_y matrix_x with
  | Raise e => ((trajectory_files, g), Raise e)
  | Ok speed_map =>
    let shuffled := np_random_shuffle g trajectory_files in
    let max_iter := option_map (sample_size shuffled.1) proportion in
    (shuffled,
     speed_map' <- speed_files fs x_min y_min matrix_x matrix_y data_path
                     trajectory_folder max_iter shuffled.1 0 speed_map ;;
     Ok (finalize speed_map'))
  end.

(** Line 244 on top: [np.flip(speed_map, axis=0)], the image shown. *)
Definition plot_speed_distribution (fs : gmap string motion_db)
    (map_boundary : R * R * R * R) (data_path trajectory_folder : string)
    (trajectory_files : list string) (proportion : option R) (g : rng)
  : (list string * rng) * result (list (list float64)) :=
  let out := speed_grid fs map_boundary data_path trajectory_folder
               trajectory_files proportion g in
  (out.1, grid <- out.2 ;; Ok (reverse grid)).

(** *** plot_trajectories *)

Definition trajectory_row (db : motion_db) (acc : scatter_t)
    (row : lidar_box_row) : result scatter_t :=
  cat <- resolve_category db row ;;
  Ok (acc.1.1 ++ [x row], acc.1.2 ++ [y row], acc.2 ++ [cat]).

Definition trajectory_file_rows (fs : gmap string motion_db)
    (data_path trajectory_folder : string) (acc : scatter_t)
    (trajectory_file : string) : result scatter_t :=
  if negb (is_db trajectory_file) then Ok acc
  else
    let file_path := data_path +:+ trajectory_folder +:+ "/" +:+ trajectory_file in
    db <- read_db fs file_path ;;
    for_each (trajectory_row db) (lidar_box db) acc.

(** Lines 70-74: the list iterated, and the state left behind. *)
Definition sample_files (trajectory_files : list string) (proportion : option R)
    (g : rng) : list string * (list string * rng) :=
  match proportion with
  | Some p =>
    let shuffled := np_random_shuffle g trajectory_files in
    (py_slice_to (sample_size shuffled.1 p) shuffled.1, shuffled)
  | None => (trajectory_files, (trajectory_files, g))
  end.

Definition plot_trajectories (fs : gmap string motion_db)
    (data_path trajectory_folder : string) (trajectory_files : list string)
    (proportion : option R) (g : rng)
  : (list string * rng) * result scatter_t :=
  let sampled := sample_files trajectory_files proportion g in
  (sampled.2,
   for_each (trajectory_file_rows fs data_path trajectory_folder) sampled.1
     ([], [], [])).

(** *** plot_class_proportion *)

(** Lines 117-142. *)
Fixpoint class_folders (fs : gmap string motion_db) (data_path : string)
    (trajectory_files : list nat) (proportion : option R)
    (trajectory_folders : list string) (i : nat)
    (heap : heap_t) (g : rng) (df : frame_t)
  : (heap_t * rng) * result frame_t :=
  match trajectory_folders with
  | [] => ((heap, g), Ok df)
  | trajectory_folder :: rest =>
    match trajectory_files !! i with
    | None => ((heap, g), Raise IndexError)
    | Some ref =>
      let sampled := sample_files (default [] (heap !! ref)) proportion g in
      let heap' := <[ref := sampled.2.1]> heap in
      match for_each (class_file fs data_path trajectory_folder) sampled.1 df with
      | Raise e => ((heap', sampled.2.2), Raise e)
      | Ok df' =>
        class_folders fs data_path trajectory_files proportion rest (S i)
          heap' sampled.2.2 df'
      end
    end
  end.

(** The frame of counts as it stands before line 147. *)
Definition count_by_category (fs : gmap string motion_db) (data_path : string)
    (trajectory_folders : list string) (trajectory_files : list nat)
    (proportion : option R) (heap : heap_t) (g : rng)
  : (heap_t * rng) * result frame_t :=
  class_folders fs data_path trajectory_files proportion trajectory_folders 0
    heap g (new_frame trajectory_folders).

(** The frame handed to [plot.barh]. *)
Definition plot_class_proportion (fs : gmap string motion_db) (data_path : string)
    (trajectory_folders : list string) (trajectory_files : list nat)
    (proportion : option R) (heap : heap_t) (g : rng)
  : (heap_t * rng) * result (list (string * list (string * float64))) :=
  let out := count_by_category fs data_path trajectory_folders trajectory_files
               proportion heap g in
  (out.1, df <- out.2 ;; normalize df).
End operations.

(** ** Where an output row comes from *)

Fixpoint Rsum (l : list R) : R :=
  match l with
  | [] => 0
  | a :: l' => a + Rsum l'
  end.

(** From the words of the specification: the arithmetic mean, and the
    Euclidean magnitude of a velocity. *)
Definition arithmetic_mean (l : list R) : R := Rsum l / INR (length l).

Definition euclidean_magnitude (a b c : R) : R := sqrt (a ^ 2 + b ^ 2 + c ^ 2).

Definition velocity_magnitude (row : lidar_box_row) : R :=
  euclidean_magnitude (float_value (float_of (vx row)))
    (float_value (float_of (vy row))) (float_value (float_of (vz row))).

(** A frame without a velocity: one component is NULL in the table. *)
Definition undefined_velocity (row : lidar_box_row) : bool :=
  is_nan (float_of (vx row)) || is_nan (float_of (vy row))
  || is_nan (float_of (vz row)).

(** A frame whose velocity is made of three numbers, with a squared
    magnitude in the range of float64. *)
Definition finite_velocity (row : lidar_box_row) : Prop :=
  exists a b c,
    vx row = PyFloat (Num a) /\ vy row = PyFloat (Num b) /\ vz row = PyFloat (Num c)
    /\ a ^ 2 + b ^ 2 + c ^ 2 < float_max.

(** [v] is the mean speed of a track with the frames [frames]: NaN exactly
    when no frame has a velocity, and otherwise, when the velocities are
    finite, the arithmetic mean of the magnitudes over the frames that have
    one. *)
Definition track_mean (frames : list lidar_box_row) (v : float64) : Prop :=
  let defined := filter (fun row => undefined_velocity row = false) frames in
  (v = NaN <-> defined = [])
  /\ (defined <> [] -> Forall finite_velocity defined ->
      Rsum (velocity_magnitude <$> defined) < float_max ->
      v = Num (arithmetic_mean (velocity_magnitude <$> defined))).

(** From the words of the specification: the frames of a track, in the
    order of the table. *)
Fixpoint track_frames (k : string) (rows : list lidar_box_row) : list lidar_box_row :=
  match rows with
  | [] => []
  | row :: rows' =>
    if String.eqb (track_token row) k then row :: track_frames k rows'
    else track_frames k rows'
  end.

(** The track [k] has a frame in the database [db] of a file of the
    folder [location], and its category is [cat]. *)
Definition track_of (fs : gmap string motion_db) (data_path : string)
    (trajectory_folders : list string) (trajectory_files : list (list string))
    (location cat : string) (db : motion_db) (k : string) : Prop :=
  exists (i : nat) (files : list string) (trajectory_file : string),
    trajectory_folders !! i = Some location
    /\ trajectory_files !! i = Some files
    /\ trajectory_file ∈ files
    /\ is_db trajectory_file = true
    /\ fs !! (data_path +:+ location +:+ "/" +:+ trajectory_file) = Some db
    /\ track_frames k (lidar_box db) <> []
    /\ track_category db k = Ok cat.

(** The inputs with which [plot_mean_speed_distribution] returns: every
    folder has its list of files, every [.db] entry is a database whose
    velocity columns are columns of floats, and every track of a lidar box
    resolves to a category. *)
Definition mean_speed_inputs_ok (fs : gmap string motion_db) (data_path : string)
    (trajectory_folders : list string) (trajectory_files : list (list string))
  : Prop :=
  forall (i : nat) (folder : string),
    trajectory_folders !! i = Some folder ->
    exists files,
      trajectory_files !! i = Some files
      /\ forall f, f ∈ files -> is_db f = true ->
           exists db,
             fs !! (data_path +:+ folder +:+ "/" +:+ f) = Some db
             /\ has_none (lidar_box db) = false
             /\ forall row, row ∈ lidar_box db ->
                  is_ok (resolve_category db row) = true.

(** A record is unresolved when its track is in no row of the track
    table, or the category token of its track is in no row of the category
    table. *)
Definition unresolved (db : motion_db) (row : lidar_box_row) : Prop :=
  track_token row ∉ (track db).*1
  \/ exists category_token,
       py_dict (track db) !! track_token row = Some category_token
       /\ category_token ∉ (category db).*1.

(** [grid[i][j]] *)
Definition cell_at {A} (grid : list (list A)) (i j : nat) : option A :=
  row ← grid !! i; row !! j.

(** A sum of speeds: NaN, the positive infinity, or a number between 0 and
    the end of the range. *)
Definition sum_ok (a : float64) : Prop :=
  match a with
  | Num s => 0 <= s < float_max
  | NaN | PosInf => True
  | NegInf => False
  end.

(** A cell of [speed_map] that no record touched, or one that counted at
    least one record. *)
Definition cell_ok (c : float64 * R) : Prop :=
  (c.1 = Num 0 /\ c.2 = 0) \/ (1 <= c.2 /\ sum_ok c.1).

(** ** The file lists after a call *)

(** The lists at [refs] shuffled in place, one after the other. *)
Fixpoint shuffle_lists {rng : Type} `{Generator rng} (refs : list nat)
    (heap : list (list string)) (g : rng) : list (list string) * rng :=
  match refs with
  | [] => (heap, g)
  | ref :: refs' =>
    let shuffled := np_random_shuffle g (default [] (heap !! ref)) in
    shuffle_lists refs' (<[ref := shuffled.1]> heap) shuffled.2
  end.

(** ** Runs that differ only in the order of the files *)

(** Two runs agree when both return the same value or both raise. *)
Definition same_run {A} (r1 r2 : result A) : Prop :=
  match r1, r2 with
  | Ok a, Ok b => a = b
  | Raise _, Raise _ => True
  | _, _ => False
  end.

(** The cells [(row, column, speed)] that records add to. *)
Definition apply_hits (hs : list (nat * nat * float64))
    (speed_map : list (list (float64 * R))) : list (list (float64 * R)) :=
  foldl (fun sm (h : nat * nat * float64) =>
           alter (alter (fun c : float64 * R => (f_add c.1 h.2, c.2 + 1)) h.1.2)
             h.1.1 sm)
        speed_map hs.

Fixpoint collect {A B} (f : A -> result (list B)) (l : list A) : result (list B) :=
  match l with
  | [] => Ok []
  | a :: l' => hs <- f a ;; hs' <- collect f l' ;; Ok (hs ++ hs')
  end.

(** What [speed_row] adds to a grid of [n] rows. *)
Definition row_hits (x_min y_min : R) (matrix_x matrix_y : Z) (n : nat)
    (db : motion_db) (row : lidar_box_row) : result (list (nat * nat * float64)) :=
  cat <- resolve_category db row ;;
  if bool_decide (cat = "vehicle") then
    cell <- record_cell x_min y_min row ;;
    if out_of_map cell.1 matrix_x cell.2 matrix_y then Ok []
    else
      i <- np_index n cell.2 ;;
      j <- np_index (Z.to_nat matrix_x) cell.1 ;;
      s <- py_speed row ;;
      Ok [(i, j, s)]
  else Ok [].

Definition file_hits (fs : gmap string motion_db) (x_min y_min : R)
    (matrix_x matrix_y : Z) (data_path trajectory_folder : string) (n : nat)
    (trajectory_file : string) : result (list (nat * nat * float64)) :=
  if negb (is_db trajectory_file) then Ok []
  else
    db <- read_db fs (data_path +:+ trajectory_folder +:+ "/" +:+ trajectory_file) ;;
    collect (row_hits x_min y_min matrix_x matrix_y n db) (lidar_box db).

(** ** The records of a cell *)

(** The speeds that were added to row [i], column [j]. *)
Definition hits_at (i j : nat) (hs : list (nat * nat * float64)) : list float64 :=
  (fun h : nat * nat * float64 => h.2)
    <$> filter (fun h : nat * nat * float64 => h.1.1 = i /\ h.1.2 = j) hs.

(** The mean of the speeds of a cell, as the grid computes it: their sum
    divided by their number. *)
Definition cell_mean (l : list float64) : float64 :=
  np_div (f_sum l) (INR (length l)).

(** ** The count of the specification *)

(** The databases of a group: those of the [.db] entries of its folder. *)
Definition group_dbs (fs : gmap string motion_db)
    (data_path trajectory_folder : string) (trajectory_files : list string)
  : list motion_db :=
  omap (fun f => if is_db f
                 then fs !! (data_path +:+ trajectory_folder +:+ "/" +:+ f)
                 else None)
       trajectory_files.

(** Whether the track [tok] resolves to the category [cat]. *)
Definition resolves_to (db : motion_db) (cat tok : string) : bool :=
  match track_category db tok with
  | Ok c => bool_decide (c = cat)
  | Raise _ => false
  end.

(** The tracks of a database whose resolved category is [cat]. *)
Definition tracks_of_category (db : motion_db) (cat : string) : list string :=
  filter (fun tok => resolves_to db cat tok = true) (track db).*1.

(** From the words of the specification: "for each requested category,
    count distinct tracks whose resolved category equals it", over the
    whole group. *)
Definition spec_count_by_category (dbs : list motion_db) (cat : string) : Z :=
  Z.of_nat (length (remove_dups (dbs ≫= fun db => tracks_of_category db cat))).

(** ** The records of a group *)

(** The lidar boxes of the databases of a list of files, in the order of
    the files and of the rows, each with its database. *)
Definition group_rows (fs : gmap string motion_db)
    (data_path trajectory_folder : string) (trajectory_files : list string)
  : list (motion_db * lidar_box_row) :=
  group_dbs fs data_path trajectory_folder trajectory_files
    ≫= fun db => (fun row => (db, row)) <$> lidar_box db.

(** Every [.db] entry of the list is a database whose lidar boxes all
    resolve to a category. *)
Definition files_ok (fs : gmap string motion_db)
    (data_path trajectory_folder : string) (trajectory_files : list string)
  : Prop :=
  forall f, f ∈ trajectory_files -> is_db f = true ->
    exists db,
      fs !! (data_path +:+ trajectory_folder +:+ "/" +:+ f) = Some db
      /\ forall row, row ∈ lidar_box db ->
           is_ok (resolve_category db row) = true.

(** ** The frame of proportions *)

(** The frame has one row per folder, in the order of the folders, each
    with the four columns of [dynamic_category], and every count in it is
    zero or more. *)
Definition frame_shape (trajectory_folders : list string)
    (df : list (string * list (string * pyobj))) : Prop :=
  df.*1 = trajectory_folders
  /\ Forall (fun r : string * list (string * pyobj) =>
               r.2.*1 = dynamic_category
               /\ Forall (fun cell : string * pyobj =>
                            match cell.2 with
                            | PyNaN => True
                            | PyInt n => (0 <= n)%Z
                            end) r.2) df.

(** The four assignments of lines 137-140 in their order, for the four
    counts [vs]. *)
Definition set_counts (label : string) (vs : pyobj * pyobj * pyobj * pyobj)
    (df : list (string * list (string * pyobj)))
  : list (string * list (string * pyobj)) :=
  frame_set label "generic_object" vs.2
    (frame_set label "pedestrian" vs.1.2
       (frame_set label "bicycle" vs.1.1.2
          (frame_set label "vehicle" vs.1.1.1 df))).

(** The value that the four assignments leave in the cell of a column. *)
Definition count_value (vs : pyobj * pyobj * pyobj * pyobj) (column : string)
    (old : pyobj) : pyobj :=
  if bool_decide (column = "generic_object") then vs.2
  else if bool_decide (column = "pedestrian") then vs.1.2
  else if bool_decide (column = "bicycle") then vs.1.1.2
  else if bool_decide (column = "vehicle") then vs.1.1.1
  else old.

(** ** The records that the speed grid takes in *)

(** The coordinate [v] of a record is a number at an offset from [m] that
    is in the range of float64, and [c] is that offset truncated toward
    zero. *)
Definition coordinate (v : pyfloat) (m : R) (c : Z) : Prop :=
  exists p, v = PyFloat (Num p)
            /\ - float_max < p - m < float_max
            /\ c = py_int (p - m).

(** A velocity component that Python can square: a float whose square is
    in the range of float64. *)
Definition square_in_range (v : pyfloat) : Prop :=
  match v with
  | PyNone => False
  | PyFloat (Num r) => r * r < float_max
  | PyFloat _ => True
  end.

(** A lidar box that [plot_speed_distribution] can take in: its track
    resolves to a category and, for a vehicle, its coordinates are numbers
    in range, its cell is one that numpy can index, and its velocity can be
    squared. *)
Definition row_fits (x_min y_min : R) (matrix_x matrix_y : Z) (db : motion_db)
    (row : lidar_box_row) : Prop :=
  exists cat,
    resolve_category db row = Ok cat
    /\ (cat = "vehicle" ->
        exists cx cy,
          coordinate (x row) x_min cx /\ coordinate (y row) y_min cy
          /\ (- matrix_x <= cx < matrix_x)%Z /\ (- matrix_y <= cy < matrix_y)%Z
          /\ square_in_range (vx row) /\ square_in_range (vy row)
          /\ square_in_range (vz row)).

(** ** Sample data *)

(** The generator that leaves every list as it is. *)
#[export] Instance no_shuffle : Generator unit := fun g l => (l, g).

(** The generator whose state says whether the next shuffle reverses. *)
#[export] Instance flip_shuffle : Generator bool :=
  fun g l => (if g then reverse l else l, g).

Definition sample_categories : list (string * string) :=
  [("c_veh", "vehicle"); ("c_bic", "bicycle"); ("c_ped", "pedestrian");
   ("c_gen", "generic_object")].

Definition box (tok : string) (px py pvx pvy pvz : R) : lidar_box_row :=
  {| track_token := tok;
     x := PyFloat (Num px); y := PyFloat (Num py); z := PyFloat (Num 0);
     vx := PyFloat (Num pvx); vy := PyFloat (Num pvy); vz := PyFloat (Num pvz) |}.

(** One vehicle track [t1] seen once, at [(px, py)] with velocity (3, 4, 0). *)
Definition one_vehicle_db (px py : R) : motion_db :=
  {| category := sample_categories;
     track := [("t1", "c_veh")];
     lidar_box := [box "t1" px py 3 4 0] |}.

Definition one_vehicle_fs (px py : R) : gmap string motion_db :=
  {[ "data/boston/a.db" := one_vehicle_db px py ]}.

(** A 10 x 10 grid that is undefined everywhere but at row [i], column [j]. *)
Definition single_cell_grid (i j : nat) (v : float64) : list (list float64) :=
  <[i := <[j := v]> (replicate 10 NaN)]> (replicate 10 (replicate 10 NaN)).

(** A vehicle record half a metre left of a map that starts at 0. *)
Definition half_left_row : lidar_box_row := box "t1" (-1 / 2) 5 3 4 0.

(** A vehicle record a tenth of a metre inside a map that ends at 10.5. *)
Definition near_edge_row : lidar_box_row := box "t1" (104 / 10) 5 3 4 0.

(** A folder of two databases: two vehicle tracks in the first, one
    pedestrian track in the second. *)
Definition two_file_fs : gmap string motion_db :=
  {[ "data/boston/a.db" :=
       {| category := sample_categories;
          track := [("t1", "c_veh"); ("t2", "c_veh")];
          lidar_box := [] |};
     "data/boston/b.db" :=
       {| category := sample_categories;
          track := [("t3", "c_ped")];
          lidar_box := [] |} ]}.

(** A database in which the category token of track [t2], seen in one
    lidar box, is in no row of the category table. *)
Definition dangling_row : lidar_box_row := box "t2" 5 5 3 4 0.

Definition dangling_db : motion_db :=
  {| category := sample_categories;
     track := [("t1", "c_veh"); ("t2", "c_gone")];
     lidar_box := [dangling_row] |}.

Definition dangling_fs : gmap string motion_db :=
  {[ "data/boston/a.db" := dangling_db ]}.

(** A database without any track. *)
Definition empty_fs : gmap string motion_db :=
  {[ "data/boston/a.db" :=
       {| category := sample_categories; track := []; lidar_box := [] |} ]}.

(** Two databases with one vehicle record each, at different places. *)
Definition two_vehicle_fs : gmap string motion_db :=
  {[ "data/boston/a.db" := one_vehicle_db 1 2;
     "data/boston/b.db" := one_vehicle_db 3 4 ]}.

(** A database whose only lidar box belongs to a track that the track
    table does not have. *)
Definition orphan_row : lidar_box_row := box "t9" 5 5 3 4 0.

Definition orphan_db : motion_db :=
  {| category := sample_categories; track := []; lidar_box := [orphan_row] |}.

Definition orphan_fs : gmap string motion_db :=
  {[ "data/boston/a.db" := orphan_db ]}.

(** A frame of track [t2] whose [vx] is NULL in the table. *)
Definition null_velocity_row : lidar_box_row :=
  {| track_token := "t2";
     x := PyFloat (Num 6); y := PyFloat (Num 6); z := PyFloat (Num 0);
     vx := PyFloat NaN; vy := PyFloat (Num 0); vz := PyFloat (Num 0) |}.

(** Two vehicle tracks with one frame each: [t1] with velocity (3, 4, 0),
    [t2] with a NULL in [vx]. *)
Definition null_velocity_db : motion_db :=
  {| category := sample_categories;
     track := [("t1", "c_veh"); ("t2", "c_veh")];
     lidar_box := [box "t1" 5 5 3 4 0; null_velocity_row] |}.

Definition null_velocity_fs : gmap string motion_db :=
  {[ "data/boston/a.db" := null_velocity_db ]}.

(** The frame of two folders of the same name. *)
Definition twin_frame : list (string * list (string * pyobj)) :=
  new_frame ["boston"; "boston"].

(** * Properties *)

(** ** Arithmetic of the embedding *)

Lemma float_max_big : 1048576 <= float_max.
Proof.
  unfold float_max. apply IZR_le. apply Z.leb_le. vm_compute. reflexivity.
Qed.

Lemma float_max_pos : 0 < float_max.
Proof. pose proof float_max_big. lra. Qed.

Lemma np_float_in_range (r : R) :
  - float_max < r < float_max -> np_float r = Num r.
Proof.
  intros Hr. unfold np_float.
  destruct (Rle_dec float_max r); [lra |].
  destruct (Rle_dec r (- float_max)); [lra | reflexivity].
Qed.

Lemma np_float_over (r : R) : float_max <= r -> np_float r = PosInf.
Proof.
  intros Hr. unfold np_float. destruct (Rle_dec float_max r); [reflexivity | lra].
Qed.

Lemma np_float_nonneg (r : R) : 0 <= r -> sum_ok (np_float r).
Proof.
  intros Hr. unfold np_float. pose proof float_max_pos.
  destruct (Rle_dec float_max r); [exact I |].
  destruct (Rle_dec r (- float_max)); cbn; lra.
Qed.

Lemma np_float_not_nan (r : R) : np_float r <> NaN.
Proof.
  unfold np_float.
  destruct (Rle_dec float_max r); [discriminate |].
  destruct (Rle_dec r (- float_max)); discriminate.
Qed.

Lemma np_float_Num (r s : R) : np_float r = Num s -> s = r /\ - float_max < r < float_max.
Proof.
  unfold np_float.
  destruct (Rle_dec float_max r); [discriminate |].
  destruct (Rle_dec r (- float_max)); [discriminate |].
  intros Heq. inversion Heq. lra.
Qed.

Lemma py_int_nonneg (r : R) : 0 <= r -> py_int r = Zfloor r.
Proof. intros Hr. unfold py_int. destruct (Rle_dec 0 r); [reflexivity | contradiction]. Qed.

Lemma py_int_neg (r : R) : r < 0 -> py_int r = (- Zfloor (- r))%Z.
Proof. intros Hr. unfold py_int. destruct (Rle_dec 0 r); [lra | reflexivity]. Qed.

Lemma py_int_IZR (n : Z) : py_int (IZR n) = n.
Proof.
  destruct (Rle_dec 0 (IZR n)) as [Hn | Hn].
  - rewrite py_int_nonneg by assumption. apply Zfloor_eq. lra.
  - rewrite py_int_neg by lra. rewrite <- opp_IZR.
    rewrite (Zfloor_eq (- n)%Z); [lia | lra].
Qed.

Lemma py_int_between (n : Z) (r : R) :
  0 <= r -> IZR n <= r < IZR n + 1 -> py_int r = n.
Proof. intros H0 Hn. rewrite py_int_nonneg by assumption. now apply Zfloor_eq. Qed.

Lemma py_int_small_neg (r : R) : -1 < r < 0 -> py_int r = 0%Z.
Proof.
  intros Hr. rewrite py_int_neg by lra.
  rewrite (Zfloor_eq 0%Z); [reflexivity | simpl; lra].
Qed.

(** ** The sums of speeds *)

Lemma f_add_sum_ok (a b : float64) : sum_ok a -> sum_ok b -> sum_ok (f_add a b).
Proof.
  destruct a as [r | | |], b as [s | | |]; cbn; try tauto.
  intros [Hr _] [Hs _]. apply np_float_nonneg. lra.
Qed.

Lemma f_add_Num (r s : R) :
  - float_max < r + s < float_max -> f_add (Num r) (Num s) = Num (r + s).
Proof. intros H. cbn. now apply np_float_in_range. Qed.

(** Speeds are added in any order to the same sum. *)
Lemma f_add_swap (c a b : float64) :
  sum_ok c -> sum_ok a -> sum_ok b ->
  f_add (f_add c a) b = f_add (f_add c b) a.
Proof.
  pose proof float_max_pos as Hmax.
  destruct c as [c | | |], a as [a | | |], b as [b | | |]; cbn [sum_ok];
    try tauto; try reflexivity; intros Hc Ha Hb.
  1:{ cbn [f_add].
      destruct (Rle_dec float_max (c + a)) as [Hca | Hca],
               (Rle_dec float_max (c + b)) as [Hcb | Hcb].
      - now rewrite !np_float_over by assumption.
      - rewrite (np_float_over (c + a)) by assumption.
        rewrite (np_float_in_range (c + b)) by lra. cbn [f_add].
        now rewrite np_float_over by lra.
      - rewrite (np_float_over (c + b)) by assumption.
        rewrite (np_float_in_range (c + a)) by lra. cbn [f_add].
        now rewrite np_float_over by lra.
      - rewrite (np_float_in_range (c + a)), (np_float_in_range (c + b)) by lra.
        cbn [f_add]. f_equal. lra. }
  all: cbn [f_add];
    repeat match goal with
           | |- context [np_float ?r] =>
             let H := fresh in
             pose proof (np_float_nonneg r ltac:(lra)) as H;
             pose proof (np_float_not_nan r);
             destruct (np_float r); cbn [sum_ok f_add] in H |- *
           end; try reflexivity; try tauto; congruence.
Qed.

Lemma sqrt_in_range (r : R) : 0 <= r < float_max -> 0 <= sqrt r < float_max.
Proof.
  intros [H0 Hr]. split; [apply sqrt_pos |].
  pose proof float_max_big as Hbig.
  destruct (Rle_dec r 1) as [H1 | H1].
  - apply Rle_lt_trans with 1; [| lra].
    rewrite <- sqrt_1. now apply sqrt_le_1_alt.
  - apply Rlt_trans with r; [| assumption]. apply sqrt_less; lra.
Qed.

Lemma np_sqrt_sum_ok (a : float64) : sum_ok a -> sum_ok (np_sqrt a).
Proof.
  destruct a as [r | | |]; cbn; try tauto.
  intros Hr. destruct (Rle_dec 0 r); [| exact I]. cbn. now apply sqrt_in_range.
Qed.

Lemma np_square_sum_ok (a : float64) : sum_ok (np_square a).
Proof.
  destruct a as [r | | |]; cbn; try exact I. apply np_float_nonneg. nra.
Qed.

Lemma np_speed_sum_ok (a b c : float64) : sum_ok (np_speed a b c).
Proof.
  unfold np_speed. apply np_sqrt_sum_ok.
  repeat apply f_add_sum_ok; apply np_square_sum_ok.
Qed.

Lemma py_square_sum_ok (v : pyfloat) (a : float64) :
  py_square v = Ok a -> sum_ok a.
Proof.
  destruct v as [| [r | | |]]; cbn; try discriminate.
  - destruct (Rle_dec float_max (r * r)); [discriminate |].
    intros Heq. inversion Heq; subst a. cbn. nra.
  - intros Heq. now inversion Heq.
  - intros Heq. now inversion Heq.
  - intros Heq. now inversion Heq.
Qed.

Lemma py_speed_sum_ok (row : lidar_box_row) (s : float64) :
  py_speed row = Ok s -> sum_ok s.
Proof.
  unfold py_speed. intros Hrun.
  destruct (py_square (vx row)) as [a |] eqn:Ea; cbn [bind] in Hrun; [| discriminate].
  destruct (py_square (vy row)) as [b |] eqn:Eb; cbn [bind] in Hrun; [| discriminate].
  destruct (py_square (vz row)) as [c |] eqn:Ec; cbn [bind] in Hrun; [| discriminate].
  inversion Hrun; subst s. apply np_sqrt_sum_ok.
  repeat apply f_add_sum_ok; eapply py_square_sum_ok; eassumption.
Qed.

(** The speed of a velocity of three numbers whose squares add up within
    the range. *)
Lemma np_speed_finite (a b c : R) :
  a * a + b * b + c * c < float_max ->
  np_speed (Num a) (Num b) (Num c) = Num (sqrt (a * a + b * b + c * c)).
Proof.
  intros Hr. pose proof float_max_pos as Hmax.
  assert (Ha : 0 <= a * a) by nra. assert (Hb : 0 <= b * b) by nra.
  assert (Hc : 0 <= c * c) by nra.
  unfold np_speed, np_square.
  rewrite !np_float_in_range by lra. rewrite f_add_Num by lra.
  rewrite f_add_Num by lra. cbn.
  destruct (Rle_dec 0 (a * a + b * b + c * c)); [reflexivity | lra].
Qed.

Lemma py_speed_finite (row : lidar_box_row) (a b c : R) :
  vx row = PyFloat (Num a) -> vy row = PyFloat (Num b) -> vz row = PyFloat (Num c) ->
  a * a + b * b + c * c < float_max ->
  py_speed row = Ok (Num (sqrt (a * a + b * b + c * c))).
Proof.
  intros Hx Hy Hz Hr. pose proof float_max_pos as Hmax.
  assert (Ha : 0 <= a * a) by nra. assert (Hb : 0 <= b * b) by nra.
  assert (Hc : 0 <= c * c) by nra.
  unfold py_speed. rewrite Hx, Hy, Hz. cbn [py_square].
  destruct (Rle_dec float_max (a * a)); [lra |]. cbn [bind].
  destruct (Rle_dec float_max (b * b)); [lra |]. cbn [bind].
  destruct (Rle_dec float_max (c * c)); [lra |]. cbn [bind].
  rewrite f_add_Num by lra. rewrite f_add_Num by lra. cbn.
  destruct (Rle_dec 0 (a * a + b * b + c * c)); [reflexivity | lra].
Qed.

Lemma sqrt_3_4_0 : sqrt (3 * 3 + 4 * 4 + 0 * 0) = 5.
Proof.
  replace (3 * 3 + 4 * 4 + 0 * 0) with (5 * 5) by lra.
  apply sqrt_square. lra.
Qed.

Lemma py_speed_box (tok : string) (px py : R) : py_speed (box tok px py 3 4 0) = Ok (Num 5).
Proof.
  rewrite (py_speed_finite _ 3 4 0); try reflexivity.
  - now rewrite sqrt_3_4_0.
  - pose proof float_max_big. lra.
Qed.

Lemma np_div_0_0 : np_div (Num 0) 0 = NaN.
Proof.
  unfold np_div. destruct (Req_dec_T 0 0); [| contradiction].
  reflexivity.
Qed.

Lemma np_div_count (s n : R) :
  0 <= s < float_max -> 1 <= n -> np_div (Num s) n = Num (s / n).
Proof.
  intros Hs Hn. unfold np_div. destruct (Req_dec_T n 0); [lra |].
  apply np_float_in_range.
  assert (Hdiv : 0 <= s / n <= s).
  { split; [apply Rmult_le_pos; [lra | left; apply Rinv_0_lt_compat; lra] |].
    apply (Rmult_le_reg_r n); [lra |]. unfold Rdiv.
    rewrite Rmult_assoc, Rinv_l by lra. nra. }
  lra.
Qed.

Lemma np_div_sum_ok (a : float64) (n : R) :
  sum_ok a -> 1 <= n -> sum_ok (np_div a n).
Proof.
  destruct a as [s | | |]; cbn [sum_ok]; try tauto.
  - intros Hs Hn. rewrite np_div_count by assumption. cbn.
    assert (Hdiv : 0 <= s / n <= s).
    { split; [apply Rmult_le_pos; [lra | left; apply Rinv_0_lt_compat; lra] |].
      apply (Rmult_le_reg_r n); [lra |]. unfold Rdiv.
      rewrite Rmult_assoc, Rinv_l by lra. nra. }
    lra.
  - intros _ Hn. cbn. destruct (Rlt_dec n 0); [lra | exact I].
Qed.

Lemma np_div_one_hit (s : R) :
  0 <= s < 1048576 -> np_div (f_add (Num 0) (Num s)) (0 + 1) = Num s.
Proof.
  intros Hs. pose proof float_max_big.
  rewrite f_add_Num by lra. rewrite np_div_count by lra. f_equal. field.
Qed.

(** The guard of line 229 asks for [cx < 0] and [cx >= matrix_x] at once:
    on a grid that could be allocated it never holds. *)
Lemma out_of_map_false (cx matrix_x cy matrix_y : Z) :
  (0 <= matrix_x)%Z -> out_of_map cx matrix_x cy matrix_y = false.
Proof. intros Hx. unfold out_of_map. lia. Qed.

(** ** The cell of a record *)

Lemma py_int_float_sub (v : pyfloat) (m : R) (c : Z) :
  (dx <- py_sub v m ;; py_int_float dx) = Ok c <-> coordinate v m c.
Proof.
  unfold coordinate. destruct v as [| [p | | |]]; cbn.
  - split; [discriminate | intros (p & Hp & _); discriminate].
  - unfold np_float.
    destruct (Rle_dec float_max (p - m)) as [Hhi | Hhi]; cbn.
    { split; [discriminate |]. intros (p' & Hp & Hr & _). inversion Hp; subst. lra. }
    destruct (Rle_dec (p - m) (- float_max)) as [Hlo | Hlo]; cbn.
    { split; [discriminate |]. intros (p' & Hp & Hr & _). inversion Hp; subst. lra. }
    split.
    + intros Heq. inversion Heq. exists p. split; [reflexivity |]. split; [lra | reflexivity].
    + intros (p' & Hp & _ & ->). inversion Hp; subst. reflexivity.
  - split; [discriminate | intros (p & Hp & _); discriminate].
  - split; [discriminate | intros (p & Hp & _); discriminate].
  - split; [discriminate | intros (p & Hp & _); discriminate].
Qed.

(** Lines 227-228 give the cell [(cx, cy)] exactly for a record whose two
    coordinates are numbers at an offset in range. *)
Lemma record_cell_coordinate (x_min y_min : R) (row : lidar_box_row) (cx cy : Z) :
  record_cell x_min y_min row = Ok (cx, cy)
  <-> coordinate (x row) x_min cx /\ coordinate (y row) y_min cy.
Proof.
  rewrite <- !py_int_float_sub. unfold record_cell.
  destruct (py_sub (x row) x_min) as [dx |]; cbn [bind];
    [| split; [discriminate | intros [? _]; discriminate]].
  destruct (py_int_float dx) as [cx' |]; cbn [bind];
    [| split; [discriminate | intros [? _]; discriminate]].
  destruct (py_sub (y row) y_min) as [dy |]; cbn [bind];
    [| split; [discriminate | intros [_ ?]; discriminate]].
  destruct (py_int_float dy) as [cy' |]; cbn [bind];
    [| split; [discriminate | intros [_ ?]; discriminate]].
  split.
  - intros Heq. inversion Heq. now split.
  - intros [Hx Hy]. inversion Hx. inversion Hy. reflexivity.
Qed.

Lemma coordinate_Num (p m : R) :
  - float_max < p - m < float_max -> coordinate (PyFloat (Num p)) m (py_int (p - m)).
Proof. intros Hr. exists p. now repeat split. Qed.

Lemma record_cell_Num (x_min y_min : R) (row : lidar_box_row) (px py : R) :
  x row = PyFloat (Num px) -> y row = PyFloat (Num py) ->
  - float_max < px - x_min < float_max -> - float_max < py - y_min < float_max ->
  record_cell x_min y_min row = Ok (py_int (px - x_min), py_int (py - y_min)).
Proof.
  intros Hx Hy Hrx Hry. apply record_cell_coordinate. rewrite Hx, Hy.
  split; now apply coordinate_Num.
Qed.

(** ** The speed grid *)

Lemma alter_replicate {A} (f : A -> A) (i n : nat) (a : A) :
  alter f i (replicate n a) = <[i := f a]> (replicate n a).
Proof.
  revert i. induction n as [| n IH]; intros [| i]; cbn; try reflexivity.
  f_equal. apply IH.
Qed.

(** A grid that received one record and nothing else. *)
Lemma finalize_single_hit (matrix_y matrix_x i j : nat) (s : R) :
  0 <= s < 1048576 ->
  finalize (alter (alter (fun c : float64 * R => (f_add c.1 (Num s), c.2 + 1)) j) i
              (replicate matrix_y (replicate matrix_x (Num 0, 0))))
  = <[i := <[j := Num s]> (replicate matrix_x NaN)]>
      (replicate matrix_y (replicate matrix_x NaN)).
Proof.
  intros Hs. unfold finalize. rewrite !alter_replicate.
  rewrite list_fmap_insert, fmap_replicate, list_fmap_insert, fmap_replicate.
  cbn [fst snd]. rewrite np_div_0_0, np_div_one_hit by assumption. reflexivity.
Qed.

Lemma is_db_a : is_db "a.db" = true.
Proof. reflexivity. Qed.

Lemma one_vehicle_resolve (px py : R) :
  resolve_category (one_vehicle_db px py) (box "t1" px py 3 4 0) = Ok "vehicle".
Proof. reflexivity. Qed.

Lemma one_vehicle_read (px py : R) :
  read_db (one_vehicle_fs px py) ("data/" +:+ "boston" +:+ "/" +:+ "a.db")
  = Ok (one_vehicle_db px py).
Proof. reflexivity. Qed.

Lemma speed_row_vehicle x_min y_min matrix_x matrix_y db speed_map row cx cy :
  resolve_category db row = Ok "vehicle" ->
  (0 <= matrix_x)%Z ->
  record_cell x_min y_min row = Ok (cx, cy) ->
  speed_row x_min y_min matrix_x matrix_y db speed_map row
  = add_speed speed_map matrix_x cy cx (py_speed row).
Proof.
  intros Hcat Hx Hcell. unfold speed_row. rewrite Hcat. cbn [bind].
  rewrite bool_decide_eq_true_2 by reflexivity. rewrite Hcell. cbn [bind fst snd].
  rewrite out_of_map_false by assumption. reflexivity.
Qed.

Lemma one_vehicle_files (px py x_min y_min : R) (matrix_x matrix_y : Z)
    (speed_map : speed_map_t) :
  (0 <= matrix_x)%Z ->
  - float_max < px - x_min < float_max -> - float_max < py - y_min < float_max ->
  speed_files (one_vehicle_fs px py) x_min y_min matrix_x matrix_y "data/" "boston"
    None ["a.db"] 0 speed_map
  = add_speed speed_map matrix_x (py_int (py - y_min)) (py_int (px - x_min))
      (Ok (Num 5)).
Proof.
  intros Hx Hrx Hry. unfold speed_files. rewrite is_db_a. cbn [negb].
  unfold speed_file. rewrite one_vehicle_read.
  cbn [bind lidar_box one_vehicle_db for_each].
  rewrite (speed_row_vehicle _ _ _ _ _ _ _ (py_int (px - x_min)) (py_int (py - y_min)));
    [| apply one_vehicle_resolve | assumption
     | now apply record_cell_Num].
  rewrite py_speed_box.
  destruct (add_speed _ _ _ _ _); reflexivity.
Qed.

(** The run on a 10 x 10 map of the database with one vehicle record. *)
Lemma one_vehicle_run (px py : R) (cx cy : Z) :
  px = IZR cx -> py = IZR cy ->
  - 1048576 < px < 1048576 -> - 1048576 < py < 1048576 ->
  (speed_grid (one_vehicle_fs px py) (0, 10, 0, 10) "data/" "boston" ["a.db"] None tt).2
  = (speed_map <- add_speed (replicate 10 (replicate 10 (Num 0, 0))) 10 cy cx
                    (Ok (Num 5)) ;;
     Ok (finalize speed_map)).
Proof.
  intros Hx Hy Hrx Hry. pose proof float_max_big as Hbig. unfold speed_grid.
  replace (10 - 0) with (IZR 10) by lra. rewrite !py_int_IZR.
  cbn [np_zeros Z.ltb Z.compare orb snd fst np_random_shuffle no_shuffle option_map].
  rewrite one_vehicle_files by (try lia; lra).
  replace (px - 0) with (IZR cx) by lra. replace (py - 0) with (IZR cy) by lra.
  rewrite !py_int_IZR. reflexivity.
Qed.

(** The record fell in the cell [(cx, cy)], which numpy addresses as row
    [i], column [j]. *)
Lemma one_vehicle_grid (px py : R) (cx cy : Z) (i j : nat) :
  px = IZR cx -> py = IZR cy ->
  - 1048576 < px < 1048576 -> - 1048576 < py < 1048576 ->
  np_index 10 cy = Ok i -> np_index 10 cx = Ok j ->
  (speed_grid (one_vehicle_fs px py) (0, 10, 0, 10) "data/" "boston" ["a.db"] None tt).2
  = Ok (single_cell_grid i j (Num 5)).
Proof.
  intros Hx Hy Hrx Hry Hi Hj. rewrite (one_vehicle_run px py cx cy Hx Hy Hrx Hry).
  unfold add_speed. rewrite length_replicate. change (Z.to_nat 10) with 10%nat.
  rewrite Hi, Hj. cbn [bind]. rewrite finalize_single_hit by lra. reflexivity.
Qed.

Lemma record_cell_box (tok : string) (cx cy : Z) (a b c : R) :
  - 1048576 < IZR cx < 1048576 -> - 1048576 < IZR cy < 1048576 ->
  record_cell 0 0 (box tok (IZR cx) (IZR cy) a b c) = Ok (cx, cy).
Proof.
  intros Hx Hy. pose proof float_max_big as Hbig.
  rewrite (record_cell_Num 0 0 _ (IZR cx) (IZR cy)); try reflexivity; try lra.
  replace (IZR cx - 0) with (IZR cx) by lra. replace (IZR cy - 0) with (IZR cy) by lra.
  now rewrite !py_int_IZR.
Qed.

(** C1. The claim: a vehicle record contributes to the grid if and only if
    its cell satisfies [0 <= cx < width] and [0 <= cy < height], and every
    other record is dropped. The code on the map boundary (0, 10, 0, 10):
    for the single vehicle record at (-3, 5) the cell is (-3, 5), the guard
    of line 229 lets it through, and numpy's negative index puts its speed
    5.0 in row 5, column 7; for the single vehicle record at (12, 5) the
    guard lets the cell (12, 5) through as well and the indexing of line 232
    raises IndexError. *)
Theorem C1_record_outside_map_is_not_dropped :
  record_cell 0 0 (box "t1" (-3) 5 3 4 0) = Ok ((-3)%Z, 5%Z)
  /\ out_of_map (-3) 10 5 10 = false
  /\ (speed_grid (one_vehicle_fs (-3) 5) (0, 10, 0, 10) "data/" "boston"
        ["a.db"] None tt).2
     = Ok (single_cell_grid 5 7 (Num 5))
  /\ out_of_map 12 10 5 10 = false
  /\ (speed_grid (one_vehicle_fs 12 5) (0, 10, 0, 10) "data/" "boston"
        ["a.db"] None tt).2
     = Raise IndexError.
Proof.
  split; [| split; [| split; [| split]]].
  - apply (record_cell_box "t1" (-3) 5); lra.
  - reflexivity.
  - apply (one_vehicle_grid (-3) 5 (-3) 5); try reflexivity; lra.
  - reflexivity.
  - rewrite (one_vehicle_run 12 5 12 5); try reflexivity; lra.
Qed.

Lemma finalize_zeros (matrix_y matrix_x : nat) :
  finalize (replicate matrix_y (replicate matrix_x (Num 0, 0)))
  = replicate matrix_y (replicate matrix_x NaN).
Proof.
  unfold finalize. rewrite !fmap_replicate. cbn [fst snd].
  now rewrite np_div_0_0.
Qed.

Lemma np_zeros_negative (matrix_y matrix_x : Z) :
  (matrix_x < 0 \/ matrix_y < 0)%Z -> np_zeros matrix_y matrix_x = Raise ValueError.
Proof.
  intros Hneg. unfold np_zeros.
  destruct (_ || _)%Z eqn:E; [reflexivity | lia].
Qed.

Lemma np_zeros_ok (matrix_y matrix_x : Z) :
  (0 <= matrix_x)%Z -> (0 <= matrix_y)%Z ->
  np_zeros matrix_y matrix_x
  = Ok (replicate (Z.to_nat matrix_y) (replicate (Z.to_nat matrix_x) (Num 0, 0))).
Proof.
  intros Hx Hy. unfold np_zeros.
  destruct (_ || _)%Z eqn:E; [lia | reflexivity].
Qed.

Lemma shuffle_nil `{GeneratorOk rng} (g : rng) : (np_random_shuffle g []).1 = [].
Proof. apply Permutation_nil_r. apply shuffle_perm. Qed.

#[export] Instance no_shuffle_ok : GeneratorOk unit.
Proof. intros g l. reflexivity. Qed.

(** C5, the claim as written fails twice. For a vehicle record half a
    metre left of the map, line 227 gives [int(-0.5) = 0], not
    [floor(-0.5) = -1]. On a map of width 10.5 the grid has
    [matrix_x = 10] columns, and the record at [x_max - 0.1] has the column
    10, one past the last column 9. *)
Lemma C5_cell_is_neither_floor_nor_last :
  x half_left_row = PyFloat (Num (-1 / 2)) /\ y half_left_row = PyFloat (Num 5)
  /\ record_cell 0 0 half_left_row = Ok (0%Z, 5%Z)
  /\ record_cell 0 0 half_left_row <> Ok (Zfloor (-1 / 2 - 0), Zfloor (5 - 0))
  /\ py_int (21 / 2 - 0) = 10%Z
  /\ x near_edge_row = PyFloat (Num (21 / 2 - 1 / 10))
  /\ record_cell 0 0 near_edge_row = Ok (10%Z, 5%Z).
Proof.
  pose proof float_max_big as Hbig.
  assert (Hleft : record_cell 0 0 half_left_row = Ok (0%Z, 5%Z)).
  { rewrite (record_cell_Num 0 0 _ (-1 / 2) 5); try reflexivity; try lra.
    rewrite (py_int_small_neg (-1 / 2 - 0)) by lra.
    replace (5 - 0) with (IZR 5) by lra. now rewrite py_int_IZR. }
  split; [reflexivity |]. split; [reflexivity |]. split; [exact Hleft |].
  split; [| split; [| split]].
  - rewrite Hleft. rewrite (Zfloor_eq (-1)%Z (-1 / 2 - 0)) by lra.
    intros Heq. inversion Heq.
  - apply py_int_between; lra.
  - unfold near_edge_row, box. cbn [x]. do 2 f_equal. lra.
  - rewrite (record_cell_Num 0 0 _ (104 / 10) 5); try reflexivity; try lra.
    rewrite (py_int_between 10 (104 / 10 - 0)) by lra.
    replace (5 - 0) with (IZR 5) by lra. now rewrite py_int_IZR.
Qed.

(** C5, amended. The cell of a record is
    [(int(x - x_min), int(y - y_min))], with [int] truncating toward zero,
    for the records whose coordinates are numbers at an offset within the
    range of float64, and the other records have no cell: lines 227-228
    raise. The cell is [(floor(x - x_min), floor(y - y_min))] for a record
    with [x >= x_min] and [y >= y_min]; a record exactly at
    [(x_min, y_min)] has cell (0, 0); when both extents of the map are whole
    numbers, at least 1, a record at [(x_max - eps, y_max - eps)] with
    [0 < eps <= 1] has the last cell [(matrix_x - 1, matrix_y - 1)]; and
    with the boundary (0, 10, 0, 10) and a single vehicle record at (5, 5)
    with velocity (3, 4, 0) the grid of line 243 has 5.0 at [5][5] and NaN
    in every other cell. *)
Theorem C5_record_cell :
  (forall x_min y_min row cx cy,
      record_cell x_min y_min row = Ok (cx, cy)
      <-> coordinate (x row) x_min cx /\ coordinate (y row) y_min cy)
  /\ (forall x_min y_min row px py,
         x row = PyFloat (Num px) -> y row = PyFloat (Num py) ->
         x_min <= px -> y_min <= py ->
         px - x_min < float_max -> py - y_min < float_max ->
         record_cell x_min y_min row
         = Ok (Zfloor (px - x_min), Zfloor (py - y_min)))
  /\ (forall x_min y_min row,
         x row = PyFloat (Num x_min) -> y row = PyFloat (Num y_min) ->
         record_cell x_min y_min row = Ok (0%Z, 0%Z))
  /\ (forall x_min x_max y_min y_max eps row (w h : Z),
         (1 <= w)%Z -> (1 <= h)%Z ->
         x_max - x_min = IZR w -> y_max - y_min = IZR h ->
         IZR w <= float_max -> IZR h <= float_max ->
         0 < eps <= 1 ->
         x row = PyFloat (Num (x_max - eps)) -> y row = PyFloat (Num (y_max - eps)) ->
         record_cell x_min y_min row
         = Ok (py_int (x_max - x_min) - 1, py_int (y_max - y_min) - 1)%Z)
  /\ (speed_grid (one_vehicle_fs 5 5) (0, 10, 0, 10) "data/" "boston"
        ["a.db"] None tt).2
     = Ok (single_cell_grid 5 5 (Num 5)).
Proof.
  pose proof float_max_pos as Hmax.
  split; [exact record_cell_coordinate |]. repeat split.
  - intros x_min y_min row px py Hx Hy Hpx Hpy Hrx Hry.
    rewrite (record_cell_Num _ _ _ px py) by (assumption || lra).
    rewrite !py_int_nonneg by lra. reflexivity.
  - intros x_min y_min row Hx Hy.
    rewrite (record_cell_Num _ _ _ x_min y_min) by (assumption || lra).
    replace (x_min - x_min) with (IZR 0) by lra.
    replace (y_min - y_min) with (IZR 0) by lra.
    now rewrite !py_int_IZR.
  - intros x_min x_max y_min y_max eps row w h Hw Hh Hxw Hyh Hwmax Hhmax Heps Hx Hy.
    apply IZR_le in Hw, Hh.
    rewrite (record_cell_Num _ _ _ (x_max - eps) (y_max - eps))
      by (assumption || lra).
    rewrite Hxw, Hyh, !py_int_IZR.
    do 2 f_equal; apply py_int_between; rewrite ?minus_IZR; lra.
  - apply (one_vehicle_grid 5 5 5 5); try reflexivity; lra.
Qed.

Lemma C5_record_cell_witness :
  record_cell 0 0 (box "t1" 5 5 3 4 0) = Ok (Zfloor (5 - 0), Zfloor (5 - 0)).
Proof.
  apply (proj1 (proj2 C5_record_cell)); try reflexivity;
    pose proof float_max_big; lra.
Defined.

(** C7, the claim as written fails: a map boundary of width 0 is not
    refused. Without any file the call returns a grid of 10 empty rows. *)
Lemma C7_zero_width_is_accepted :
  py_int (0 - 0) = 0%Z
  /\ (speed_grid ∅ (0, 0, 0, 10) "data/" "boston" [] None tt).2
     = Ok (replicate 10 []).
Proof.
  split.
  - replace (0 - 0) with (IZR 0) by lra. apply py_int_IZR.
  - unfold speed_grid.
    replace (0 - 0) with (IZR 0) by lra. replace (10 - 0) with (IZR 10) by lra.
    rewrite !py_int_IZR. reflexivity.
Qed.

(** C7, amended. [matrix_x = int(x_max - x_min)] and
    [matrix_y = int(y_max - y_min)], truncated toward zero, which is the
    floor when the extent is not negative. The code has no boundary check of
    its own: when either dimension is negative the allocation of the grid
    raises ValueError before the file list is shuffled and before any record
    is read; when both are zero or more the allocation succeeds, and a call
    with nothing to accumulate returns the all-NaN grid of that shape. *)
Theorem C7_grid_dimensions `{GeneratorOk rng} (fs : gmap string motion_db)
    (x_min x_max y_min y_max : R) (data_path trajectory_folder : string)
    (trajectory_files : list string) (proportion : option R) (g : rng) :
  let matrix_x := py_int (x_max - x_min) in
  let matrix_y := py_int (y_max - y_min) in
  (x_min <= x_max -> matrix_x = Zfloor (x_max - x_min))
  /\ (y_min <= y_max -> matrix_y = Zfloor (y_max - y_min))
  /\ ((matrix_x < 0 \/ matrix_y < 0)%Z ->
      speed_grid fs (x_min, x_max, y_min, y_max) data_path trajectory_folder
        trajectory_files proportion g
      = ((trajectory_files, g), Raise ValueError))
  /\ ((0 <= matrix_x)%Z -> (0 <= matrix_y)%Z ->
      (speed_grid fs (x_min, x_max, y_min, y_max) data_path trajectory_folder
         [] proportion g).2
      = Ok (replicate (Z.to_nat matrix_y) (replicate (Z.to_nat matrix_x) NaN))).
Proof.
  intros matrix_x matrix_y. repeat split.
  - intros Hx. apply py_int_nonneg. lra.
  - intros Hy. apply py_int_nonneg. lra.
  - intros Hneg. unfold speed_grid. fold matrix_x matrix_y.
    now rewrite np_zeros_negative.
  - intros Hx Hy. unfold speed_grid. fold matrix_x matrix_y.
    rewrite np_zeros_ok by assumption. cbn [snd].
    rewrite shuffle_nil. cbn [speed_files bind].
    now rewrite finalize_zeros.
Qed.

Lemma C7_grid_dimensions_witness :
  speed_grid ∅ (0, -1, 0, 10) "data/" "boston" ["a.db"] None tt
  = ((["a.db"], tt), Raise ValueError).
Proof.
  apply (C7_grid_dimensions (rng := unit) ∅ 0 (-1) 0 10 "data/" "boston"
           ["a.db"] None tt).
  left. replace (-1 - 0) with (IZR (-1)) by lra. rewrite py_int_IZR. lia.
Defined.

(** ** Mean speed per track *)

Lemma frames_of_nonempty (k : string) (rows : list lidar_box_row) :
  k ∈ track_token <$> rows <-> frames_of k rows <> [].
Proof.
  unfold frames_of. split.
  - intros Hk Hnil. apply list_elem_of_fmap in Hk as (row & -> & Hrow).
    assert (Hin : row ∈ filter (fun r => track_token r = track_token row) rows)
      by (apply list_elem_of_filter; split; [reflexivity | assumption]).
    rewrite Hnil in Hin. now apply elem_of_nil in Hin.
  - intros Hne. destruct (filter _ rows) as [| row l] eqn:E; [contradiction |].
    assert (Hin : row ∈ filter (fun r => track_token r = k) rows)
      by (rewrite E; apply elem_of_cons; now left).
    apply list_elem_of_filter in Hin as [<- Hin].
    now apply list_elem_of_fmap_2.
Qed.

Lemma frames_of_track_frames (k : string) (rows : list lidar_box_row) :
  frames_of k rows = track_frames k rows.
Proof.
  unfold frames_of. induction rows as [| row rows IH]; [reflexivity |].
  rewrite filter_cons. cbn [track_frames]. rewrite IH.
  destruct (decide (track_token row = k)) as [Heq | Hne].
  - now rewrite (proj2 (String.eqb_eq _ _) Heq).
  - now rewrite (proj2 (String.eqb_neq _ _) Hne).
Qed.

Lemma np_square_nan (a : float64) : is_nan (np_square a) = is_nan a.
Proof.
  destruct a as [r | | |]; cbn; try reflexivity.
  pose proof (np_float_not_nan (r * r)). now destruct (np_float (r * r)).
Qed.

Lemma f_add_nan (a b : float64) :
  sum_ok a -> sum_ok b -> is_nan (f_add a b) = is_nan a || is_nan b.
Proof.
  destruct a as [r | | |], b as [s | | |]; cbn; try tauto; try reflexivity.
  intros _ _. pose proof (np_float_not_nan (r + s)). now destruct (np_float (r + s)).
Qed.

Lemma np_sqrt_nan (a : float64) : sum_ok a -> is_nan (np_sqrt a) = is_nan a.
Proof.
  destruct a as [r | | |]; cbn; try tauto; try reflexivity.
  intros [Hr _]. destruct (Rle_dec 0 r); [reflexivity | contradiction].
Qed.

(** The speed of a frame is NaN exactly when one of the three components
    of its velocity is. *)
Lemma row_speed_nan (row : lidar_box_row) :
  is_nan (row_speed row) = undefined_velocity row.
Proof.
  unfold row_speed, np_speed, undefined_velocity.
  rewrite np_sqrt_nan
    by (repeat apply f_add_sum_ok; apply np_square_sum_ok).
  rewrite f_add_nan
    by (repeat apply f_add_sum_ok; apply np_square_sum_ok).
  rewrite f_add_nan by apply np_square_sum_ok.
  now rewrite !np_square_nan.
Qed.

Lemma row_speed_sum_ok (row : lidar_box_row) : sum_ok (row_speed row).
Proof. apply np_speed_sum_ok. Qed.

Lemma sq_pow (a : R) : a ^ 2 = a * a.
Proof. ring. Qed.

Lemma row_speed_finite (row : lidar_box_row) :
  finite_velocity row -> row_speed row = Num (velocity_magnitude row).
Proof.
  intros (a & b & c & Hx & Hy & Hz & Hr). rewrite !sq_pow in Hr.
  unfold row_speed, velocity_magnitude, euclidean_magnitude.
  rewrite Hx, Hy, Hz. cbn [float_of float_value].
  rewrite np_speed_finite by assumption. now rewrite !sq_pow.
Qed.

Lemma velocity_magnitude_nonneg (row : lidar_box_row) : 0 <= velocity_magnitude row.
Proof. apply sqrt_pos. Qed.

Lemma Rsum_nonneg (l : list R) : Forall (fun r => 0 <= r) l -> 0 <= Rsum l.
Proof. induction 1 as [| r l Hr _ IH]; cbn; lra. Qed.

(** A sum that stays within the range is the sum of the numbers. *)
Lemma foldl_f_add_Num (rs : list R) :
  forall a, 0 <= a -> Forall (fun r => 0 <= r) rs -> a + Rsum rs < float_max ->
            foldl f_add (Num a) (Num <$> rs) = Num (a + Rsum rs).
Proof.
  pose proof float_max_pos as Hmax.
  induction rs as [| r rs IH]; intros a Ha Hrs Hsum; cbn [fmap list_fmap foldl Rsum].
  - f_equal. cbn. lra.
  - apply Forall_cons in Hrs as [Hr Hrs]. cbn [Rsum] in Hsum.
    pose proof (Rsum_nonneg rs Hrs) as Hpos.
    rewrite f_add_Num by lra. rewrite IH by (assumption || lra). f_equal. lra.
Qed.

Lemma foldl_f_add_sum_ok (l : list float64) :
  forall a, sum_ok a -> Forall sum_ok l -> sum_ok (foldl f_add a l).
Proof.
  induction l as [| b l IH]; intros a Ha Hl; cbn; [assumption |].
  apply Forall_cons in Hl as [Hb Hl]. apply IH; [| assumption].
  now apply f_add_sum_ok.
Qed.

Lemma foldl_f_add_nan (l : list float64) :
  forall a, sum_ok a -> Forall sum_ok l -> is_nan a = false ->
            Forall (fun b => is_nan b = false) l ->
            is_nan (foldl f_add a l) = false.
Proof.
  induction l as [| b l IH]; intros a Ha Hl Hna Hnl; cbn; [assumption |].
  apply Forall_cons in Hl as [Hb Hl]. apply Forall_cons in Hnl as [Hnb Hnl].
  apply IH; [now apply f_add_sum_ok | assumption | | assumption].
  rewrite f_add_nan by assumption. now rewrite Hna, Hnb.
Qed.

Lemma np_div_nan (a : float64) (n : R) :
  sum_ok a -> 1 <= n -> is_nan (np_div a n) = is_nan a.
Proof.
  destruct a as [s | | |]; cbn [sum_ok]; intros Hs Hn.
  - now rewrite np_div_count.
  - reflexivity.
  - cbn. destruct (Rlt_dec n 0); [lra | reflexivity].
  - contradiction.
Qed.

Lemma filter_fmap_bool {A B} (f : A -> B) (p : B -> bool) (l : list A) :
  filter (fun b => p b = false) (f <$> l) = f <$> filter (fun a => p (f a) = false) l.
Proof.
  induction l as [| a l IH]; [reflexivity |].
  rewrite fmap_cons, !filter_cons.
  destruct (decide (p (f a) = false)); cbn; now rewrite IH.
Qed.

(** The frames that count in the mean of a track. *)
Lemma observed_speeds (frames : list lidar_box_row) :
  filter (fun a => is_nan a = false) (row_speed <$> frames)
  = row_speed <$> filter (fun row => undefined_velocity row = false) frames.
Proof.
  rewrite (filter_fmap_bool row_speed is_nan). f_equal.
  induction frames as [| row frames IH]; [reflexivity |].
  rewrite !filter_cons, row_speed_nan.
  destruct (decide (undefined_velocity row = false)); now rewrite IH.
Qed.

Lemma length_pos_INR {A} (l : list A) : l <> [] -> 1 <= INR (length l).
Proof.
  intros Hne. destruct l as [| a l]; [contradiction |].
  cbn [length]. rewrite S_INR. pose proof (pos_INR (length l)). lra.
Qed.

(** What [mean()] makes of the speeds of the frames of a track. *)
Lemma group_mean_track_mean (frames : list lidar_box_row) :
  track_mean frames (group_mean (row_speed <$> frames)).
Proof.
  unfold track_mean, group_mean. rewrite observed_speeds.
  set (defined := filter (fun row => undefined_velocity row = false) frames).
  assert (Hdef : Forall (fun row => undefined_velocity row = false) defined).
  { apply Forall_forall. intros row Hrow.
    now apply list_elem_of_filter in Hrow as [Hrow _]. }
  clearbody defined. destruct (decide (defined = [])) as [-> | Hne].
  { cbn. split; [tauto | contradiction]. }
  destruct (row_speed <$> defined) as [| s ss] eqn:Es.
  { apply fmap_nil_inv in Es. contradiction. }
  rewrite <- Es. clear Es s ss.
  assert (Hlen : 1 <= INR (length (row_speed <$> defined))).
  { apply length_pos_INR. intros Hnil. apply fmap_nil_inv in Hnil. contradiction. }
  split.
  - split; [| contradiction]. intros Hnan. exfalso.
    assert (Hsum : is_nan (f_sum (row_speed <$> defined)) = false).
    { unfold f_sum. apply foldl_f_add_nan.
      - cbn. pose proof float_max_pos. lra.
      - apply Forall_fmap, Forall_forall. intros r _. apply row_speed_sum_ok.
      - reflexivity.
      - apply Forall_fmap. eapply Forall_impl; [exact Hdef |].
        intros r Hr. cbn. now rewrite row_speed_nan. }
    assert (Hok : sum_ok (f_sum (row_speed <$> defined))).
    { unfold f_sum. apply foldl_f_add_sum_ok.
      - cbn. pose proof float_max_pos. lra.
      - apply Forall_fmap, Forall_forall. intros r _. apply row_speed_sum_ok. }
    pose proof (np_div_nan _ _ Hok Hlen) as Hdiv. rewrite Hnan, Hsum in Hdiv.
    discriminate.
  - intros _ Hfin Hsum.
    assert (Hspeeds : row_speed <$> defined = Num <$> (velocity_magnitude <$> defined)).
    { rewrite <- list_fmap_compose. apply Forall_fmap_ext.
      eapply Forall_impl; [exact Hfin |]. intros r Hr. cbn.
      now apply row_speed_finite. }
    assert (Hpos : Forall (fun r => 0 <= r) (velocity_magnitude <$> defined)).
    { apply Forall_fmap, Forall_forall. intros r _. apply velocity_magnitude_nonneg. }
    rewrite Hspeeds in Hlen |- *. unfold f_sum.
    rewrite foldl_f_add_Num by (assumption || lra).
    rewrite Rplus_0_l, length_fmap in *.
    rewrite np_div_count; [reflexivity | | assumption].
    split; [now apply Rsum_nonneg | assumption].
Qed.

(** The groups of [groupby] are the tokens that occur in the rows, each
    with the mean of its own rows. *)
Lemma groupby_mean_spec (rows : list lidar_box_row) (k : string) (v : float64) :
  (k, v) ∈ groupby_mean rows
  <-> k ∈ track_token <$> rows
      /\ v = group_mean (row_speed <$> frames_of k rows).
Proof.
  unfold groupby_mean. rewrite list_elem_of_fmap. split.
  - intros (k' & Heq & Hk'). inversion Heq; subst k' v; clear Heq.
    rewrite merge_sort_Permutation, elem_of_remove_dups in Hk'.
    now split.
  - intros [Hk ->]. exists k. split; [reflexivity |].
    now rewrite merge_sort_Permutation, elem_of_remove_dups.
Qed.

(** A loop that only appends: what is in the list afterwards. *)
Lemma for_each_elem {A E} (body : list E -> A -> result (list E))
    (P : A -> E -> Prop) :
  (forall acc a out, body acc a = Ok out ->
                     forall e, e ∈ out <-> e ∈ acc \/ P a e) ->
  forall l acc out, for_each body l acc = Ok out ->
                    forall e, e ∈ out <-> e ∈ acc \/ exists a, a ∈ l /\ P a e.
Proof.
  intros Hbody l. induction l as [| a l IH]; intros acc out Hrun e; cbn in Hrun.
  - inversion Hrun; subst out. split; [now left |].
    intros [He | (a & Ha & _)]; [assumption | now apply elem_of_nil in Ha].
  - destruct (body acc a) as [acc' |] eqn:Ea; cbn in Hrun; [| discriminate].
    rewrite (IH _ _ Hrun e), (Hbody _ _ _ Ea e). split.
    + intros [[He | He] | (a' & Ha' & He)]; [now left | right .. ].
      * exists a. split; [apply elem_of_cons; now left | assumption].
      * exists a'. split; [apply elem_of_cons; now right | assumption].
    + intros [He | (a' & Ha' & He)]; [now left; left |].
      apply elem_of_cons in Ha' as [-> | Ha']; [now left; right |].
      right. now exists a'.
Qed.

Lemma mean_speed_entry_elem folder db acc kv out :
  mean_speed_entry folder db acc kv = Ok out ->
  forall e, e ∈ out
            <-> e ∈ acc \/ (track_category db kv.1 = Ok e.1.2
                            /\ e.1.1 = folder /\ e.2 = kv.2).
Proof.
  unfold mean_speed_entry. intros Hrun e.
  destruct (track_category db kv.1) as [cat |]; cbn in Hrun; [| discriminate].
  inversion Hrun; subst out. rewrite elem_of_app, list_elem_of_singleton.
  destruct e as [[loc c] v]. cbn. split.
  - intros [He | He]; [now left |]. inversion He; subst. now right.
  - intros [He | (Hc & -> & ->)]; [now left |]. inversion Hc; subst. now right.
Qed.

Lemma mean_speed_file_elem fs data_path folder acc file out :
  mean_speed_file fs data_path folder acc file = Ok out ->
  forall e, e ∈ out
            <-> e ∈ acc
                \/ (is_db file = true /\ e.1.1 = folder
                    /\ exists db k,
                      fs !! (data_path +:+ folder +:+ "/" +:+ file) = Some db
                      /\ frames_of k (lidar_box db) <> []
                      /\ track_category db k = Ok e.1.2
                      /\ e.2 = group_mean
                                 (row_speed <$> frames_of k (lidar_box db))).
Proof.
  unfold mean_speed_file, read_db. intros Hrun e.
  destruct (is_db file); cbn in Hrun.
  2:{ inversion Hrun; subst out. split; [now left |].
      intros [He | (Hdb & _)]; [assumption | discriminate]. }
  destruct (fs !! _) as [db |]; cbn in Hrun; [| discriminate].
  destruct (has_none (lidar_box db)); [discriminate |].
  rewrite (for_each_elem _ _ (mean_speed_entry_elem folder db) _ _ _ Hrun e).
  split; (intros [He | He]; [now left | right]).
  - destruct He as ([k v] & Hkv & Hcat & Hloc & Hv). cbn in Hcat, Hv.
    apply groupby_mean_spec in Hkv as [Hk ->]. apply frames_of_nonempty in Hk.
    split; [reflexivity |]. split; [assumption |]. now exists db, k.
  - destruct He as (_ & Hloc & db' & k & Hdb & Hk & Hcat & Hv).
    inversion Hdb; subst db'. apply frames_of_nonempty in Hk.
    exists (k, e.2). split; [| now split].
    apply groupby_mean_spec. now split.
Qed.

Lemma mean_speed_folders_elem fs data_path files rest :
  forall i acc out,
    mean_speed_folders fs data_path files rest i acc = Ok out ->
    forall e, e ∈ out
              <-> e ∈ acc
                  \/ exists j fl file db k,
                    rest !! j = Some e.1.1
                    /\ files !! (i + j)%nat = Some fl
                    /\ file ∈ fl
                    /\ is_db file = true
                    /\ fs !! (data_path +:+ e.1.1 +:+ "/" +:+ file) = Some db
                    /\ frames_of k (lidar_box db) <> []
                    /\ track_category db k = Ok e.1.2
                    /\ e.2 = group_mean
                               (row_speed <$> frames_of k (lidar_box db)).
Proof.
  induction rest as [| folder rest IH]; intros i acc out Hrun e; cbn in Hrun.
  - inversion Hrun; subst out. split; [now left |].
    intros [He | (j & fl & file & db & k & Hj & _)]; [assumption |].
    now rewrite lookup_nil in Hj.
  - destruct (files !! i) as [fl |] eqn:Efl; [| discriminate].
    destruct (for_each _ fl acc) as [acc' |] eqn:Eacc; cbn in Hrun; [| discriminate].
    rewrite (IH _ _ _ Hrun e).
    rewrite (for_each_elem _ _ (mean_speed_file_elem fs data_path folder)
               _ _ _ Eacc e).
    split.
    + intros [[He | He] | He]; [now left | right | right].
      * destruct He as (file & Hfile & Hdb & Hloc & db & k & Hfs & Hk & Hcat & Hv).
        exists 0%nat, fl, file, db, k. rewrite Nat.add_0_r, Hloc. cbn.
        repeat split; assumption.
      * destruct He as (j & fl' & file & db & k & Hj & Hfl & Hrest).
        exists (S j), fl', file, db, k. cbn.
        replace (i + S j)%nat with (S i + j)%nat by lia. now repeat split.
    + intros [He | (j & fl' & file & db & k & Hj & Hfl & Hfile & Hdb & Hfs & Hrest)];
        [now left; left |].
      destruct j as [| j]; cbn in Hj.
      * inversion Hj as [Hloc]. rewrite Nat.add_0_r, Efl in Hfl.
        inversion Hfl; subst fl'. left; right.
        exists file. split; [assumption |]. split; [assumption |].
        split; [reflexivity |]. now exists db, k.
      * right. exists j, fl', file, db, k.
        replace (S i + j)%nat with (i + S j)%nat by lia. now repeat split.
Qed.

(** A loop whose body succeeds on every element succeeds. *)
Lemma for_each_is_ok {A S} (body : S -> A -> result S) (l : list A) :
  (forall acc a, a ∈ l -> is_ok (body acc a) = true) ->
  forall acc, is_ok (for_each body l acc) = true.
Proof.
  induction l as [| a l IH]; intros Hbody acc; cbn; [reflexivity |].
  pose proof (Hbody acc a ltac:(apply elem_of_cons; now left)) as Ha.
  destruct (body acc a) as [acc' |]; cbn in *; [| discriminate].
  apply IH. intros acc0 a0 Ha0. apply Hbody. apply elem_of_cons. now right.
Qed.

Lemma mean_speed_file_is_ok fs data_path folder (files : list string) :
  (forall f, f ∈ files -> is_db f = true ->
     exists db,
       fs !! (data_path +:+ folder +:+ "/" +:+ f) = Some db
       /\ has_none (lidar_box db) = false
       /\ forall row, row ∈ lidar_box db -> is_ok (resolve_category db row) = true) ->
  forall acc, is_ok (for_each (mean_speed_file fs data_path folder) files acc) = true.
Proof.
  intros Hfiles. apply for_each_is_ok. intros acc f Hf.
  unfold mean_speed_file, read_db. destruct (is_db f) eqn:Edb; cbn [negb];
    [| reflexivity].
  destruct (Hfiles f Hf Edb) as (db & Hfs & Hnone & Hrows).
  rewrite Hfs. cbn [bind]. rewrite Hnone.
  apply for_each_is_ok. intros acc' [k v] Hkv.
  apply groupby_mean_spec in Hkv as [Hk _].
  apply list_elem_of_fmap in Hk as (row & -> & Hrow).
  unfold mean_speed_entry. cbn. specialize (Hrows row Hrow).
  unfold resolve_category in Hrows.
  destruct (track_category db (track_token row)); [reflexivity | discriminate].
Qed.

Lemma mean_speed_folders_is_ok fs data_path files rest :
  forall i acc,
    (forall j folder, rest !! j = Some folder ->
       exists fl, files !! (i + j)%nat = Some fl
         /\ forall f, f ∈ fl -> is_db f = true ->
              exists db,
                fs !! (data_path +:+ folder +:+ "/" +:+ f) = Some db
                /\ has_none (lidar_box db) = false
                /\ forall row, row ∈ lidar_box db ->
                     is_ok (resolve_category db row) = true) ->
    is_ok (mean_speed_folders fs data_path files rest i acc) = true.
Proof.
  induction rest as [| folder rest IH]; intros i acc Hok; cbn; [reflexivity |].
  destruct (Hok 0%nat folder eq_refl) as (fl & Hfl & Hfiles).
  rewrite Nat.add_0_r in Hfl. rewrite Hfl.
  pose proof (mean_speed_file_is_ok fs data_path folder fl Hfiles acc) as Hloop.
  destruct (for_each _ fl acc) as [acc' |]; cbn in *; [| discriminate].
  apply IH. intros j folder' Hj.
  replace (S i + j)%nat with (i + S j)%nat by lia. now apply Hok.
Qed.

(** The table of the database with a NULL velocity. *)
Lemma null_velocity_table :
  plot_mean_speed_distribution null_velocity_fs "data/" ["boston"] [["a.db"]]
  = Ok [("boston", "vehicle", Num 5); ("boston", "vehicle", NaN)].
Proof.
  unfold plot_mean_speed_distribution. cbn [mean_speed_folders lookup list_lookup].
  cbn [for_each]. unfold mean_speed_file. rewrite is_db_a. cbn [negb].
  change (read_db null_velocity_fs ("data/" +:+ "boston" +:+ "/" +:+ "a.db"))
    with (Ok null_velocity_db).
  cbn [bind].
  change (has_none (lidar_box null_velocity_db)) with false. cbn iota.
  change (groupby_mean (lidar_box null_velocity_db))
    with [("t1", group_mean [row_speed (box "t1" 5 5 3 4 0)]);
          ("t2", group_mean [row_speed null_velocity_row])].
  assert (H1 : row_speed (box "t1" 5 5 3 4 0) = Num 5).
  { unfold row_speed. cbn [vx vy vz box float_of].
    rewrite np_speed_finite by (pose proof float_max_big; lra).
    now rewrite sqrt_3_4_0. }
  assert (H2 : row_speed null_velocity_row = NaN) by reflexivity.
  rewrite H1, H2.
  assert (G1 : group_mean [Num 5] = Num 5).
  { unfold group_mean.
    change (filter (fun a => is_nan a = false) [Num 5]) with [Num 5].
    unfold f_sum. cbn [foldl length]. change (INR 1) with 1.
    pose proof float_max_big. rewrite f_add_Num by lra.
    rewrite np_div_count by lra. f_equal. field. }
  assert (G2 : group_mean [NaN] = NaN) by reflexivity.
  rewrite G1, G2. reflexivity.
Qed.



Lemma one_vehicle_inputs_ok :
  mean_speed_inputs_ok (one_vehicle_fs 5 5) "data/" ["boston"] [["a.db"]].
Proof.
  intros [| i] folder Hi; [| discriminate]. inversion Hi; subst folder.
  exists ["a.db"]. split; [reflexivity |]. intros f Hf _.
  apply list_elem_of_singleton in Hf as ->.
  exists (one_vehicle_db 5 5). split; [reflexivity |]. split; [reflexivity |].
  intros row Hrow. apply list_elem_of_singleton in Hrow as ->. reflexivity.
Qed.


(** ** The frame of counts *)

Lemma py_dict_lookup_Some (kvs : list (string * string)) (k v : string) :
  NoDup kvs.*1 -> py_dict kvs !! k = Some v <-> (k, v) ∈ kvs.
Proof.
  unfold py_dict. intros Hnodup.
  assert (Hgen : forall m : gmap string string,
             foldl (fun m kv => <[kv.1 := kv.2]> m) m kvs !! k = Some v
             <-> (k, v) ∈ kvs \/ ((k ∉ kvs.*1) /\ m !! k = Some v)).
  { induction kvs as [| [k' v'] kvs IH]; intros m; cbn.
    - split; [intros Hm; right; split; [apply not_elem_of_nil | assumption] |].
      intros [Hin | [_ Hm]]; [now apply elem_of_nil in Hin | assumption].
    - cbn in Hnodup. apply NoDup_cons in Hnodup as [Hk' Hnodup].
      rewrite (IH Hnodup), elem_of_cons, not_elem_of_cons. split.
      + intros [Hin | [Hk Hm]]; [now left; right |].
        destruct (decide (k' = k)) as [-> | Hne].
        * rewrite lookup_insert_eq in Hm. inversion Hm; subst. now left; left.
        * rewrite lookup_insert_ne in Hm by assumption.
          right. split; [split; [congruence | assumption] | assumption].
      + intros [[Heq | Hin] | [[Hne Hk] Hm]].
        * inversion Heq; subst. right. split; [assumption |].
          apply lookup_insert_eq.
        * now left.
        * right. split; [assumption |].
          rewrite lookup_insert_ne by congruence. assumption. }
  rewrite Hgen. split; [| now left].
  intros [Hin | [_ Hm]]; [assumption | now rewrite lookup_empty in Hm].
Qed.

Lemma filter_length_fmap {A B} (f : A -> B) (P : A -> Prop) (Q : B -> Prop)
    `{forall a, Decision (P a)} `{forall b, Decision (Q b)} (l : list A) :
  (forall a, a ∈ l -> P a <-> Q (f a)) ->
  length (filter P l) = length (filter Q (f <$> l)).
Proof.
  induction l as [| a l IH]; intros Hl; [reflexivity |].
  rewrite fmap_cons, !filter_cons.
  assert (Ha : P a <-> Q (f a)).
  { apply Hl. apply elem_of_cons. now left. }
  assert (IH' : length (filter P l) = length (filter Q (f <$> l))).
  { apply IH. intros b Hb. apply Hl. apply elem_of_cons. now right. }
  destruct (decide (P a)), (decide (Q (f a))); cbn; try tauto; now rewrite IH'.
Qed.

Lemma fmap_fst_swap {A B} (l : list (A * B)) :
  ((fun r : A * B => (r.2, r.1)) <$> l).*1 = l.*2.
Proof. induction l as [| r l IH]; cbn; [reflexivity | now f_equal]. Qed.

(** Within one database whose tokens and category names are keys, line
    138 counts what the specification asks for: the distinct tracks whose
    resolved category is the requested one. *)
Lemma count_tracks_is_spec_count (db : motion_db) (cat tok : string) :
  NoDup (track db).*1 -> NoDup (category db).*1 -> NoDup (category db).*2 ->
  dict_get (py_dict ((fun r : string * string => (r.2, r.1)) <$> category db)) cat
  = Ok tok ->
  count_tracks db tok = spec_count_by_category [db] cat.
Proof.
  intros Htracks Htokens Hnames Htok.
  unfold count_tracks, spec_count_by_category, tracks_of_category. f_equal.
  cbn [mbind list_bind]. rewrite app_nil_r.
  assert (Hnodup : NoDup (filter (fun t => resolves_to db cat t = true) (track db).*1))
    by now apply NoDup_filter.
  rewrite (Permutation_length
             (NoDup_Permutation _ _ (NoDup_remove_dups _) Hnodup
                (fun t => elem_of_remove_dups _ t))).
  apply filter_length_fmap. intros [t ct] Hrow. cbn [fst snd].
  assert (Hswap : (cat, tok) ∈ (fun r : string * string => (r.2, r.1)) <$> category db).
  { unfold dict_get in Htok.
    destruct (py_dict _ !! cat) as [tok' |] eqn:E; [| discriminate].
    inversion Htok; subst tok'.
    apply py_dict_lookup_Some in E; [assumption |].
    now rewrite fmap_fst_swap. }
  apply list_elem_of_fmap in Hswap as ([tok' cat'] & Heq & Hcat).
  cbn in Heq. inversion Heq; subst tok' cat'. clear Heq.
  unfold resolves_to, track_category, dict_get.
  apply (py_dict_lookup_Some _ _ _ Htracks) in Hrow as ->. cbn [bind].
  split.
  - intros <-. apply (py_dict_lookup_Some _ _ _ Htokens) in Hcat as ->.
    now apply bool_decide_eq_true_2.
  - destruct (py_dict (category db) !! ct) as [c |] eqn:Ec; [| discriminate].
    intros Hc. apply bool_decide_eq_true_1 in Hc as ->.
    apply (py_dict_lookup_Some _ _ _ Htokens) in Ec.
    apply list_elem_of_lookup in Ec as (i & Hi), Hcat as (j & Hj).
    assert (Hij : i = j).
    { eapply NoDup_lookup; [exact Hnames | |];
        rewrite list_lookup_fmap; [rewrite Hi | rewrite Hj]; reflexivity. }
    subst j. rewrite Hi in Hj. now inversion Hj.
Qed.

(** C3. The claim: the counts of a group, summed over the requested
    categories, are the number of distinct tracks of the group in those
    categories. The code on a folder of two databases, two vehicle tracks
    in [a.db] and one pedestrian track in [b.db]: line 138 assigns, it does
    not add, so the row holds the counts of [b.db] alone (0 vehicles, 1
    pedestrian, sum 1) where the group has 2 vehicles and 1 pedestrian. *)
Theorem C3_counts_of_last_database_only :
  (count_by_category two_file_fs "data/" ["boston"] [0%nat] None
     [["a.db"; "b.db"]] tt).2
  = Ok [("boston", [("vehicle", PyInt 0); ("bicycle", PyInt 0);
                    ("pedestrian", PyInt 1); ("generic_object", PyInt 0)])]
  /\ spec_count_by_category
       (group_dbs two_file_fs "data/" "boston" ["a.db"; "b.db"])
     <$> dynamic_category
     = [2; 0; 1; 0]%Z.
Proof. split; vm_compute; reflexivity. Qed.

(** ** Referential integrity *)

Lemma py_dict_lookup_None (kvs : list (string * string)) (k : string) :
  py_dict kvs !! k = None <-> k ∉ kvs.*1.
Proof.
  unfold py_dict.
  assert (Hgen : forall m : gmap string string,
             foldl (fun m kv => <[kv.1 := kv.2]> m) m kvs !! k = None
             <-> m !! k = None /\ k ∉ kvs.*1).
  { induction kvs as [| [k' v'] kvs IH]; intros m; cbn.
    - split; [intros Hm; split; [assumption | apply not_elem_of_nil] | tauto].
    - rewrite IH, not_elem_of_cons, lookup_insert_None. split.
      + intros [[Hm Hne] Hk]. split; [assumption |]. split; [congruence | assumption].
      + intros [Hm [Hne Hk]]. repeat split; [assumption | congruence | assumption]. }
  rewrite Hgen, lookup_empty. tauto.
Qed.

Lemma unresolved_raises (db : motion_db) (row : lidar_box_row) :
  unresolved db row <-> resolve_category db row = Raise KeyError.
Proof.
  unfold unresolved, resolve_category, track_category, dict_get. split.
  - intros [Htok | (ct & Htok & Hct)].
    + apply py_dict_lookup_None in Htok. now rewrite Htok.
    + apply py_dict_lookup_None in Hct. rewrite Htok. cbn. now rewrite Hct.
  - destruct (py_dict (track db) !! track_token row) as [ct |] eqn:Etok; cbn.
    + destruct (py_dict (category db) !! ct) eqn:Ect; [discriminate |].
      intros _. right. exists ct. split; [reflexivity |].
      now apply py_dict_lookup_None.
    + intros _. left. now apply py_dict_lookup_None.
Qed.

(** A loop with an element on which the body always raises does not
    return. *)
Lemma for_each_raises {A S} (body : S -> A -> result S) (l : list A) (a : A) :
  a ∈ l -> (forall acc, is_ok (body acc a) = false) ->
  forall acc, is_ok (for_each body l acc) = false.
Proof.
  intros Ha Hbody. induction l as [| a' l IH]; intros acc; cbn.
  - now apply elem_of_nil in Ha.
  - destruct (body acc a') as [acc' |] eqn:Ea; cbn; [| reflexivity].
    apply elem_of_cons in Ha as [-> | Ha].
    + specialize (Hbody acc). rewrite Ea in Hbody. discriminate.
    + now apply IH.
Qed.

Lemma speed_files_raises fs x_min y_min matrix_x matrix_y data_path folder
    (files : list string) (file : string) :
  file ∈ files -> is_db file = true ->
  (forall speed_map,
      is_ok (speed_file fs x_min y_min matrix_x matrix_y data_path folder
               speed_map file) = false) ->
  forall cnt speed_map,
    is_ok (speed_files fs x_min y_min matrix_x matrix_y data_path folder
             None files cnt speed_map) = false.
Proof.
  intros Hfile Hdb Hbody. induction files as [| f files IH]; intros cnt speed_map.
  - now apply elem_of_nil in Hfile.
  - cbn. apply elem_of_cons in Hfile as [<- | Hfile].
    + rewrite Hdb. cbn. specialize (Hbody speed_map).
      destruct (speed_file _ _ _ _ _ _ _ speed_map file); [discriminate | reflexivity].
    + destruct (is_db f); cbn; [| now apply IH].
      destruct (speed_file _ _ _ _ _ _ _ speed_map f); cbn; [| reflexivity].
      now apply IH.
Qed.

Section unresolved_record.
Context {rng : Type} `{GeneratorOk rng}.
Variables (fs : gmap string motion_db) (data_path folder file : string).
Variables (db : motion_db) (row : lidar_box_row).
Hypothesis Hdb : is_db file = true.
Hypothesis Hfs : fs !! (data_path +:+ folder +:+ "/" +:+ file) = Some db.
Hypothesis Hrow : row ∈ lidar_box db.
Hypothesis Hbad : unresolved db row.

Lemma trajectory_row_raises acc : trajectory_row db acc row = Raise KeyError.
Proof.
  unfold trajectory_row. apply unresolved_raises in Hbad. now rewrite Hbad.
Qed.

Lemma speed_row_raises x_min y_min matrix_x matrix_y speed_map :
  speed_row x_min y_min matrix_x matrix_y db speed_map row = Raise KeyError.
Proof.
  unfold speed_row. apply unresolved_raises in Hbad. now rewrite Hbad.
Qed.

Lemma mean_speed_entry_raises acc v :
  mean_speed_entry folder db acc (track_token row, v) = Raise KeyError.
Proof.
  unfold mean_speed_entry. apply unresolved_raises in Hbad.
  unfold resolve_category in Hbad. cbn [fst]. now rewrite Hbad.
Qed.

Lemma trajectory_file_raises acc :
  is_ok (trajectory_file_rows fs data_path folder acc file) = false.
Proof.
  unfold trajectory_file_rows, read_db. rewrite Hdb, Hfs. cbn.
  apply for_each_raises with (a := row); [assumption |].
  intros acc'. now rewrite trajectory_row_raises.
Qed.

Lemma speed_file_raises x_min y_min matrix_x matrix_y speed_map :
  is_ok (speed_file fs x_min y_min matrix_x matrix_y data_path folder
           speed_map file) = false.
Proof.
  unfold speed_file, read_db. rewrite Hfs. cbn.
  apply for_each_raises with (a := row); [assumption |].
  intros acc'. now rewrite speed_row_raises.
Qed.

Lemma mean_speed_file_raises acc :
  is_ok (mean_speed_file fs data_path folder acc file) = false.
Proof.
  unfold mean_speed_file, read_db. rewrite Hdb, Hfs. cbn [negb bind].
  destruct (has_none (lidar_box db)); [reflexivity |].
  apply for_each_raises
    with (a := (track_token row,
                group_mean
                  (row_speed <$> frames_of (track_token row) (lidar_box db)))).
  - apply groupby_mean_spec. split; [| reflexivity].
    now apply list_elem_of_fmap_2.
  - intros acc'. now rewrite mean_speed_entry_raises.
Qed.

Lemma mean_speed_folders_raises (files : list (list string)) (fl : list string)
    (rest : list string) :
  file ∈ fl ->
  forall i j acc,
    rest !! j = Some folder -> files !! (i + j)%nat = Some fl ->
    is_ok (mean_speed_folders fs data_path files rest i acc) = false.
Proof.
  intros Hfile. induction rest as [| folder' rest IH]; intros i j acc Hj Hfl.
  - now rewrite lookup_nil in Hj.
  - cbn. destruct (files !! i) as [fl' |] eqn:Efl; [| reflexivity].
    destruct j as [| j]; cbn in Hj.
    + inversion Hj; subst folder'. rewrite Nat.add_0_r, Efl in Hfl.
      inversion Hfl; subst fl'.
      pose proof (for_each_raises (mean_speed_file fs data_path folder) fl file
                    Hfile mean_speed_file_raises acc) as Hloop.
      destruct (for_each _ fl acc); [discriminate | reflexivity].
    + destruct (for_each _ fl' acc) as [acc' |]; cbn; [| reflexivity].
      apply (IH (S i) j); [assumption |].
      now replace (S i + j)%nat with (i + S j)%nat by lia.
Qed.


End unresolved_record.




(** ** Division by zero *)

Lemma for_each_invariant {A S} (body : S -> A -> result S) (P : S -> Prop) :
  (forall acc a acc', P acc -> body acc a = Ok acc' -> P acc') ->
  forall l acc acc', P acc -> for_each body l acc = Ok acc' -> P acc'.
Proof.
  intros Hbody l. induction l as [| a l IH]; intros acc acc' Hacc Hrun; cbn in Hrun.
  - inversion Hrun; subst; assumption.
  - destruct (body acc a) as [acc1 |] eqn:Ea; cbn in Hrun; [| discriminate].
    eapply IH; [| exact Hrun]. eapply Hbody; eassumption.
Qed.

(** What every addition of a record keeps, the loop over the files
    keeps. *)
Lemma speed_files_keeps (P : list (list (float64 * R)) -> Prop) :
  (forall speed_map matrix_x cy cx row speed_map',
      P speed_map ->
      add_speed speed_map matrix_x cy cx (py_speed row) = Ok speed_map' ->
      P speed_map') ->
  forall fs x_min y_min matrix_x matrix_y data_path folder max_iter
         (files : list string) cnt speed_map speed_map',
    P speed_map ->
    speed_files fs x_min y_min matrix_x matrix_y data_path folder max_iter
      files cnt speed_map = Ok speed_map' ->
    P speed_map'.
Proof.
  intros Hadd fs x_min y_min matrix_x matrix_y data_path folder max_iter files.
  induction files as [| f files IH]; intros cnt speed_map speed_map' HP Hrun;
    cbn in Hrun.
  - inversion Hrun; subst; assumption.
  - destruct (is_db f); cbn in Hrun; [| eapply IH; eassumption].
    destruct (speed_file _ _ _ _ _ _ _ speed_map f) as [sm1 |] eqn:Efile;
      cbn in Hrun; [| discriminate].
    assert (HP1 : P sm1).
    { unfold speed_file in Efile.
      destruct (read_db fs _) as [db |]; cbn in Efile; [| discriminate].
      eapply for_each_invariant; [| exact HP | exact Efile].
      intros acc row acc' Hacc Hrow. unfold speed_row in Hrow.
      destruct (resolve_category db row) as [cat |]; cbn [bind] in Hrow;
        [| discriminate].
      destruct (bool_decide (cat = "vehicle"));
        [| inversion Hrow; subst; assumption].
      destruct (record_cell x_min y_min row) as [cell |]; cbn [bind] in Hrow;
        [| discriminate].
      destruct (out_of_map cell.1 matrix_x cell.2 matrix_y);
        [inversion Hrow; subst; assumption |].
      eapply Hadd; eassumption. }
    destruct max_iter as [m |].
    + destruct (cnt + 1 >=? m)%Z; [inversion Hrun; subst; assumption |].
      eapply IH; eassumption.
    + eapply IH; eassumption.
Qed.

Lemma add_speed_inv speed_map matrix_x cy cx speed speed_map' :
  add_speed speed_map matrix_x cy cx speed = Ok speed_map' ->
  exists i j s,
    np_index (length speed_map) cy = Ok i
    /\ np_index (Z.to_nat matrix_x) cx = Ok j
    /\ speed = Ok s
    /\ speed_map'
       = alter (alter (fun c : float64 * R => (f_add c.1 s, c.2 + 1)) j) i speed_map.
Proof.
  unfold add_speed. intros Hrun.
  destruct (np_index (length speed_map) cy) as [i |]; cbn [bind] in Hrun;
    [| discriminate].
  destruct (np_index (Z.to_nat matrix_x) cx) as [j |]; cbn [bind] in Hrun;
    [| discriminate].
  destruct speed as [s |]; cbn [bind] in Hrun; [| discriminate].
  inversion Hrun. now exists i, j, s.
Qed.

Lemma add_speed_cell_ok speed_map matrix_x cy cx row speed_map' :
  Forall (Forall cell_ok) speed_map ->
  add_speed speed_map matrix_x cy cx (py_speed row) = Ok speed_map' ->
  Forall (Forall cell_ok) speed_map'.
Proof.
  intros Hok Hrun.
  apply add_speed_inv in Hrun as (i & j & s & _ & _ & Hs & ->).
  apply py_speed_sum_ok in Hs.
  apply Forall_alter; [assumption |]. intros cells _ Hcells.
  apply Forall_alter; [assumption |]. intros c _ Hc.
  right. cbn [fst snd]. destruct Hc as [[-> ->] | [Hc Hsum]].
  - split; [lra |]. apply f_add_sum_ok; [| assumption].
    cbn. pose proof float_max_pos. lra.
  - split; [lra |]. now apply f_add_sum_ok.
Qed.

Lemma cell_at_finalize (speed_map : list (list (float64 * R))) (i j : nat) :
  cell_at (finalize speed_map) i j
  = (fun c : float64 * R => np_div c.1 c.2) <$> cell_at speed_map i j.
Proof.
  unfold cell_at, finalize. rewrite list_lookup_fmap.
  destruct (speed_map !! i) as [row |]; cbn; [| reflexivity].
  apply list_lookup_fmap.
Qed.

Lemma cell_at_ok (speed_map : list (list (float64 * R))) (i j : nat)
    (c : float64 * R) :
  Forall (Forall cell_ok) speed_map -> cell_at speed_map i j = Some c -> cell_ok c.
Proof.
  unfold cell_at. intros Hok Hc.
  destruct (speed_map !! i) as [row |] eqn:Erow; cbn in Hc; [| discriminate].
  eapply Forall_lookup_1; [| exact Hc]. eapply Forall_lookup_1; eassumption.
Qed.

Lemma div_row_zero_sum (row : list (string * pyobj)) :
  row <> [] -> row_sum row = 0%Z -> div_row row = Raise ZeroDivisionError.
Proof.
  unfold div_row. intros Hne ->. destruct row as [| cell row]; [contradiction |].
  reflexivity.
Qed.

Lemma normalize_raises_zero_division (df : list (string * list (string * pyobj))) :
  forall acc e,
    for_each (fun acc (r : string * list (string * pyobj)) =>
                row <- div_row r.2 ;; Ok (acc ++ [(r.1, row)])) df acc = Raise e ->
    e = ZeroDivisionError.
Proof.
  assert (Hrow : forall (row : list (string * pyobj)) s acc e,
             for_each (fun acc (cell : string * pyobj) =>
                         v <- py_truediv cell.2 s ;; Ok (acc ++ [(cell.1, v)]))
                      row acc = Raise e -> e = ZeroDivisionError).
  { induction row as [| cell row IH]; intros s acc e Hrun; cbn in Hrun;
      [discriminate |].
    unfold py_truediv in Hrun at 1. destruct (s =? 0)%Z; cbn in Hrun;
      [now inversion Hrun |].
    destruct cell.2; cbn in Hrun; eapply IH; exact Hrun. }
  induction df as [| r df IH]; intros acc e Hrun; cbn in Hrun; [discriminate |].
  destruct (div_row r.2) as [row |] eqn:Er; cbn in Hrun.
  - eapply IH; exact Hrun.
  - inversion Hrun; subst. unfold div_row in Er. eapply Hrow; exact Er.
Qed.

(** C6, the claim as written fails for the proportions: the frame
    [df_proportion] has dtype object, its cells are divided as Python
    objects, and a row whose sum is zero raises ZeroDivisionError. Both a
    folder whose database has no track (a row of zeros) and a folder without
    any database (a row of NaN) end that way. *)
Lemma C6_zero_row_sum_raises :
  (count_by_category empty_fs "data/" ["boston"] [0%nat] None [["a.db"]] tt).2
  = Ok [("boston", [("vehicle", PyInt 0); ("bicycle", PyInt 0);
                    ("pedestrian", PyInt 0); ("generic_object", PyInt 0)])]
  /\ (plot_class_proportion empty_fs "data/" ["boston"] [0%nat] None [["a.db"]] tt).2
     = Raise ZeroDivisionError
  /\ (plot_class_proportion ∅ "data/" ["boston"] [0%nat] None [[]] tt).2
     = Raise ZeroDivisionError.
Proof. repeat split; reflexivity. Qed.

(** C6, amended. The division of line 243 never raises: whenever the loop
    over the files returns the accumulated array, [plot_speed_distribution]
    returns that array divided, and in it a cell with count zero is NaN and
    a cell with a count of one or more is its sum divided by its count (NaN
    when the sum is NaN, the positive infinity when the sum is). The
    division of line 147 raises ZeroDivisionError exactly when some row of
    the frame has sum zero; with every row sum different from zero it
    returns the proportions. *)
Theorem C6_division_by_zero `{Generator rng} :
  (forall fs x_min x_max y_min y_max data_path folder files proportion (g : rng)
          zeros speed_map,
      let matrix_x := py_int (x_max - x_min) in
      let matrix_y := py_int (y_max - y_min) in
      let shuffled := (np_random_shuffle g files).1 in
      np_zeros matrix_y matrix_x = Ok zeros ->
      speed_files fs x_min y_min matrix_x matrix_y data_path folder
        (option_map (sample_size shuffled) proportion) shuffled 0 zeros
      = Ok speed_map ->
      (speed_grid fs (x_min, x_max, y_min, y_max) data_path folder files
         proportion g).2
      = Ok (finalize speed_map)
      /\ forall i j c,
           cell_at speed_map i j = Some c ->
           (c.2 = 0 /\ cell_at (finalize speed_map) i j = Some NaN)
           \/ (1 <= c.2
               /\ match c.1 with
                  | Num s => cell_at (finalize speed_map) i j = Some (Num (s / c.2))
                  | NaN => cell_at (finalize speed_map) i j = Some NaN
                  | PosInf => cell_at (finalize speed_map) i j = Some PosInf
                  | NegInf => False
                  end))
  /\ (forall (df : list (string * list (string * pyobj))) r,
         r ∈ df -> r.2 <> [] -> row_sum r.2 = 0%Z ->
         normalize df = Raise ZeroDivisionError)
  /\ (forall (df : list (string * list (string * pyobj))),
         (forall r, r ∈ df -> row_sum r.2 <> 0%Z) ->
         is_ok (normalize df) = true).
Proof.
  split; [| split].
  - intros fs x_min x_max y_min y_max data_path folder files proportion g
           zeros speed_map matrix_x matrix_y shuffled Hzeros Hloop.
    split.
    { unfold speed_grid. fold matrix_x matrix_y. rewrite Hzeros. cbn [snd].
      fold shuffled. now rewrite Hloop. }
    assert (Hok : Forall (Forall cell_ok) speed_map).
    { eapply (speed_files_keeps _ add_speed_cell_ok); [| exact Hloop].
      unfold np_zeros in Hzeros. destruct (_ || _)%Z; [discriminate |].
      inversion Hzeros. apply Forall_replicate, Forall_replicate. left. now split. }
    intros i j c Hc. rewrite cell_at_finalize, Hc. cbn [fmap option_fmap option_map].
    destruct (cell_at_ok _ _ _ _ Hok Hc) as [[H1 H2] | [Hpos Hsum]].
    + left. split; [assumption |]. now rewrite H1, H2, np_div_0_0.
    + right. split; [assumption |].
      destruct c.1 as [s | | |] eqn:E1; cbn [sum_ok] in Hsum.
      * now rewrite np_div_count.
      * reflexivity.
      * cbn. destruct (Rlt_dec c.2 0); [lra | reflexivity].
      * contradiction.
  - intros df r Hr Hne Hsum. unfold normalize.
    pose proof (for_each_raises
                  (fun acc (r : string * list (string * pyobj)) =>
                     row <- div_row r.2 ;; Ok (acc ++ [(r.1, row)]))
                  df r Hr) as Hloop.
    specialize (Hloop ltac:(intros acc; cbn beta; now rewrite div_row_zero_sum) []).
    destruct (for_each _ df []) as [out | e] eqn:E; [discriminate |].
    f_equal. eapply normalize_raises_zero_division. exact E.
  - intros df Hdf. unfold normalize. apply for_each_is_ok.
    intros acc r Hr. specialize (Hdf r Hr). unfold div_row.
    assert (Hrow : forall (row : list (string * pyobj)) acc',
               is_ok (for_each (fun acc (cell : string * pyobj) =>
                                  v <- py_truediv cell.2 (row_sum r.2) ;;
                                  Ok (acc ++ [(cell.1, v)])) row acc') = true).
    { intros row. apply for_each_is_ok. intros acc' cell _. unfold py_truediv.
      destruct (Z.eqb_spec (row_sum r.2) 0); [contradiction |].
      now destruct cell.2. }
    specialize (Hrow r.2 []).
    destruct (for_each _ r.2 []); [reflexivity | discriminate].
Qed.

Lemma one_vehicle_loop :
  speed_files (one_vehicle_fs 5 5) 0 0 (py_int (10 - 0)) (py_int (10 - 0))
    "data/" "boston" (option_map (sample_size (np_random_shuffle tt ["a.db"]).1) None)
    (np_random_shuffle tt ["a.db"]).1 0 (replicate 10 (replicate 10 (Num 0, 0)))
  = Ok (alter (alter (fun c : float64 * R => (f_add c.1 (Num 5), c.2 + 1)) 5%nat) 5%nat
          (replicate 10 (replicate 10 (Num 0, 0)))).
Proof.
  pose proof float_max_big as Hbig.
  cbn [np_random_shuffle no_shuffle fst option_map].
  rewrite one_vehicle_files;
    [| replace (10 - 0) with (IZR 10) by lra; rewrite py_int_IZR; lia | lra | lra].
  replace (10 - 0) with (IZR 10) by lra. replace (5 - 0) with (IZR 5) by lra.
  rewrite !py_int_IZR. reflexivity.
Qed.

Lemma C6_division_by_zero_witness :
  (speed_grid (one_vehicle_fs 5 5) (0, 10, 0, 10) "data/" "boston" ["a.db"] None tt).2
  = Ok (finalize
          (alter (alter (fun c : float64 * R => (f_add c.1 (Num 5), c.2 + 1)) 5%nat) 5%nat
             (replicate 10 (replicate 10 (Num 0, 0))))).
Proof.
  apply (proj1 (C6_division_by_zero (rng := unit)) (one_vehicle_fs 5 5) 0 10 0 10
           "data/" "boston" ["a.db"] None tt
           (replicate 10 (replicate 10 (Num 0, 0)))).
  - replace (10 - 0) with (IZR 10) by lra. rewrite py_int_IZR. reflexivity.
  - exact one_vehicle_loop.
Defined.

(** ** Entries of a file list that are not databases *)

Lemma for_each_filter {A S} (body : S -> A -> result S) (keep : A -> bool) :
  (forall acc a, keep a = false -> body acc a = Ok acc) ->
  forall l acc,
    for_each body l acc = for_each body (filter (fun a => keep a = true) l) acc.
Proof.
  intros Hskip l. induction l as [| a l IH]; intros acc; [reflexivity |].
  rewrite filter_cons. destruct (decide (keep a = true)) as [Ha | Ha]; cbn.
  - destruct (body acc a); cbn; [apply IH | reflexivity].
  - rewrite Hskip by now destruct (keep a). cbn. apply IH.
Qed.

Lemma speed_files_filter fs x_min y_min matrix_x matrix_y data_path folder
    max_iter (l : list string) :
  forall cnt speed_map,
    speed_files fs x_min y_min matrix_x matrix_y data_path folder max_iter
      l cnt speed_map
    = speed_files fs x_min y_min matrix_x matrix_y data_path folder max_iter
        (filter (fun f => is_db f = true) l) cnt speed_map.
Proof.
  induction l as [| f l IH]; intros cnt speed_map; [reflexivity |].
  rewrite filter_cons. destruct (decide (is_db f = true)) as [Hf | Hf]; cbn.
  - rewrite Hf. cbn. destruct (speed_file _ _ _ _ _ _ _ speed_map f); cbn;
      [| reflexivity].
    destruct max_iter as [m |]; [| apply IH].
    destruct (cnt + 1 >=? m)%Z; [reflexivity | apply IH].
  - destruct (is_db f); [contradiction |]. cbn. apply IH.
Qed.

(** ** What a call leaves of the caller's lists *)

Lemma class_folders_heap_None `{Generator rng} fs data_path refs rest :
  forall i heap (g : rng) df,
    (class_folders fs data_path refs None rest i heap g df).1 = (heap, g).
Proof.
  induction rest as [| folder rest IH]; intros i heap g df; cbn; [reflexivity |].
  destruct (refs !! i) as [ref |]; [| reflexivity].
  assert (Hheap : <[ref := default [] (heap !! ref)]> heap = heap).
  { destruct (heap !! ref) as [l |] eqn:El; cbn.
    - now apply list_insert_id.
    - apply list_insert_ge. now apply lookup_ge_None. }
  rewrite Hheap. destruct (for_each _ _ df); [apply IH | reflexivity].
Qed.

Lemma class_folders_heap_Some `{Generator rng} fs data_path refs p rest :
  forall i heap (g : rng) df,
    (i <= length refs)%nat ->
    exists k,
      (k <= length rest)%nat
      /\ (class_folders fs data_path refs (Some p) rest i heap g df).1
         = shuffle_lists (take k (drop i refs)) heap g
      /\ (is_ok (class_folders fs data_path refs (Some p) rest i heap g df).2 = true ->
          k = length rest /\ (i + length rest <= length refs)%nat)
      /\ (rest <> [] -> (i < length refs)%nat -> (1 <= k)%nat).
Proof.
  induction rest as [| folder rest IH]; intros i heap g df Hi; cbn.
  - exists 0%nat. split; [lia |]. split; [reflexivity |].
    split; [intros _; lia | intros Hne; contradiction].
  - destruct (refs !! i) as [ref |] eqn:Eref.
    + rewrite (drop_S _ _ _ Eref). apply lookup_lt_Some in Eref as Hlt.
      set (shuffled := np_random_shuffle g (default [] (heap !! ref))).
      destruct (for_each _ _ df) as [df' |] eqn:Efiles.
      * destruct (IH (S i) (<[ref := shuffled.1]> heap) shuffled.2 df' Hlt)
          as (k & Hk & Hst & Hok & _).
        exists (S k). split; [lia |]. split; [exact Hst |].
        split; [| lia]. intros Hrun. destruct (Hok Hrun) as [-> Hlen].
        split; [reflexivity | lia].
      * exists 1%nat. split; [lia |]. split; [reflexivity |].
        split; [discriminate | lia].
    + exists 0%nat. apply lookup_ge_None in Eref.
      split; [lia |]. split; [reflexivity |]. split; [discriminate | lia].
Qed.

Lemma negative_extent : py_int (-1 - 0) = (-1)%Z.
Proof. replace (-1 - 0) with (IZR (-1)) by lra. apply py_int_IZR. Qed.

(** C9, the claim as written fails: [plot_speed_distribution] allocates
    the grid (line 205) before it shuffles (line 207). On a map boundary of
    negative width the allocation raises and the caller's list keeps its
    order, with a generator that would have reversed it. *)
Lemma C9_negative_extent_leaves_list_unshuffled :
  (np_random_shuffle true ["a.db"; "b.db"]).1 = ["b.db"; "a.db"]
  /\ plot_speed_distribution ∅ (0, -1, 0, 10) "data/" "boston"
       ["a.db"; "b.db"] None true
     = ((["a.db"; "b.db"], true), Raise ValueError).
Proof.
  split; [reflexivity |].
  unfold plot_speed_distribution, speed_grid. rewrite negative_extent.
  rewrite np_zeros_negative by (left; lia). reflexivity.
Qed.

(** C9, amended. [plot_speed_distribution] shuffles the caller's list in
    place on every call that gets past the allocation of the grid, that is
    whenever neither dimension is negative, whether [proportion] is None or
    not and whatever the call raises afterwards; when a dimension is
    negative the list keeps its order. [plot_trajectories]
    shuffles the caller's list in place when [proportion] is not None and
    leaves it alone otherwise. [plot_class_proportion] with a [proportion]
    shuffles in place, in folder order, the list of every folder it reaches:
    at least the first one, all of them when the loop over the folders
    completes; with [proportion] None it leaves every list as it was. *)
Theorem C9_file_lists_after_the_call `{Generator rng} :
  (forall fs x_min x_max y_min y_max data_path folder files proportion (g : rng),
      (0 <= py_int (x_max - x_min))%Z -> (0 <= py_int (y_max - y_min))%Z ->
      (plot_speed_distribution fs (x_min, x_max, y_min, y_max) data_path folder
         files proportion g).1
      = np_random_shuffle g files)
  /\ (forall fs x_min x_max y_min y_max data_path folder files proportion (g : rng),
         (py_int (x_max - x_min) < 0 \/ py_int (y_max - y_min) < 0)%Z ->
         (plot_speed_distribution fs (x_min, x_max, y_min, y_max) data_path folder
            files proportion g).1
         = (files, g))
  /\ (forall fs data_path folder files p (g : rng),
         (plot_trajectories fs data_path folder files (Some p) g).1
         = np_random_shuffle g files)
  /\ (forall fs data_path folder files (g : rng),
         (plot_trajectories fs data_path folder files None g).1 = (files, g))
  /\ (forall fs data_path folders refs p heap (g : rng),
         exists k,
           (k <= length folders)%nat
           /\ (plot_class_proportion fs data_path folders refs (Some p) heap g).1
              = shuffle_lists (take k refs) heap g
           /\ (is_ok (count_by_category fs data_path folders refs (Some p)
                        heap g).2 = true ->
               k = length folders)
           /\ (folders <> [] -> refs <> [] -> (1 <= k)%nat))
  /\ (forall fs data_path folders refs heap (g : rng),
         (plot_class_proportion fs data_path folders refs None heap g).1
         = (heap, g)).
Proof.
  split; [| split; [| split; [| split; [| split]]]].
  - intros fs x_min x_max y_min y_max data_path folder files proportion g Hx Hy.
    unfold plot_speed_distribution, speed_grid.
    rewrite np_zeros_ok by assumption. cbn [fst].
    now destruct (np_random_shuffle g files).
  - intros fs x_min x_max y_min y_max data_path folder files proportion g Hneg.
    unfold plot_speed_distribution, speed_grid.
    now rewrite np_zeros_negative.
  - intros. unfold plot_trajectories, sample_files. cbn [fst snd].
    now destruct (np_random_shuffle g files).
  - reflexivity.
  - intros fs data_path folders refs p heap g.
    unfold plot_class_proportion, count_by_category. cbn [fst snd].
    destruct (class_folders_heap_Some fs data_path refs p folders 0 heap g
                (new_frame folders) ltac:(lia)) as (k & Hk & Hst & Hok & Hfirst).
    rewrite drop_0 in Hst. exists k. split; [assumption |].
    split; [assumption |]. split; [intros Hrun; now apply Hok |].
    intros Hf Hr. apply Hfirst; [assumption |].
    destruct refs; [contradiction | cbn; lia].
  - intros. unfold plot_class_proportion, count_by_category. cbn [fst].
    apply class_folders_heap_None.
Qed.

Lemma C9_file_lists_after_the_call_witness :
  (plot_speed_distribution ∅ (0, 10, 0, 10) "data/" "boston" ["a.db"; "b.db"]
     None true).1
  = np_random_shuffle true ["a.db"; "b.db"].
Proof.
  apply (proj1 (C9_file_lists_after_the_call (rng := bool)));
    replace (10 - 0) with (IZR 10) by lra; rewrite py_int_IZR; lia.
Defined.

(** ** Independence of the order of the files *)

Lemma apply_hits_length hs (speed_map : list (list (float64 * R))) :
  length (apply_hits hs speed_map) = length speed_map.
Proof.
  revert speed_map. induction hs as [| h hs IH]; intros speed_map; cbn;
    [reflexivity |].
  unfold apply_hits in IH. rewrite IH. apply length_alter.
Qed.

Lemma apply_hits_app hs1 hs2 (speed_map : list (list (float64 * R))) :
  apply_hits (hs1 ++ hs2) speed_map = apply_hits hs2 (apply_hits hs1 speed_map).
Proof. unfold apply_hits. apply foldl_app. Qed.

Lemma apply_hits_sum_ok hs :
  forall speed_map : list (list (float64 * R)),
    Forall (fun h : nat * nat * float64 => sum_ok h.2) hs ->
    Forall (Forall (fun c : float64 * R => sum_ok c.1)) speed_map ->
    Forall (Forall (fun c : float64 * R => sum_ok c.1)) (apply_hits hs speed_map).
Proof.
  induction hs as [| h hs IH]; intros speed_map Hhs Hsm; [assumption |].
  apply Forall_cons in Hhs as [Hh Hhs].
  change (Forall (Forall (fun c : float64 * R => sum_ok c.1))
            (apply_hits hs
               (alter (alter (fun c : float64 * R => (f_add c.1 h.2, c.2 + 1)) h.1.2)
                  h.1.1 speed_map))).
  apply IH; [assumption |].
  apply Forall_alter; [assumption |]. intros cells _ Hcells.
  apply Forall_alter; [assumption |]. intros c _ Hc. cbn [fst].
  now apply f_add_sum_ok.
Qed.

Lemma apply_hit_swap (h1 h2 : nat * nat * float64)
    (speed_map : list (list (float64 * R))) :
  sum_ok h1.2 -> sum_ok h2.2 ->
  Forall (Forall (fun c : float64 * R => sum_ok c.1)) speed_map ->
  apply_hits [h1; h2] speed_map = apply_hits [h2; h1] speed_map.
Proof.
  destruct h1 as [[i1 j1] s1], h2 as [[i2 j2] s2]. unfold apply_hits. cbn.
  intros H1 H2 Hsm.
  destruct (decide (i2 = i1)) as [-> | Hi].
  - rewrite !list_alter_alter_eq. apply list_alter_ext; [| reflexivity].
    intros cells Hcells. cbn. destruct (decide (j2 = j1)) as [-> | Hj].
    + rewrite !list_alter_alter_eq. apply list_alter_ext; [| reflexivity].
      intros c Hc. cbn. f_equal; try lra.
      apply f_add_swap; try assumption.
      apply (Forall_lookup_1 _ _ _ _ Hsm) in Hcells.
      now apply (Forall_lookup_1 _ _ _ _ Hcells) in Hc.
    + now apply list_alter_alter_ne.
  - now apply list_alter_alter_ne.
Qed.

Lemma apply_hits_perm hs hs' :
  hs ≡ₚ hs' ->
  forall speed_map : list (list (float64 * R)),
    Forall (fun h : nat * nat * float64 => sum_ok h.2) hs ->
    Forall (Forall (fun c : float64 * R => sum_ok c.1)) speed_map ->
    apply_hits hs speed_map = apply_hits hs' speed_map.
Proof.
  induction 1 as [| h hs hs' _ IH | h1 h2 hs | hs1 hs2 hs3 Hp1 IH1 _ IH2];
    intros speed_map Hhs Hsm.
  - reflexivity.
  - apply Forall_cons in Hhs as [Hh Hhs].
    apply (IH (apply_hits [h] speed_map)); [assumption |].
    apply apply_hits_sum_ok; [| assumption]. now constructor.
  - apply Forall_cons in Hhs as [Hh2 Hhs]. apply Forall_cons in Hhs as [Hh1 Hhs].
    change (apply_hits hs (apply_hits [h2; h1] speed_map)
            = apply_hits hs (apply_hits [h1; h2] speed_map)).
    now rewrite apply_hit_swap.
  - rewrite IH1 by assumption. apply IH2; [| assumption].
    now rewrite <- Hp1.
Qed.

Lemma collect_perm {A B} (f : A -> result (list B)) (l l' : list A) :
  l ≡ₚ l' ->
  match collect f l, collect f l' with
  | Ok hs, Ok hs' => hs ≡ₚ hs'
  | Raise _, Raise _ => True
  | _, _ => False
  end.
Proof.
  induction 1 as [| a l l' _ IH | a b l | l1 l2 l3 _ IH1 _ IH2]; cbn.
  - reflexivity.
  - destruct (f a); cbn; [| exact I].
    destruct (collect f l), (collect f l'); cbn; try assumption.
    now apply Permutation_app_head.
  - destruct (f a) as [ha |], (f b) as [hb |], (collect f l) as [hl |];
      cbn; try exact I.
    rewrite !app_assoc. apply Permutation_app_tail, Permutation_app_comm.
  - destruct (collect f l1) as [h1 |], (collect f l2) as [h2 |],
             (collect f l3) as [h3 |];
      try contradiction; try exact I.
    now transitivity h2.
Qed.

Lemma collect_Forall {A B} (f : A -> result (list B)) (P : B -> Prop) (l : list A) :
  (forall a hs, f a = Ok hs -> Forall P hs) ->
  forall hs, collect f l = Ok hs -> Forall P hs.
Proof.
  intros Hf. induction l as [| a l IH]; intros hs Hrun; cbn in Hrun.
  - inversion Hrun. constructor.
  - destruct (f a) as [ha |] eqn:Ea; cbn [bind] in Hrun; [| discriminate].
    destruct (collect f l) as [hl |]; cbn [bind] in Hrun; [| discriminate].
    inversion Hrun. apply Forall_app. split; [now apply (Hf a) | now apply IH].
Qed.

Lemma row_hits_sum_ok x_min y_min matrix_x matrix_y n db row hs :
  row_hits x_min y_min matrix_x matrix_y n db row = Ok hs ->
  Forall (fun h : nat * nat * float64 => sum_ok h.2) hs.
Proof.
  unfold row_hits. intros Hrun.
  destruct (resolve_category db row) as [cat |]; cbn [bind] in Hrun; [| discriminate].
  destruct (bool_decide (cat = "vehicle")); [| inversion Hrun; constructor].
  destruct (record_cell x_min y_min row) as [cell |]; cbn [bind] in Hrun;
    [| discriminate].
  destruct (out_of_map cell.1 matrix_x cell.2 matrix_y); [inversion Hrun; constructor |].
  destruct (np_index n cell.2) as [i |]; cbn [bind] in Hrun; [| discriminate].
  destruct (np_index (Z.to_nat matrix_x) cell.1) as [j |]; cbn [bind] in Hrun;
    [| discriminate].
  destruct (py_speed row) as [s |] eqn:Es; cbn [bind] in Hrun; [| discriminate].
  inversion Hrun. repeat constructor. cbn. now apply (py_speed_sum_ok row).
Qed.

Lemma file_hits_sum_ok fs x_min y_min matrix_x matrix_y data_path folder n f hs :
  file_hits fs x_min y_min matrix_x matrix_y data_path folder n f = Ok hs ->
  Forall (fun h : nat * nat * float64 => sum_ok h.2) hs.
Proof.
  unfold file_hits. intros Hrun.
  destruct (is_db f); cbn [negb] in Hrun; [| inversion Hrun; constructor].
  destruct (read_db fs _) as [db |]; cbn [bind] in Hrun; [| discriminate].
  eapply collect_Forall; [| exact Hrun].
  intros row hs'. apply row_hits_sum_ok.
Qed.

Lemma speed_row_hits x_min y_min matrix_x matrix_y db
    (speed_map : list (list (float64 * R))) row :
  speed_row x_min y_min matrix_x matrix_y db speed_map row
  = (hs <- row_hits x_min y_min matrix_x matrix_y (length speed_map) db row ;;
     Ok (apply_hits hs speed_map)).
Proof.
  unfold speed_row, row_hits.
  destruct (resolve_category db row) as [cat |]; cbn [bind]; [| reflexivity].
  destruct (bool_decide (cat = "vehicle")); [| reflexivity].
  destruct (record_cell x_min y_min row) as [cell |]; cbn [bind]; [| reflexivity].
  destruct (out_of_map cell.1 matrix_x cell.2 matrix_y); [reflexivity |].
  unfold add_speed.
  destruct (np_index (length speed_map) cell.2); cbn [bind]; [| reflexivity].
  destruct (np_index (Z.to_nat matrix_x) cell.1); cbn [bind]; [| reflexivity].
  destruct (py_speed row); reflexivity.
Qed.

Lemma for_each_collect {A}
    (body : list (list (float64 * R)) -> A -> result (list (list (float64 * R))))
    (f : nat -> A -> result (list (nat * nat * float64))) :
  (forall speed_map a,
      body speed_map a
      = (hs <- f (length speed_map) a ;; Ok (apply_hits hs speed_map))) ->
  forall l speed_map,
    for_each body l speed_map
    = (hs <- collect (f (length speed_map)) l ;; Ok (apply_hits hs speed_map)).
Proof.
  intros Hbody l. induction l as [| a l IH]; intros speed_map; cbn; [reflexivity |].
  rewrite Hbody. destruct (f (length speed_map) a) as [hs |]; cbn; [| reflexivity].
  rewrite IH, apply_hits_length.
  destruct (collect _ l); cbn; [| reflexivity].
  now rewrite apply_hits_app.
Qed.

Lemma speed_files_hits fs x_min y_min matrix_x matrix_y data_path folder
    (l : list string) :
  forall cnt (speed_map : list (list (float64 * R))),
    speed_files fs x_min y_min matrix_x matrix_y data_path folder None l cnt
      speed_map
    = (hs <- collect (file_hits fs x_min y_min matrix_x matrix_y data_path folder
                        (length speed_map)) l ;;
       Ok (apply_hits hs speed_map)).
Proof.
  induction l as [| f l IH]; intros cnt speed_map; cbn; [reflexivity |].
  unfold file_hits at 1. destruct (is_db f); cbn.
  - unfold speed_file. destruct (read_db fs _) as [db |]; cbn; [| reflexivity].
    rewrite (for_each_collect
               (speed_row x_min y_min matrix_x matrix_y db)
               (fun n => row_hits x_min y_min matrix_x matrix_y n db)
               (speed_row_hits x_min y_min matrix_x matrix_y db)).
    destruct (collect _ (lidar_box db)) as [hs |]; cbn; [| reflexivity].
    rewrite IH, apply_hits_length.
    destruct (collect _ l); cbn; [| reflexivity].
    now rewrite apply_hits_app.
  - rewrite IH. now destruct (collect _ l).
Qed.

Lemma zeros_sum_ok (n m : nat) :
  Forall (Forall (fun c : float64 * R => sum_ok c.1))
    (replicate n (replicate m (Num 0, 0))).
Proof.
  apply Forall_replicate, Forall_replicate. cbn. pose proof float_max_pos. lra.
Qed.

(** The grid of all the files of a list does not depend on their order. *)
Lemma speed_files_order fs x_min y_min matrix_x matrix_y data_path folder
    (l l' : list string) (n m : nat) :
  l ≡ₚ l' ->
  same_run
    (speed_files fs x_min y_min matrix_x matrix_y data_path folder None l 0
       (replicate n (replicate m (Num 0, 0))))
    (speed_files fs x_min y_min matrix_x matrix_y data_path folder None l' 0
       (replicate n (replicate m (Num 0, 0)))).
Proof.
  intros Hperm. rewrite !speed_files_hits.
  pose proof (collect_perm
                (file_hits fs x_min y_min matrix_x matrix_y data_path folder
                   (length (replicate n (replicate m (Num 0, 0)))))
                _ _ Hperm) as Hhits.
  destruct (collect _ l) as [hs |] eqn:E, (collect _ l') as [hs' |];
    cbn; try contradiction; try exact I.
  apply apply_hits_perm; [assumption | | apply zeros_sum_ok].
  eapply collect_Forall; [| exact E].
  intros f hs0. apply file_hits_sum_ok.
Qed.

(** With all the files iterated, neither the success of
    [plot_speed_distribution] nor its grid depends on the order of the
    files, be it the caller's or the generator's. *)
Lemma speed_grid_order `{GeneratorOk rng} fs map_boundary data_path folder
    files files' (g1 g2 : rng) :
  files ≡ₚ files' ->
  same_run (speed_grid fs map_boundary data_path folder files None g1).2
           (speed_grid fs map_boundary data_path folder files' None g2).2.
Proof.
  intros Hfiles.
  destruct map_boundary as [[[x_min x_max] y_min] y_max]. unfold speed_grid.
  unfold np_zeros. destruct (_ || _)%Z; [exact I |]. cbn [snd option_map].
  assert (Hperm : (np_random_shuffle g1 files).1 ≡ₚ (np_random_shuffle g2 files').1)
    by now rewrite !shuffle_perm.
  pose proof (speed_files_order fs x_min y_min (py_int (x_max - x_min))
                (py_int (y_max - y_min)) data_path folder _ _
                (Z.to_nat (py_int (y_max - y_min)))
                (Z.to_nat (py_int (x_max - x_min))) Hperm) as Hrun.
  destruct (speed_files _ _ _ _ _ _ _ _ (np_random_shuffle g1 files).1 _ _),
           (speed_files _ _ _ _ _ _ _ _ (np_random_shuffle g2 files').1 _ _);
    cbn in *; try contradiction; try exact I.
  now subst.
Qed.

Lemma class_folders_generator `{Generator rng} fs data_path refs rest :
  forall i heap (g1 g2 : rng) df,
    (class_folders fs data_path refs None rest i heap g1 df).2
    = (class_folders fs data_path refs None rest i heap g2 df).2.
Proof.
  induction rest as [| folder rest IH]; intros i heap g1 g2 df; cbn;
    [reflexivity |].
  destruct (refs !! i) as [ref |]; [| reflexivity].
  destruct (for_each _ _ df); [apply IH | reflexivity].
Qed.

Lemma half_of_two : sample_size ["a.db"; "b.db"] (1 / 2) = 1%Z.
Proof.
  unfold sample_size. cbn [length INR].
  replace ((1 + 1) * (1 / 2)) with (IZR 1) by lra. apply py_int_IZR.
Qed.

(** C8, the claim as written fails: with a [proportion],
    [plot_trajectories] draws its sample from the process-wide generator.
    On the same two files and the same databases, the state of the
    generator decides which file is read, and the two calls return
    different columns. *)
Lemma C8_sample_depends_on_generator :
  (plot_trajectories two_vehicle_fs "data/" "boston" ["a.db"; "b.db"]
     (Some (1 / 2)) false).2
  <> (plot_trajectories two_vehicle_fs "data/" "boston" ["a.db"; "b.db"]
        (Some (1 / 2)) true).2.
Proof.
  unfold plot_trajectories, sample_files. cbn [fst snd np_random_shuffle flip_shuffle].
  change (reverse ["a.db"; "b.db"]) with ["b.db"; "a.db"].
  change (sample_size ["b.db"; "a.db"] (1 / 2))
    with (sample_size ["a.db"; "b.db"] (1 / 2)).
  rewrite half_of_two.
  change (Ok ([PyFloat (Num 1)], [PyFloat (Num 2)], ["vehicle"])
          <> Ok ([PyFloat (Num 3)], [PyFloat (Num 4)], ["vehicle"])).
  intros Heq. inversion Heq. lra.
Qed.

(** C8, amended. Without sampling, that is with [proportion] None, the
    output of [plot_trajectories] and of [plot_class_proportion] is the same
    for every state of the generator (and [plot_mean_speed_distribution]
    has no access to it); [plot_speed_distribution], which shuffles on every
    call that gets past the allocation of its grid, returns under every
    state of the generator and every order of the file list the same grid,
    in exact arithmetic, or raises under all of them, though not always the
    same exception. With a [proportion] the
    output depends on the state of the generator. *)
Theorem C8_output_without_sampling `{GeneratorOk rng} :
  (forall fs data_path folder files (g1 g2 : rng),
      (plot_trajectories fs data_path folder files None g1).2
      = (plot_trajectories fs data_path folder files None g2).2)
  /\ (forall fs data_path folders refs heap (g1 g2 : rng),
         (plot_class_proportion fs data_path folders refs None heap g1).2
         = (plot_class_proportion fs data_path folders refs None heap g2).2)
  /\ (forall fs map_boundary data_path folder files files' (g1 g2 : rng),
         files ≡ₚ files' ->
         same_run
           (plot_speed_distribution fs map_boundary data_path folder files None g1).2
           (plot_speed_distribution fs map_boundary data_path folder files' None g2).2).
Proof.
  split; [reflexivity | split].
  - intros. unfold plot_class_proportion, count_by_category. cbn [snd].
    now rewrite (class_folders_generator fs data_path refs folders 0 heap g1 g2).
  - intros fs map_boundary data_path folder files files' g1 g2 Hfiles.
    unfold plot_speed_distribution. cbn [snd].
    pose proof (speed_grid_order fs map_boundary data_path folder files files'
                  g1 g2 Hfiles) as Hgrid.
    destruct (speed_grid fs map_boundary data_path folder files None g1).2,
             (speed_grid fs map_boundary data_path folder files' None g2).2;
      cbn in *; try contradiction; try exact I.
    now subst.
Qed.

Lemma C8_output_without_sampling_witness :
  same_run
    (plot_speed_distribution two_vehicle_fs (0, 10, 0, 10) "data/" "boston"
       ["a.db"; "b.db"] None tt).2
    (plot_speed_distribution two_vehicle_fs (0, 10, 0, 10) "data/" "boston"
       ["b.db"; "a.db"] None tt).2.
Proof.
  apply (proj2 (proj2 (C8_output_without_sampling (rng := unit)))).
  apply Permutation_swap.
Defined.

(** ** Entries of a file list that are not databases, call by call *)

Lemma class_folders_filter `{Generator rng} fs data_path refs rest :
  forall i heap (g : rng) df,
    (class_folders fs data_path refs None rest i heap g df).2
    = (class_folders fs data_path refs None rest i
         (filter (fun f => is_db f = true) <$> heap) g df).2.
Proof.
  assert (Hid : forall (heap : list (list string)) ref,
             <[ref := default [] (heap !! ref)]> heap = heap).
  { intros heap ref. destruct (heap !! ref) as [l |] eqn:El; cbn.
    - now apply list_insert_id.
    - apply list_insert_ge. now apply lookup_ge_None. }
  induction rest as [| folder rest IH]; intros i heap g df; cbn; [reflexivity |].
  destruct (refs !! i) as [ref |]; [| reflexivity].
  rewrite !Hid.
  assert (Hl : default [] ((filter (fun f => is_db f = true) <$> heap) !! ref)
               = filter (fun f => is_db f = true) (default [] (heap !! ref))).
  { rewrite list_lookup_fmap. now destruct (heap !! ref). }
  rewrite Hl.
  rewrite (for_each_filter (class_file fs data_path folder) is_db)
    by (intros acc f Hf; unfold class_file; now rewrite Hf).
  destruct (for_each _ _ df); [apply IH | reflexivity].
Qed.

Lemma mean_speed_folders_filter fs data_path files rest :
  forall i acc,
    mean_speed_folders fs data_path files rest i acc
    = mean_speed_folders fs data_path
        (filter (fun f => is_db f = true) <$> files) rest i acc.
Proof.
  induction rest as [| folder rest IH]; intros i acc; cbn; [reflexivity |].
  rewrite list_lookup_fmap. destruct (files !! i) as [fl |]; cbn; [| reflexivity].
  rewrite (for_each_filter (mean_speed_file fs data_path folder) is_db)
    by (intros acc' f Hf; unfold mean_speed_file; now rewrite Hf).
  destruct (for_each _ _ acc); cbn; [apply IH | reflexivity].
Qed.

Lemma half_of_one : sample_size ["a.db"] (1 / 2) = 0%Z.
Proof.
  unfold sample_size. cbn [length INR]. apply (py_int_between 0); simpl; lra.
Qed.

(** C10, the claim as written fails under sampling: the sample size
    [int(len(trajectory_files) * proportion)] counts the entries that are
    not databases. With [proportion] 0.5, [plot_trajectories] reads [a.db]
    when the list holds [README.md] beside it, and reads nothing when the
    list holds [a.db] alone: the entry that is passed over has changed the
    output. *)
Lemma C10_non_db_entry_changes_the_sample :
  (plot_trajectories two_vehicle_fs "data/" "boston" ["a.db"; "README.md"]
     (Some (1 / 2)) tt).2
  = Ok ([PyFloat (Num 1)], [PyFloat (Num 2)], ["vehicle"])
  /\ (plot_trajectories two_vehicle_fs "data/" "boston" ["a.db"]
        (Some (1 / 2)) tt).2
     = Ok ([], [], []).
Proof.
  split.
  - unfold plot_trajectories, sample_files. cbn [fst snd np_random_shuffle no_shuffle].
    change (sample_size ["a.db"; "README.md"] (1 / 2))
      with (sample_size ["a.db"; "b.db"] (1 / 2)).
    rewrite half_of_two. reflexivity.
  - unfold plot_trajectories, sample_files. cbn [fst snd np_random_shuffle no_shuffle].
    rewrite half_of_one. reflexivity.
Qed.

(** C10, amended. In each of the four loops over a file list, an entry
    whose last three characters are not [.db] is passed over: the loop body
    returns its accumulator as it was, without opening a database and
    without an error, and the loop over a list is the loop over its [.db]
    entries; in [plot_speed_distribution] the entry does not move the
    counter [cnt] either. Without sampling the output of each of the four
    operations is the one it has on the lists without such entries (for
    [plot_speed_distribution], which shuffles, the same grid or an exception
    in both calls). With a [proportion] the sample is cut from the whole
    list, such entries included: [plot_trajectories] iterates the [.db]
    entries among the first [int(len(trajectory_files) * proportion)]
    entries of the shuffled list. *)
Theorem C10_non_db_entries_are_skipped `{GeneratorOk rng}
    (fs : gmap string motion_db) (data_path folder : string) :
  (forall f, is_db f = false ->
     (forall acc, trajectory_file_rows fs data_path folder acc f = Ok acc)
     /\ (forall df, class_file fs data_path folder df f = Ok df)
     /\ (forall speeds, mean_speed_file fs data_path folder speeds f = Ok speeds)
     /\ (forall x_min y_min matrix_x matrix_y max_iter rest cnt speed_map,
           speed_files fs x_min y_min matrix_x matrix_y data_path folder
             max_iter (f :: rest) cnt speed_map
           = speed_files fs x_min y_min matrix_x matrix_y data_path folder
               max_iter rest cnt speed_map))
  /\ (forall l acc,
         for_each (trajectory_file_rows fs data_path folder) l acc
         = for_each (trajectory_file_rows fs data_path folder)
             (filter (fun f => is_db f = true) l) acc)
  /\ (forall l df,
         for_each (class_file fs data_path folder) l df
         = for_each (class_file fs data_path folder)
             (filter (fun f => is_db f = true) l) df)
  /\ (forall l speeds,
         for_each (mean_speed_file fs data_path folder) l speeds
         = for_each (mean_speed_file fs data_path folder)
             (filter (fun f => is_db f = true) l) speeds)
  /\ (forall x_min y_min matrix_x matrix_y max_iter l cnt speed_map,
         speed_files fs x_min y_min matrix_x matrix_y data_path folder
           max_iter l cnt speed_map
         = speed_files fs x_min y_min matrix_x matrix_y data_path folder
             max_iter (filter (fun f => is_db f = true) l) cnt speed_map)
  /\ (forall files (g : rng),
         (plot_trajectories fs data_path folder files None g).2
         = (plot_trajectories fs data_path folder
              (filter (fun f => is_db f = true) files) None g).2)
  /\ (forall folders refs heap (g : rng),
         (plot_class_proportion fs data_path folders refs None heap g).2
         = (plot_class_proportion fs data_path folders refs None
              (filter (fun f => is_db f = true) <$> heap) g).2)
  /\ (forall folders files,
         plot_mean_speed_distribution fs data_path folders files
         = plot_mean_speed_distribution fs data_path folders
             (filter (fun f => is_db f = true) <$> files))
  /\ (forall map_boundary files (g1 g2 : rng),
         same_run
           (plot_speed_distribution fs map_boundary data_path folder files
              None g1).2
           (plot_speed_distribution fs map_boundary data_path folder
              (filter (fun f => is_db f = true) files) None g2).2)
  /\ (forall files p (g : rng),
         (plot_trajectories fs data_path folder files (Some p) g).2
         = for_each (trajectory_file_rows fs data_path folder)
             (filter (fun f => is_db f = true)
                (py_slice_to (sample_size files p) (np_random_shuffle g files).1))
             ([], [], [])).
Proof.
  assert (Ht : forall acc f, is_db f = false ->
                 trajectory_file_rows fs data_path folder acc f = Ok acc)
    by (intros acc f Hf; unfold trajectory_file_rows; now rewrite Hf).
  assert (Hc : forall df f, is_db f = false ->
                 class_file fs data_path folder df f = Ok df)
    by (intros df f Hf; unfold class_file; now rewrite Hf).
  assert (Hm : forall speeds f, is_db f = false ->
                 mean_speed_file fs data_path folder speeds f = Ok speeds)
    by (intros speeds f Hf; unfold mean_speed_file; now rewrite Hf).
  split; [| split; [| split; [| split; [| split]]]].
  - intros f Hf. repeat split; intros.
    + now apply Ht.
    + now apply Hc.
    + now apply Hm.
    + cbn. now rewrite Hf.
  - apply for_each_filter. exact Ht.
  - apply for_each_filter. exact Hc.
  - apply for_each_filter. exact Hm.
  - intros. apply speed_files_filter.
  - split; [| split; [| split; [| split]]].
    + intros files g. unfold plot_trajectories. cbn [sample_files fst snd].
      apply for_each_filter. exact Ht.
    + intros folders refs heap g.
      unfold plot_class_proportion, count_by_category. cbn [snd].
      now rewrite (class_folders_filter fs data_path refs folders 0 heap g).
    + intros folders files. unfold plot_mean_speed_distribution.
      apply mean_speed_folders_filter.
    + intros [[[x_min x_max] y_min] y_max] files g1 g2.
      unfold plot_speed_distribution, speed_grid. cbn [snd].
      unfold np_zeros. destruct (_ || _)%Z; [exact I |]. cbn [snd option_map].
      rewrite (speed_files_filter _ _ _ _ _ _ _ _ (np_random_shuffle g1 files).1).
      assert (Hperm : filter (fun f => is_db f = true) (np_random_shuffle g1 files).1
                      ≡ₚ (np_random_shuffle g2
                            (filter (fun f => is_db f = true) files)).1)
        by now rewrite !shuffle_perm.
      pose proof (speed_files_order fs x_min y_min (py_int (x_max - x_min))
                    (py_int (y_max - y_min)) data_path folder _ _
                    (Z.to_nat (py_int (y_max - y_min)))
                    (Z.to_nat (py_int (x_max - x_min))) Hperm) as Hrun.
      destruct (speed_files _ _ _ _ _ _ _ _
                  (filter (fun f => is_db f = true) (np_random_shuffle g1 files).1)
                  _ _),
               (speed_files _ _ _ _ _ _ _ _
                  (np_random_shuffle g2 (filter (fun f => is_db f = true) files)).1
                  _ _);
        cbn in *; try contradiction; try exact I.
      now subst.
    + intros files p g. unfold plot_trajectories, sample_files. cbn [fst snd].
      rewrite (for_each_filter _ is_db Ht).
      unfold sample_size. now rewrite (Permutation_length (shuffle_perm g files)).
Qed.

Lemma C10_non_db_entries_are_skipped_witness :
  trajectory_file_rows ∅ "data/" "boston" ([], [], []) "README.md"
  = Ok ([], [], []).
Proof.
  apply (proj1 (proj1 (C10_non_db_entries_are_skipped (rng := unit) ∅ "data/"
                         "boston")
                  "README.md" eq_refl)).
Defined.

(** * Further properties of the four operations *)

(** ** The test [trajectory_file[-3:] != ".db"] *)

Lemma substring_after (s t : string) (m : nat) :
  String.substring (String.length s) m (s +:+ t) = String.substring 0 m t.
Proof.
  induction s as [| c s IH]; [reflexivity |].
  change (String.substring (String.length s) m (s +:+ t) = String.substring 0 m t).
  exact IH.
Qed.

Lemma substring_all (t : string) (m : nat) :
  (String.length t <= m)%nat -> String.substring 0 m t = t.
Proof.
  revert m. induction t as [| c t IH]; intros [| m] Hm; cbn in *;
    try reflexivity; try lia.
  f_equal. apply IH. lia.
Qed.

Lemma length_append (s t : string) :
  String.length (s +:+ t) = (String.length s + String.length t)%nat.
Proof.
  induction s as [| c s IH]; [reflexivity |].
  change (S (String.length (s +:+ t)) = S (String.length s + String.length t)).
  now f_equal.
Qed.

Lemma substring_split (n : nat) (f : string) :
  (n <= String.length f)%nat ->
  f = String.substring 0 n f +:+ String.substring n (String.length f - n) f.
Proof.
  revert f. induction n as [| n IH]; intros f Hn.
  - rewrite Nat.sub_0_r, (substring_all f (String.length f)) by lia.
    now destruct f.
  - destruct f as [| c f]; cbn in *; [lia |].
    change (String c f
            = String c (String.substring 0 n f
                        +:+ String.substring n (String.length f - n) f)).
    f_equal. apply IH. lia.
Qed.

(** The entries that the four loops read are exactly the names that end in
    [.db], the name [.db] itself included: the test is on the last three
    characters and on nothing else. *)
Theorem is_db_iff_suffix (trajectory_file : string) :
  is_db trajectory_file = true
  <-> exists stem, trajectory_file = stem +:+ ".db".
Proof.
  unfold is_db, py_last3. rewrite bool_decide_eq_true. split.
  - intros Hlast.
    destruct (le_lt_dec 3 (String.length trajectory_file)) as [Hlen | Hlen].
    + exists (String.substring 0 (String.length trajectory_file - 3) trajectory_file).
      rewrite <- Hlast.
      pose proof (substring_split (String.length trajectory_file - 3)
                    trajectory_file ltac:(lia)) as Hsplit.
      replace (String.length trajectory_file
               - (String.length trajectory_file - 3))%nat
        with 3%nat in Hsplit by lia.
      exact Hsplit.
    + replace (String.length trajectory_file - 3)%nat with 0%nat in Hlast by lia.
      rewrite substring_all in Hlast by lia. subst trajectory_file.
      cbn in Hlen. lia.
  - intros [stem ->]. rewrite length_append. cbn [String.length].
    replace (String.length stem + 3 - 3)%nat with (String.length stem) by lia.
    rewrite substring_after. reflexivity.
Qed.

(** ** The sample of [plot_trajectories] and [plot_class_proportion] *)

Lemma sample_size_bounds (files : list string) (p : R) :
  0 <= p <= 1 -> (0 <= sample_size files p <= Z.of_nat (length files))%Z.
Proof.
  intros Hp. unfold sample_size.
  assert (Hn : 0 <= INR (length files)) by apply pos_INR.
  assert (H0 : 0 <= INR (length files) * p) by nra.
  rewrite py_int_nonneg by assumption.
  pose proof (Zfloor_bound (INR (length files) * p)) as [Hlo _].
  split.
  - apply (Zfloor_lub 0). simpl. lra.
  - apply le_IZR. rewrite <- INR_IZR_INZ. nra.
Qed.

(** Lines 70-72 with a proportion between 0 and 1: the sample is the first
    [int(len * proportion)] entries of the shuffled list. It has that many
    entries, each one an entry of the caller's list and none taken twice
    when the caller's list has no duplicate. A proportion of 0 gives the
    empty sample, a proportion of 1 the whole shuffled list. *)
Theorem sample_files_spec `{GeneratorOk rng} (files : list string) (p : R) (g : rng) :
  0 <= p <= 1 ->
  Z.of_nat (length (sample_files files (Some p) g).1) = sample_size files p
  /\ (sample_files files (Some p) g).1 `prefix_of` (np_random_shuffle g files).1
  /\ (forall f, f ∈ (sample_files files (Some p) g).1 -> f ∈ files)
  /\ (NoDup files -> NoDup (sample_files files (Some p) g).1)
  /\ (p = 0 -> (sample_files files (Some p) g).1 = [])
  /\ (p = 1 -> (sample_files files (Some p) g).1 = (np_random_shuffle g files).1).
Proof.
  intros Hp. unfold sample_files. cbn [fst].
  pose proof (shuffle_perm g files) as Hperm.
  assert (Hsize : sample_size (np_random_shuffle g files).1 p = sample_size files p).
  { unfold sample_size. now rewrite (Permutation_length Hperm). }
  rewrite Hsize. pose proof (sample_size_bounds files p Hp) as [Hlo Hhi].
  unfold py_slice_to. destruct (Z.leb_spec 0 (sample_size files p)); [| lia].
  split; [| split; [| split; [| split; [| split]]]].
  - rewrite length_take, (Permutation_length Hperm). lia.
  - apply prefix_take.
  - intros f Hf. rewrite <- Hperm. eapply subseteq_take. exact Hf.
  - intros Hnodup. apply (sublist_NoDup _ (np_random_shuffle g files).1);
      [now rewrite Hperm | apply sublist_take].
  - intros ->. unfold sample_size. rewrite Rmult_0_r.
    change 0 with (IZR 0). rewrite py_int_IZR. apply take_0.
  - intros ->. unfold sample_size. rewrite Rmult_1_r, INR_IZR_INZ, py_int_IZR.
    apply take_ge. rewrite (Permutation_length Hperm). lia.
Qed.

Lemma sample_files_spec_witness :
  Z.of_nat (length (sample_files ["a.db"; "b.db"] (Some (1 / 2)) tt).1)
  = sample_size ["a.db"; "b.db"] (1 / 2).
Proof.
  apply (proj1 (sample_files_spec (rng := unit) ["a.db"; "b.db"] (1 / 2) tt
                  ltac:(lra))).
Defined.

(** ** The sample of [plot_speed_distribution] *)

Lemma speed_files_counter fs x_min y_min matrix_x matrix_y data_path folder
    (l : list string) :
  forall cnt cnt' speed_map,
    speed_files fs x_min y_min matrix_x matrix_y data_path folder None l cnt
      speed_map
    = speed_files fs x_min y_min matrix_x matrix_y data_path folder None l cnt'
        speed_map.
Proof.
  induction l as [| f l IH]; intros cnt cnt' speed_map; cbn; [reflexivity |].
  destruct (is_db f); cbn; [| apply IH].
  destruct (speed_file _ _ _ _ _ _ _ speed_map f); cbn; [apply IH | reflexivity].
Qed.

(** Lines 208-241 with a proportion: the loop reads the first
    [max(1, max_iter - cnt)] database files of the list and stops. The test
    [cnt >= max_iter] comes after a file was read, so one database file is
    read even when [max_iter] is zero or negative. *)
Theorem speed_files_max_iter fs x_min y_min matrix_x matrix_y data_path folder
    (m : Z) (l : list string) :
  forall cnt speed_map,
    speed_files fs x_min y_min matrix_x matrix_y data_path folder (Some m) l cnt
      speed_map
    = speed_files fs x_min y_min matrix_x matrix_y data_path folder None
        (take (Z.to_nat (Z.max 1 (m - cnt))) (filter (fun f => is_db f = true) l))
        cnt speed_map.
Proof.
  induction l as [| f l IH]; intros cnt speed_map.
  - rewrite filter_nil, take_nil. reflexivity.
  - rewrite filter_cons. destruct (decide (is_db f = true)) as [Hf | Hf].
    + replace (Z.to_nat (Z.max 1 (m - cnt)))
        with (S (Z.to_nat (Z.max 1 (m - cnt)) - 1)) by lia.
      cbn [take speed_files]. rewrite Hf. cbn [negb].
      destruct (speed_file _ _ _ _ _ _ _ speed_map f) as [speed_map' |];
        cbn [bind]; [| reflexivity].
      destruct (Z.geb_spec (cnt + 1) m) as [Hstop | Hgo].
      * replace (Z.to_nat (Z.max 1 (m - cnt)) - 1)%nat with 0%nat by lia.
        rewrite take_0. reflexivity.
      * rewrite IH.
        replace (Z.to_nat (Z.max 1 (m - cnt)) - 1)%nat
          with (Z.to_nat (Z.max 1 (m - (cnt + 1)))) by lia.
        apply speed_files_counter.
    + cbn [speed_files]. destruct (is_db f); [contradiction |]. cbn [negb].
      apply IH.
Qed.

(** ** The caller's lists are reordered, never changed *)

Lemma shuffle_lists_perm `{GeneratorOk rng} (refs : list nat) :
  forall (heap : list (list string)) (g : rng),
    Forall2 (≡ₚ) (shuffle_lists refs heap g).1 heap.
Proof.
  induction refs as [| ref refs IH]; intros heap g; cbn.
  - apply Forall2_same_length_lookup. split; [reflexivity |].
    intros i l l' Hl Hl'. rewrite Hl in Hl'. now inversion Hl'.
  - etransitivity; [apply IH |].
    apply Forall2_same_length_lookup. split; [apply length_insert |].
    intros i l l' Hl Hl'. destruct (decide (i = ref)) as [-> | Hne].
    + rewrite list_lookup_insert_eq in Hl by (now apply lookup_lt_Some in Hl').
      inversion Hl; subst l. rewrite Hl'. cbn. apply shuffle_perm.
    + rewrite list_lookup_insert_ne in Hl by congruence.
      rewrite Hl in Hl'. now inversion Hl'.
Qed.

(** Whatever the arguments and whatever the outcome, a call leaves in the
    caller's list of files the entries it found there, at most in another
    order; [plot_class_proportion] leaves as many lists on the heap as it
    found, each one a reordering of what it was. *)
Theorem file_lists_are_permuted `{GeneratorOk rng} :
  (forall fs data_path folder files proportion (g : rng),
      (plot_trajectories fs data_path folder files proportion g).1.1 ≡ₚ files)
  /\ (forall fs map_boundary data_path folder files proportion (g : rng),
         (plot_speed_distribution fs map_boundary data_path folder files
            proportion g).1.1 ≡ₚ files)
  /\ (forall fs data_path folders refs proportion heap (g : rng),
         Forall2 (≡ₚ)
           (plot_class_proportion fs data_path folders refs proportion heap g).1.1
           heap).
Proof.
  split; [| split].
  - intros fs data_path folder files [p |] g; cbn; [apply shuffle_perm | reflexivity].
  - intros fs [[[x_min x_max] y_min] y_max] data_path folder files proportion g.
    unfold plot_speed_distribution, speed_grid.
    destruct (np_zeros _ _); cbn; [apply shuffle_perm | reflexivity].
  - intros fs data_path folders refs [p |] heap g.
    + unfold plot_class_proportion, count_by_category. cbn [fst].
      destruct (class_folders_heap_Some fs data_path refs p folders 0 heap g
                  (new_frame folders) ltac:(lia)) as (k & _ & -> & _).
      apply shuffle_lists_perm.
    + unfold plot_class_proportion, count_by_category. cbn [fst].
      rewrite class_folders_heap_None. apply (shuffle_lists_perm []).
Qed.

Lemma file_lists_are_permuted_witness :
  (plot_trajectories ∅ "data/" "boston" ["a.db"; "b.db"] (Some (1 / 2)) tt).1.1
  ≡ₚ ["a.db"; "b.db"].
Proof.
  apply (proj1 (file_lists_are_permuted (rng := unit))).
Defined.


(** ** The shape of the grid *)

Lemma add_speed_shape (n m : nat) speed_map matrix_x cy cx
    (row : lidar_box_row) speed_map' :
  length speed_map = n /\ Forall (fun cells => length cells = m) speed_map ->
  add_speed speed_map matrix_x cy cx (py_speed row) = Ok speed_map' ->
  length speed_map' = n /\ Forall (fun cells => length cells = m) speed_map'.
Proof.
  intros [Hn Hm] Hrun.
  apply add_speed_inv in Hrun as (i & j & s & _ & _ & _ & ->).
  split; [now rewrite length_alter |].
  apply Forall_alter; [assumption |]. intros cells _ Hcells.
  now rewrite length_alter.
Qed.

(** The grid that [plot_speed_distribution] returns has [matrix_y] rows of
    [matrix_x] columns each, whatever was accumulated; the image that is
    shown is the same grid with its rows in reverse order, so that row [i]
    of the image is row [matrix_y - 1 - i] of the grid. *)
Theorem speed_grid_shape `{Generator rng} fs x_min x_max y_min y_max data_path
    folder files proportion (g : rng) st grid :
  speed_grid fs (x_min, x_max, y_min, y_max) data_path folder files proportion g
  = (st, Ok grid) ->
  let matrix_x := Z.to_nat (py_int (x_max - x_min)) in
  let matrix_y := Z.to_nat (py_int (y_max - y_min)) in
  length grid = matrix_y
  /\ Forall (fun row => length row = matrix_x) grid
  /\ (plot_speed_distribution fs (x_min, x_max, y_min, y_max) data_path folder
        files proportion g).2 = Ok (reverse grid)
  /\ (forall i j, (i < matrix_y)%nat ->
        cell_at (reverse grid) i j = cell_at grid (matrix_y - 1 - i) j).
Proof.
  intros Hrun matrix_x matrix_y.
  assert (Hshape : length grid = matrix_y
                   /\ Forall (fun row => length row = matrix_x) grid).
  { unfold speed_grid in Hrun.
    destruct (np_zeros _ _) as [zeros |] eqn:Ez; [| discriminate].
    inversion Hrun as [[Hst Hgrid]]. clear Hrun Hst.
    destruct (speed_files _ _ _ _ _ _ _ _ _ _ _) as [speed_map |] eqn:Eloop;
      cbn in Hgrid; [| discriminate].
    inversion Hgrid; subst grid.
    assert (Hsm : length speed_map = matrix_y
                  /\ Forall (fun row => length row = matrix_x) speed_map).
    { eapply (speed_files_keeps _ (add_speed_shape matrix_y matrix_x));
        [| exact Eloop].
      unfold np_zeros in Ez. destruct (_ || _)%Z; [discriminate |].
      inversion Ez. split; [apply length_replicate |].
      apply Forall_replicate, length_replicate. }
    destruct Hsm as [Hn Hm]. unfold finalize. split; [now rewrite length_fmap |].
    apply Forall_fmap. eapply Forall_impl; [exact Hm |].
    intros row Hrow. cbn. now rewrite length_fmap. }
  destruct Hshape as [Hn Hm]. split; [assumption |]. split; [assumption |].
  split.
  - unfold plot_speed_distribution. now rewrite Hrun.
  - intros i j Hi. unfold cell_at. rewrite reverse_lookup by lia.
    now replace (length grid - S i)%nat with (matrix_y - 1 - i)%nat by lia.
Qed.

Lemma one_vehicle_grid_5_5 :
  (speed_grid (one_vehicle_fs 5 5) (0, 10, 0, 10) "data/" "boston" ["a.db"] None tt).2
  = Ok (single_cell_grid 5 5 (Num 5)).
Proof. apply (one_vehicle_grid 5 5 5 5); try reflexivity; lra. Qed.

Lemma speed_grid_shape_witness :
  length (single_cell_grid 5 5 (Num 5)) = Z.to_nat (py_int (10 - 0)).
Proof.
  apply (speed_grid_shape (rng := unit) (one_vehicle_fs 5 5) 0 10 0 10 "data/"
           "boston" ["a.db"] None tt
           (speed_grid (one_vehicle_fs 5 5) (0, 10, 0, 10) "data/" "boston"
              ["a.db"] None tt).1).
  rewrite <- one_vehicle_grid_5_5.
  apply surjective_pairing.
Defined.

(** ** What one record does to the grid *)

Lemma np_index_in_range (n : nat) (i : Z) :
  (- Z.of_nat n <= i < Z.of_nat n)%Z ->
  np_index n i = Ok (Z.to_nat (i mod Z.of_nat n)).
Proof.
  intros Hi. unfold np_index.
  destruct (Z.leb_spec 0 i), (Z.ltb_spec i (Z.of_nat n)); cbn; try lia.
  - now rewrite Z.mod_small by lia.
  - destruct (Z.leb_spec (- Z.of_nat n) i), (Z.ltb_spec i 0); cbn; try lia.
    f_equal. f_equal. apply (Z.mod_unique_pos i (Z.of_nat n) (-1)); lia.
Qed.

Lemma np_index_out_of_range (n : nat) (i : Z) :
  ~ (- Z.of_nat n <= i < Z.of_nat n)%Z -> np_index n i = Raise IndexError.
Proof.
  intros Hi. unfold np_index.
  destruct (Z.leb_spec 0 i), (Z.ltb_spec i (Z.of_nat n)); cbn; try lia;
    destruct (Z.leb_spec (- Z.of_nat n) i), (Z.ltb_spec i 0); cbn; try lia;
    reflexivity.
Qed.

Lemma speed_row_cell_raises x_min y_min matrix_x matrix_y db speed_map row e :
  resolve_category db row = Ok "vehicle" ->
  record_cell x_min y_min row = Raise e ->
  speed_row x_min y_min matrix_x matrix_y db speed_map row = Raise e.
Proof.
  intros Hcat Hcell. unfold speed_row. rewrite Hcat. cbn [bind].
  rewrite bool_decide_eq_true_2 by reflexivity. now rewrite Hcell.
Qed.

(** Lines 224-235 on a grid of [matrix_y] rows and [matrix_x] columns. A
    record of another category leaves the grid as it is. A vehicle record
    whose coordinates give no cell (None, NaN, an infinity or an offset out
    of range) raises what lines 227-228 raise. A vehicle record with cell
    [(cx, cy)] is looked up in the grid first: when
    [-matrix_x <= cx < matrix_x] and [-matrix_y <= cy < matrix_y] it is
    accumulated in row [cy mod matrix_y] and column [cx mod matrix_x], the
    cells left of or below the map wrapping around to the opposite edge,
    unless the computation of its speed raises; every other cell raises
    IndexError, whatever the velocity. *)
Theorem speed_row_cases x_min y_min (matrix_x matrix_y : Z) db
    (speed_map : list (list (float64 * R))) row :
  (0 <= matrix_x)%Z -> (0 <= matrix_y)%Z ->
  length speed_map = Z.to_nat matrix_y ->
  (forall cat, resolve_category db row = Ok cat -> cat <> "vehicle" ->
     speed_row x_min y_min matrix_x matrix_y db speed_map row = Ok speed_map)
  /\ (resolve_category db row = Ok "vehicle" ->
      (forall e, record_cell x_min y_min row = Raise e ->
         speed_row x_min y_min matrix_x matrix_y db speed_map row = Raise e)
      /\ forall cx cy, record_cell x_min y_min row = Ok (cx, cy) ->
        ((- matrix_x <= cx < matrix_x)%Z /\ (- matrix_y <= cy < matrix_y)%Z ->
         (forall s, py_speed row = Ok s ->
            speed_row x_min y_min matrix_x matrix_y db speed_map row
            = Ok (alter (alter (fun c : float64 * R => (f_add c.1 s, c.2 + 1))
                           (Z.to_nat (cx mod matrix_x)))
                    (Z.to_nat (cy mod matrix_y)) speed_map))
         /\ (forall e, py_speed row = Raise e ->
               speed_row x_min y_min matrix_x matrix_y db speed_map row = Raise e))
        /\ (~ ((- matrix_x <= cx < matrix_x)%Z /\ (- matrix_y <= cy < matrix_y)%Z) ->
            speed_row x_min y_min matrix_x matrix_y db speed_map row
            = Raise IndexError)).
Proof.
  intros Hx Hy Hlen. split.
  - intros cat Hcat Hne. unfold speed_row. rewrite Hcat. cbn [bind].
    now rewrite bool_decide_eq_false_2.
  - intros Hcat. split; [intros e; now apply speed_row_cell_raises |].
    intros cx cy Hcell.
    rewrite (speed_row_vehicle _ _ _ _ _ _ _ cx cy) by assumption.
    unfold add_speed. rewrite Hlen. split.
    + intros [Hcx Hcy].
      rewrite (np_index_in_range (Z.to_nat matrix_y) cy) by lia. cbn [bind].
      rewrite (np_index_in_range (Z.to_nat matrix_x) cx) by lia. cbn [bind].
      rewrite !Z2Nat.id by assumption.
      split; [intros s Hs | intros e He]; [rewrite Hs | rewrite He]; reflexivity.
    + intros Hout.
      destruct (decide (- matrix_y <= cy < matrix_y)%Z) as [Hcy | Hcy].
      * rewrite (np_index_in_range (Z.to_nat matrix_y) cy) by lia. cbn [bind].
        rewrite (np_index_out_of_range (Z.to_nat matrix_x) cx) by lia.
        reflexivity.
      * now rewrite (np_index_out_of_range (Z.to_nat matrix_y) cy) by lia.
Qed.

Lemma speed_row_cases_witness :
  speed_row 0 0 10 10 (one_vehicle_db 12 5)
    (replicate 10 (replicate 10 (Num 0, 0))) (box "t1" 12 5 3 4 0)
  = Raise IndexError.
Proof.
  apply (proj2 (proj2 (speed_row_cases 0 0 10 10 (one_vehicle_db 12 5)
                         (replicate 10 (replicate 10 (Num 0, 0)))
                         (box "t1" 12 5 3 4 0)
                         ltac:(lia) ltac:(lia) eq_refl)
                  eq_refl) 12%Z 5%Z).
  - apply (record_cell_box "t1" 12 5); lra.
  - lia.
Defined.

(** What the computation of the speed of a record raises, and when. *)
Lemma py_speed_ok_iff (row : lidar_box_row) :
  is_ok (py_speed row) = true
  <-> square_in_range (vx row) /\ square_in_range (vy row)
      /\ square_in_range (vz row).
Proof.
  assert (Hsq : forall v, is_ok (py_square v) = true <-> square_in_range v).
  { intros [| [r | | |]]; cbn.
    - split; [discriminate | contradiction].
    - destruct (Rle_dec float_max (r * r)); cbn; split; intros Hr;
        try discriminate; try reflexivity; lra.
    - split; [intros _; exact I | reflexivity].
    - split; [intros _; exact I | reflexivity].
    - split; [intros _; exact I | reflexivity]. }
  unfold py_speed. rewrite <- !Hsq.
  destruct (py_square (vx row)); cbn [bind is_ok];
    [| split; [discriminate | intros [? _]; discriminate]].
  destruct (py_square (vy row)); cbn [bind is_ok];
    [| split; [discriminate | intros (_ & ? & _); discriminate]].
  destruct (py_square (vz row)); cbn [bind is_ok];
    [| split; [discriminate | intros (_ & _ & ?); discriminate]].
  split; [intros _; now repeat split | reflexivity].
Qed.

(** ** The cells of the grid *)

Lemma cell_at_alter {A} (f : A -> A) (i' j' i j : nat) (grid : list (list A)) :
  cell_at (alter (alter f j') i' grid) i j
  = if decide (i' = i /\ j' = j) then f <$> cell_at grid i j else cell_at grid i j.
Proof.
  unfold cell_at. destruct (decide (i' = i)) as [-> | Hi].
  - rewrite list_lookup_alter_eq. destruct (grid !! i) as [row |]; cbn.
    + destruct (decide (j' = j)) as [-> | Hj].
      * rewrite list_lookup_alter_eq. now rewrite decide_True by done.
      * rewrite list_lookup_alter_ne by assumption.
        now rewrite decide_False by (intros [_ ?]; contradiction).
    + now destruct (decide _).
  - rewrite list_lookup_alter_ne by assumption.
    now rewrite decide_False by (intros [? _]; contradiction).
Qed.

Lemma cell_at_apply_hits hs :
  forall (speed_map : list (list (float64 * R))) (i j : nat),
    cell_at (apply_hits hs speed_map) i j
    = (fun c : float64 * R => (foldl f_add c.1 (hits_at i j hs),
                               c.2 + INR (length (hits_at i j hs))))
        <$> cell_at speed_map i j.
Proof.
  induction hs as [| [[i' j'] s] hs IH]; intros speed_map i j.
  - cbn. destruct (cell_at speed_map i j) as [[a b] |]; cbn; [| reflexivity].
    do 2 f_equal; lra.
  - change (apply_hits (((i', j'), s) :: hs) speed_map)
      with (apply_hits hs
              (alter (alter (fun c : float64 * R => (f_add c.1 s, c.2 + 1)) j') i'
                 speed_map)).
    rewrite IH, cell_at_alter. unfold hits_at. rewrite filter_cons. cbn [fst snd].
    destruct (decide (i' = i /\ j' = j)) as [Hij | Hij].
    + destruct (cell_at speed_map i j) as [[a b] |]; cbn [fmap option_fmap option_map];
        [| reflexivity].
      rewrite fmap_cons. cbn [foldl length fst snd]. rewrite S_INR.
      do 2 f_equal; lra.
    + reflexivity.
Qed.

(** Without sampling, each cell of the grid of [plot_speed_distribution] is
    the sum of the speeds of the vehicle records that were accumulated in
    it, divided by their number, in whatever order the files were read, and
    NaN when there was none. *)
Theorem speed_grid_cells `{Generator rng} fs x_min x_max y_min y_max data_path
    folder files (g : rng) st grid :
  speed_grid fs (x_min, x_max, y_min, y_max) data_path folder files None g
  = (st, Ok grid) ->
  let matrix_x := py_int (x_max - x_min) in
  let matrix_y := py_int (y_max - y_min) in
  exists hs,
    collect (file_hits fs x_min y_min matrix_x matrix_y data_path folder
               (Z.to_nat matrix_y)) (np_random_shuffle g files).1 = Ok hs
    /\ forall i j, (i < Z.to_nat matrix_y)%nat -> (j < Z.to_nat matrix_x)%nat ->
         cell_at grid i j = Some (cell_mean (hits_at i j hs))
         /\ (hits_at i j hs = [] -> cell_at grid i j = Some NaN).
Proof.
  intros Hrun matrix_x matrix_y. unfold speed_grid in Hrun.
  fold matrix_x matrix_y in Hrun.
  destruct (np_zeros matrix_y matrix_x) as [zeros |] eqn:Ez; [| discriminate].
  inversion Hrun as [[Hst Hgrid]]. clear Hrun Hst. cbn [option_map] in Hgrid.
  rewrite speed_files_hits in Hgrid.
  unfold np_zeros in Ez. destruct (_ || _)%Z; [discriminate |].
  inversion Ez; subst zeros. clear Ez. rewrite length_replicate in Hgrid.
  destruct (collect _ _) as [hs |]; cbn in Hgrid; [| discriminate].
  inversion Hgrid; subst grid. exists hs. split; [reflexivity |].
  intros i j Hi Hj.
  assert (Hcell : cell_at (finalize (apply_hits hs
                     (replicate (Z.to_nat matrix_y)
                        (replicate (Z.to_nat matrix_x) (Num 0, 0))))) i j
                  = Some (cell_mean (hits_at i j hs))).
  { rewrite cell_at_finalize, cell_at_apply_hits. unfold cell_at at 1.
    rewrite lookup_replicate_2 by assumption. cbn [mbind option_bind].
    rewrite lookup_replicate_2 by assumption. cbn.
    unfold cell_mean, f_sum. now rewrite !Rplus_0_l. }
  split; [exact Hcell |].
  intros Hnone. rewrite Hcell, Hnone. unfold cell_mean, f_sum.
  cbn [foldl length INR]. now rewrite np_div_0_0.
Qed.

Lemma speed_grid_cells_witness :
  exists hs,
    collect (file_hits (one_vehicle_fs 5 5) 0 0 (py_int (10 - 0)) (py_int (10 - 0))
               "data/" "boston" (Z.to_nat (py_int (10 - 0))))
      (np_random_shuffle tt ["a.db"]).1 = Ok hs
    /\ forall i j, (i < Z.to_nat (py_int (10 - 0)))%nat ->
                   (j < Z.to_nat (py_int (10 - 0)))%nat ->
         cell_at (single_cell_grid 5 5 (Num 5)) i j
         = Some (cell_mean (hits_at i j hs))
         /\ (hits_at i j hs = [] ->
             cell_at (single_cell_grid 5 5 (Num 5)) i j = Some NaN).
Proof.
  apply (speed_grid_cells (rng := unit) (one_vehicle_fs 5 5) 0 10 0 10 "data/"
           "boston" ["a.db"] tt
           (speed_grid (one_vehicle_fs 5 5) (0, 10, 0, 10) "data/" "boston"
              ["a.db"] None tt).1).
  rewrite <- one_vehicle_grid_5_5.
  apply surjective_pairing.
Defined.

(** ** The columns of [plot_trajectories] *)

(** A loop succeeds exactly when its body does on every element, when
    that does not depend on what was accumulated. *)
Lemma for_each_ok_iff {A S} (body : S -> A -> result S) (good : A -> Prop) :
  (forall acc a, is_ok (body acc a) = true <-> good a) ->
  forall l acc, is_ok (for_each body l acc) = true <-> forall a, a ∈ l -> good a.
Proof.
  intros Hbody l. induction l as [| a l IH]; intros acc; cbn.
  - split; [intros _ a Ha; now apply elem_of_nil in Ha | reflexivity].
  - specialize (Hbody acc a). destruct (body acc a) as [acc' |]; cbn in *.
    + rewrite IH. split.
      * intros Hl a' Ha'. apply elem_of_cons in Ha' as [-> | Ha'];
          [now apply Hbody | now apply Hl].
      * intros Hl a' Ha'. apply Hl. apply elem_of_cons. now right.
    + split; [discriminate |]. intros Hl. apply Hbody, Hl.
      apply elem_of_cons. now left.
Qed.

Lemma trajectory_rows_columns db (rows : list lidar_box_row) :
  forall (acc out : list pyfloat * list pyfloat * list string),
    for_each (trajectory_row db) rows acc = Ok out ->
    exists cs,
      out = (acc.1.1 ++ (x <$> rows), acc.1.2 ++ (y <$> rows), acc.2 ++ cs)
      /\ Forall2 (fun row c => resolve_category db row = Ok c) rows cs.
Proof.
  induction rows as [| row rows IH]; intros acc out Hrun; cbn in Hrun.
  - inversion Hrun; subst out. exists []. rewrite !app_nil_r.
    split; [now destruct acc as [[xs ys] cs] | constructor].
  - unfold trajectory_row in Hrun at 1.
    destruct (resolve_category db row) as [cat |] eqn:Ecat; cbn [bind] in Hrun;
      [| discriminate].
    destruct (IH _ _ Hrun) as (cs & -> & Hcs). exists (cat :: cs). cbn [fst snd].
    rewrite !fmap_cons, <- !app_assoc. split; [reflexivity |].
    now constructor.
Qed.

Lemma group_rows_cons fs data_path folder f (l : list string) :
  group_rows fs data_path folder (f :: l)
  = group_rows fs data_path folder [f] ++ group_rows fs data_path folder l.
Proof.
  unfold group_rows, group_dbs. cbn [omap list_omap].
  destruct (if is_db f then fs !! _ else None) as [db |]; cbn; [| reflexivity].
  now rewrite app_nil_r.
Qed.

Lemma group_rows_single_db fs data_path folder f db :
  is_db f = true -> fs !! (data_path +:+ folder +:+ "/" +:+ f) = Some db ->
  group_rows fs data_path folder [f] = (fun row => (db, row)) <$> lidar_box db.
Proof.
  intros Hf Hdb. unfold group_rows, group_dbs. cbn [omap list_omap].
  rewrite Hf, Hdb. cbn. apply app_nil_r.
Qed.

Lemma group_rows_single_skip fs data_path folder f :
  is_db f = false -> group_rows fs data_path folder [f] = [].
Proof.
  intros Hf. unfold group_rows, group_dbs. cbn [omap list_omap].
  now rewrite Hf.
Qed.

Lemma trajectory_files_columns fs data_path folder (l : list string) :
  forall (acc out : list pyfloat * list pyfloat * list string),
    for_each (trajectory_file_rows fs data_path folder) l acc = Ok out ->
    exists cs,
      out = (acc.1.1 ++ ((fun dr => x dr.2) <$> group_rows fs data_path folder l),
             acc.1.2 ++ ((fun dr => y dr.2) <$> group_rows fs data_path folder l),
             acc.2 ++ cs)
      /\ Forall2 (fun (dr : motion_db * lidar_box_row) c =>
                    resolve_category dr.1 dr.2 = Ok c)
           (group_rows fs data_path folder l) cs.
Proof.
  induction l as [| f l IH]; intros acc out Hrun; cbn in Hrun.
  - inversion Hrun; subst out. exists []. cbn. rewrite !app_nil_r.
    split; [now destruct acc as [[xs ys] cs] | constructor].
  - rewrite group_rows_cons.
    destruct (trajectory_file_rows fs data_path folder acc f) as [acc1 |] eqn:Ef;
      cbn [bind] in Hrun; [| discriminate].
    destruct (IH _ _ Hrun) as (cs & -> & Hcs).
    unfold trajectory_file_rows, read_db in Ef.
    destruct (is_db f) eqn:Edb; cbn [negb] in Ef.
    + destruct (fs !! _) as [db |] eqn:Efs; cbn [bind] in Ef; [| discriminate].
      rewrite (group_rows_single_db _ _ _ _ _ Edb Efs).
      destruct (trajectory_rows_columns db _ _ _ Ef) as (cs1 & -> & Hcs1).
      exists (cs1 ++ cs). cbn [fst snd].
      rewrite !fmap_app, <- !list_fmap_compose, <- !app_assoc.
      split; [reflexivity |]. apply Forall2_app; [| assumption].
      apply Forall2_fmap_l. eapply Forall2_impl; [exact Hcs1 | done].
    + inversion Ef; subst acc1. rewrite (group_rows_single_skip _ _ _ _ Edb).
      exists cs. split; [reflexivity | assumption].
Qed.

(** The three columns that [plot_trajectories] hands to the scatter plot
    have one entry per lidar box of the databases it iterated, in the order
    of the files and of the rows: the [x] of the box, its [y], and the
    category its track resolves to. The three columns have the same
    length. *)
Theorem plot_trajectories_columns `{Generator rng} fs data_path folder files
    proportion (g : rng) xs ys cs :
  (plot_trajectories fs data_path folder files proportion g).2 = Ok (xs, ys, cs) ->
  let rows := group_rows fs data_path folder (sample_files files proportion g).1 in
  xs = (fun dr => x dr.2) <$> rows
  /\ ys = (fun dr => y dr.2) <$> rows
  /\ Forall2 (fun (dr : motion_db * lidar_box_row) c =>
                resolve_category dr.1 dr.2 = Ok c) rows cs
  /\ length xs = length ys /\ length ys = length cs.
Proof.
  intros Hrun rows.
  change (for_each (trajectory_file_rows fs data_path folder)
            (sample_files files proportion g).1 ([], [], []) = Ok (xs, ys, cs))
    in Hrun.
  destruct (trajectory_files_columns _ _ _ _ _ _ Hrun) as (cs' & Hout & Hcs).
  cbn [fst snd app] in Hout. inversion Hout; subst xs ys cs. fold rows in Hcs |- *.
  repeat split; try assumption.
  - now rewrite !length_fmap.
  - rewrite length_fmap. now apply Forall2_length in Hcs.
Qed.

Lemma trajectory_file_ok_iff fs data_path folder acc f :
  is_ok (trajectory_file_rows fs data_path folder acc f) = true
  <-> (is_db f = true ->
       exists db,
         fs !! (data_path +:+ folder +:+ "/" +:+ f) = Some db
         /\ forall row, row ∈ lidar_box db ->
              is_ok (resolve_category db row) = true).
Proof.
  unfold trajectory_file_rows, read_db. destruct (is_db f); cbn.
  - destruct (fs !! _) as [db |]; cbn.
    + rewrite (for_each_ok_iff (trajectory_row db)
                 (fun row => is_ok (resolve_category db row) = true)).
      * split; [intros Hrows _; now exists db |].
        intros Hdb. destruct (Hdb eq_refl) as (db' & Heq & Hrows).
        now inversion Heq; subst.
      * intros acc' row. unfold trajectory_row.
        now destruct (resolve_category db row).
    + split; [discriminate |]. intros Hdb.
      destruct (Hdb eq_refl) as (db' & Heq & _). discriminate.
  - split; [intros _ Hf; discriminate | reflexivity].
Qed.

(** [plot_trajectories] returns its columns exactly when every [.db] entry
    it iterates is a database all of whose lidar boxes resolve to a
    category; in every other case it raises. An empty list of files returns
    three empty columns. *)
Theorem plot_trajectories_ok_iff `{Generator rng} fs data_path folder files
    proportion (g : rng) :
  (is_ok (plot_trajectories fs data_path folder files proportion g).2 = true
   <-> files_ok fs data_path folder (sample_files files proportion g).1)
  /\ (plot_trajectories fs data_path folder [] None g).2 = Ok ([], [], []).
Proof.
  split; [| reflexivity].
  unfold plot_trajectories, files_ok. cbn [snd].
  apply (for_each_ok_iff (trajectory_file_rows fs data_path folder)).
  intros acc f. apply trajectory_file_ok_iff.
Qed.

Lemma plot_trajectories_columns_witness :
  [PyFloat (Num 1)]
  = (fun dr : motion_db * lidar_box_row => x dr.2)
      <$> group_rows two_vehicle_fs "data/" "boston"
            (sample_files ["a.db"] None tt).1.
Proof.
  apply (proj1 (plot_trajectories_columns (rng := unit) two_vehicle_fs "data/"
                  "boston" ["a.db"] None tt [PyFloat (Num 1)] [PyFloat (Num 2)]
                  ["vehicle"] eq_refl)).
Defined.

(** ** When [plot_mean_speed_distribution] returns, and what *)

Lemma mean_speed_file_ok_iff fs data_path folder acc f :
  is_ok (mean_speed_file fs data_path folder acc f) = true
  <-> (is_db f = true ->
       exists db,
         fs !! (data_path +:+ folder +:+ "/" +:+ f) = Some db
         /\ has_none (lidar_box db) = false
         /\ forall row, row ∈ lidar_box db ->
              is_ok (resolve_category db row) = true).
Proof.
  unfold mean_speed_file, read_db. destruct (is_db f); cbn [negb].
  - destruct (fs !! _) as [db |]; cbn [bind].
    + destruct (has_none (lidar_box db)) eqn:Enone.
      { split; [discriminate |]. intros Hdb.
        destruct (Hdb eq_refl) as (db' & Heq & Hnone & _).
        inversion Heq; subst db'. congruence. }
      rewrite (for_each_ok_iff (mean_speed_entry folder db)
                 (fun kv => is_ok (track_category db kv.1) = true)).
      * split.
        -- intros Hkeys _. exists db. split; [reflexivity |].
           split; [exact Enone |]. intros row Hrow.
           apply (Hkeys (track_token row,
                         group_mean
                           (row_speed <$> frames_of (track_token row)
                                            (lidar_box db)))).
           apply groupby_mean_spec. split; [| reflexivity].
           now apply list_elem_of_fmap_2.
        -- intros Hdb [k v] Hkv. destruct (Hdb eq_refl) as (db' & Heq & _ & Hrows).
           inversion Heq; subst db'. apply groupby_mean_spec in Hkv as [Hk _].
           apply list_elem_of_fmap in Hk as (row & -> & Hrow).
           now apply Hrows.
      * intros acc' kv. unfold mean_speed_entry.
        now destruct (track_category db kv.1).
    + split; [discriminate |]. intros Hdb.
      destruct (Hdb eq_refl) as (db' & Heq & _). discriminate.
  - split; [intros _ Hf; discriminate | reflexivity].
Qed.

Lemma mean_speed_folders_ok_inv fs data_path files rest :
  forall i acc,
    is_ok (mean_speed_folders fs data_path files rest i acc) = true ->
    forall j folder, rest !! j = Some folder ->
      exists fl,
        files !! (i + j)%nat = Some fl
        /\ forall f, f ∈ fl -> is_db f = true ->
             exists db,
               fs !! (data_path +:+ folder +:+ "/" +:+ f) = Some db
               /\ has_none (lidar_box db) = false
               /\ forall row, row ∈ lidar_box db ->
                    is_ok (resolve_category db row) = true.
Proof.
  induction rest as [| folder' rest IH]; intros i acc Hrun j folder Hj.
  - now rewrite lookup_nil in Hj.
  - cbn in Hrun. destruct (files !! i) as [fl |] eqn:Efl; [| discriminate].
    destruct (for_each _ fl acc) as [acc' |] eqn:Eloop; cbn in Hrun;
      [| discriminate].
    destruct j as [| j]; cbn in Hj.
    + inversion Hj; subst folder'. exists fl. rewrite Nat.add_0_r.
      split; [assumption |].
      apply (proj1 (for_each_ok_iff (mean_speed_file fs data_path folder) _
                      (mean_speed_file_ok_iff fs data_path folder) fl acc)).
      now rewrite Eloop.
    + replace (i + S j)%nat with (S i + j)%nat by lia.
      eapply IH; eassumption.
Qed.


Lemma group_mean_sum_ok (l : list float64) : Forall sum_ok l -> sum_ok (group_mean l).
Proof.
  intros Hl. unfold group_mean.
  assert (Hobs : Forall sum_ok (filter (fun a => is_nan a = false) l)).
  { apply Forall_forall. intros a Ha. apply list_elem_of_filter in Ha as [_ Ha].
    now apply (proj1 (Forall_forall _ _) Hl). }
  destruct (filter (fun a => is_nan a = false) l) as [| a obs] eqn:E; [exact I |].
  apply np_div_sum_ok.
  - unfold f_sum. apply foldl_f_add_sum_ok; [| assumption].
    cbn. pose proof float_max_pos. lra.
  - now apply length_pos_INR.
Qed.

(** No mean speed in the table of [plot_mean_speed_distribution] is
    negative: each one is NaN, the positive infinity, or a number that is
    zero or more. *)
Theorem mean_speeds_nonnegative fs data_path folders files speeds e :
  plot_mean_speed_distribution fs data_path folders files = Ok speeds ->
  e ∈ speeds ->
  e.2 = NaN \/ e.2 = PosInf \/ exists r, e.2 = Num r /\ 0 <= r.
Proof.
  unfold plot_mean_speed_distribution. intros Hrun He.
  apply (mean_speed_folders_elem _ _ _ _ _ _ _ Hrun e) in He
    as [He | (j & fl & file & db & k & _ & _ & _ & _ & _ & Hk & _ & Hv)];
    [now apply elem_of_nil in He |].
  assert (Hok : sum_ok e.2).
  { rewrite Hv. apply group_mean_sum_ok.
    apply Forall_fmap, Forall_forall. intros row _. apply row_speed_sum_ok. }
  destruct e.2 as [r | | |]; cbn in Hok.
  - right; right. exists r. split; [reflexivity | lra].
  - now left.
  - right; now left.
  - contradiction.
Qed.

Lemma mean_speeds_nonnegative_witness :
  ("boston", "vehicle", Num 5).2 = NaN
  \/ ("boston", "vehicle", Num 5).2 = PosInf
  \/ exists r, ("boston", "vehicle", Num 5).2 = Num r /\ 0 <= r.
Proof.
  apply (mean_speeds_nonnegative null_velocity_fs "data/" ["boston"] [["a.db"]]
           [("boston", "vehicle", Num 5); ("boston", "vehicle", NaN)]).
  - exact null_velocity_table.
  - apply elem_of_cons. now left.
Defined.

(** ** The frame of [plot_class_proportion] *)

Lemma frame_write_labels label column v (df : list (string * list (string * pyobj))) :
  (frame_write label column v df).*1 = df.*1.
Proof.
  unfold frame_write. rewrite <- list_fmap_compose. apply list_fmap_ext.
  intros i r _. cbn. now destruct (bool_decide (r.1 = label)).
Qed.

Lemma count_label_labels label (df df' : list (string * list (string * pyobj))) :
  df.*1 = df'.*1 -> count_label label df = count_label label df'.
Proof.
  unfold count_label. revert df'.
  induction df as [| r df IH]; intros [| r' df'] Heq; try discriminate;
    [reflexivity |].
  cbn in Heq. inversion Heq as [[Hr Hdf]]. rewrite !filter_cons, Hr.
  destruct (decide (r'.1 = label)); cbn; now rewrite (IH df').
Qed.

Lemma frame_set_labels label column v (df : list (string * list (string * pyobj))) :
  (frame_set label column v df).*1 = df.*1.
Proof.
  unfold frame_set. destruct (bool_decide _); [apply frame_write_labels | reflexivity].
Qed.

Lemma count_label_frame_set label label' column v
    (df : list (string * list (string * pyobj))) :
  count_label label (frame_set label' column v df) = count_label label df.
Proof. apply count_label_labels, frame_set_labels. Qed.

Lemma frame_set_shape folders label column n df :
  (0 <= n)%Z -> frame_shape folders df ->
  frame_shape folders (frame_set label column (PyInt n) df).
Proof.
  intros Hn Hshape. unfold frame_set.
  destruct (bool_decide _); [| assumption].
  destruct Hshape as [Hlabels Hrows]. unfold frame_write. split.
  - rewrite <- Hlabels, <- list_fmap_compose. apply list_fmap_ext.
    intros i r _. cbn. now destruct (bool_decide (r.1 = label)).
  - apply Forall_fmap. eapply Forall_impl; [exact Hrows |].
    intros r [Hcols Hcells]. cbn. destruct (bool_decide (r.1 = label)); cbn;
      [| now split].
    unfold row_set. split.
    + rewrite <- Hcols, <- list_fmap_compose. apply list_fmap_ext.
      intros i cell _. cbn. now destruct (bool_decide (cell.1 = column)).
    + apply Forall_fmap. eapply Forall_impl; [exact Hcells |].
      intros cell Hcell. cbn. now destruct (bool_decide (cell.1 = column)).
Qed.

Lemma class_file_shape fs data_path folders folder df f df' :
  frame_shape folders df ->
  class_file fs data_path folder df f = Ok df' ->
  frame_shape folders df'.
Proof.
  unfold class_file, read_db. intros Hshape Hrun.
  destruct (is_db f); cbn [negb] in Hrun; [| inversion Hrun; subst; assumption].
  destruct (fs !! _) as [db |]; cbn [bind] in Hrun; [| discriminate].
  eapply for_each_invariant; [| exact Hshape | exact Hrun].
  intros acc cat acc' Hacc Hcat. unfold class_category in Hcat.
  destruct (dict_get _ cat) as [tok |]; cbn in Hcat; [| discriminate].
  inversion Hcat; subst acc'. apply frame_set_shape; [| assumption].
  unfold count_tracks. lia.
Qed.

Lemma class_folders_shape `{Generator rng} fs data_path refs proportion folders rest :
  forall i heap (g : rng) df st df',
    frame_shape folders df ->
    class_folders fs data_path refs proportion rest i heap g df = (st, Ok df') ->
    frame_shape folders df'.
Proof.
  induction rest as [| folder rest IH]; intros i heap g df st df' Hshape Hrun;
    cbn in Hrun.
  - inversion Hrun; subst; assumption.
  - destruct (refs !! i) as [ref |]; [| discriminate].
    destruct (for_each _ _ df) as [df1 |] eqn:Efiles; [| discriminate].
    eapply IH; [| exact Hrun].
    eapply for_each_invariant; [| exact Hshape | exact Efiles].
    intros acc f acc'. apply class_file_shape.
Qed.

Lemma new_frame_shape folders : frame_shape folders (new_frame folders).
Proof.
  unfold new_frame. split.
  - rewrite <- list_fmap_compose. apply list_fmap_id.
  - apply Forall_fmap, Forall_forall. intros folder _. cbn.
    split; [reflexivity |]. repeat constructor.
Qed.

Lemma div_row_cells (row : list (string * pyobj)) :
  forall s acc out,
    for_each (fun acc (cell : string * pyobj) =>
                v <- py_truediv cell.2 s ;; Ok (acc ++ [(cell.1, v)])) row acc
    = Ok out ->
    out = acc ++ ((fun cell : string * pyobj =>
                     (cell.1, match cell.2 with
                              | PyNaN => NaN
                              | PyInt n => Num (IZR n / IZR s)
                              end)) <$> row)
    /\ (row <> [] -> s <> 0%Z).
Proof.
  induction row as [| cell row IH]; intros s acc out Hrun; cbn in Hrun.
  - inversion Hrun; subst out. rewrite app_nil_r. split; [reflexivity | contradiction].
  - unfold py_truediv in Hrun at 1.
    destruct (Z.eqb_spec s 0) as [-> | Hs]; cbn in Hrun; [discriminate |].
    assert (Hstep : for_each (fun acc (cell : string * pyobj) =>
                                v <- py_truediv cell.2 s ;; Ok (acc ++ [(cell.1, v)]))
                      row (acc ++ [(cell.1, match cell.2 with
                                            | PyNaN => NaN
                                            | PyInt n => Num (IZR n / IZR s)
                                            end)]) = Ok out)
      by (destruct cell.2; exact Hrun).
    destruct (IH _ _ _ Hstep) as [-> _]. rewrite fmap_cons, <- app_assoc.
    split; [reflexivity | intros _; assumption].
Qed.

Lemma row_sum_cells (row : list (string * pyobj)) (s : Z) :
  s <> 0%Z ->
  Forall (fun cell : string * pyobj =>
            match cell.2 with PyNaN => True | PyInt n => (0 <= n)%Z end) row ->
  (0 <= row_sum row)%Z
  /\ ((0 < s)%Z ->
      Rsum ((fun cell : string * pyobj =>
               float_value (match cell.2 with
                            | PyNaN => NaN
                            | PyInt n => Num (IZR n / IZR s)
                            end)) <$> row)
      = IZR (row_sum row) / IZR s).
Proof.
  intros Hs Hcells. induction Hcells as [| [c v] row Hcell _ [IH0 IH]]; cbn.
  - split; [lia | intros _; lra].
  - destruct v as [| n]; cbn in *.
    + split; [assumption |]. intros Hpos. rewrite (IH Hpos). lra.
    + split; [lia |]. intros Hpos. rewrite (IH Hpos), plus_IZR.
      field. apply not_0_IZR. lia.
Qed.

Lemma row_sum_cell_le (row : list (string * pyobj)) :
  Forall (fun cell : string * pyobj =>
            match cell.2 with PyNaN => True | PyInt n => (0 <= n)%Z end) row ->
  Forall (fun cell : string * pyobj =>
            match cell.2 with
            | PyNaN => True
            | PyInt n => (0 <= n <= row_sum row)%Z
            end) row.
Proof.
  induction 1 as [| [c v] row Hc Hrest IH]; [constructor |].
  assert (Hrow : (0 <= row_sum row)%Z)
    by (apply (row_sum_cells row 1); [lia | assumption]).
  constructor.
  - destruct v as [| n]; cbn in *; [exact I | lia].
  - eapply Forall_impl; [exact IH |]. intros [c' v'] Hv'.
    destruct v as [| n], v' as [| n']; cbn in *; try exact I; lia.
Qed.

(** When [plot_class_proportion] returns, its frame has one row per
    folder, in the order of the folders, each with the four columns of
    [dynamic_category] in their order; every cell is NaN or a proportion
    between 0 and 1, and the proportions of a row add up to 1. *)
Theorem class_proportion_rows `{Generator rng} fs data_path folders refs
    proportion heap (g : rng) out :
  (plot_class_proportion fs data_path folders refs proportion heap g).2 = Ok out ->
  out.*1 = folders
  /\ Forall (fun o : string * list (string * float64) =>
               o.2.*1 = dynamic_category
               /\ Forall (fun cell : string * float64 =>
                            cell.2 = NaN
                            \/ exists r, cell.2 = Num r /\ 0 <= r <= 1) o.2
               /\ Rsum ((fun cell : string * float64 => float_value cell.2) <$> o.2)
                  = 1) out.
Proof.
  unfold plot_class_proportion, count_by_category. cbn [snd]. intros Hrun.
  destruct (class_folders _ _ _ _ _ _ _ _ _) as [st [df |]] eqn:Ecount;
    cbn in Hrun; [| discriminate].
  pose proof (class_folders_shape _ _ _ _ folders _ _ _ _ _ _ _
                (new_frame_shape folders) Ecount) as [Hlabels Hrows].
  clear Ecount. unfold normalize in Hrun. rewrite <- Hlabels. clear Hlabels.
  assert (Hgen : forall (acc out : list (string * list (string * float64))),
             for_each (fun acc (r : string * list (string * pyobj)) =>
                         row <- div_row r.2 ;; Ok (acc ++ [(r.1, row)])) df acc
             = Ok out ->
             exists rows, out = acc ++ rows /\ rows.*1 = df.*1
               /\ Forall (fun o : string * list (string * float64) =>
                    o.2.*1 = dynamic_category
                    /\ Forall (fun cell : string * float64 =>
                                 cell.2 = NaN
                                 \/ exists r, cell.2 = Num r /\ 0 <= r <= 1) o.2
                    /\ Rsum ((fun cell : string * float64 => float_value cell.2)
                               <$> o.2) = 1) rows).
  { clear Hrun out. induction Hrows as [| r df [Hcols Hcells] _ IH];
      intros acc out Hrun; cbn in Hrun.
    - inversion Hrun; subst out. exists []. rewrite app_nil_r.
      repeat split; constructor.
    - destruct (div_row r.2) as [row |] eqn:Erow; cbn in Hrun; [| discriminate].
      destruct (IH _ _ Hrun) as (rows & -> & Hl & Hr).
      exists ((r.1, row) :: rows). rewrite <- app_assoc. split; [reflexivity |].
      split; [cbn; now f_equal |]. constructor; [| assumption].
      unfold div_row in Erow. apply div_row_cells in Erow as [-> Hs].
      cbn [app snd].
      assert (Hne : r.2 <> []) by (intros Hnil; now rewrite Hnil in Hcols).
      specialize (Hs Hne).
      destruct (row_sum_cells r.2 (row_sum r.2) Hs Hcells) as [Hpos Hsum].
      assert (Hs' : (0 < row_sum r.2)%Z) by lia.
      assert (HsR : 0 < IZR (row_sum r.2)) by now apply IZR_lt.
      split; [| split].
      + rewrite <- Hcols, <- list_fmap_compose. now apply list_fmap_ext.
      + apply Forall_fmap. clear Hsum Hcols Hne.
        pose proof (row_sum_cell_le r.2 Hcells) as Hle.
        eapply Forall_impl; [exact Hle |]. intros [c v] Hv. cbn in *.
        destruct v as [| n]; [now left | right].
        eexists. split; [reflexivity |]. destruct Hv as [Hn0 Hn1].
        apply IZR_le in Hn0, Hn1. split.
        * apply Rmult_le_pos; [assumption |]. left. now apply Rinv_0_lt_compat.
        * apply (Rmult_le_reg_r (IZR (row_sum r.2))); [assumption |].
          unfold Rdiv. rewrite Rmult_assoc, Rinv_l by lra. lra.
      + rewrite <- list_fmap_compose.
        transitivity (IZR (row_sum r.2) / IZR (row_sum r.2));
          [exact (Hsum Hs') | field; lra]. }
  destruct (Hgen [] out Hrun) as (rows & -> & Hl & Hr). cbn [app].
  split; assumption.
Qed.

Lemma class_proportion_rows_witness :
  [("boston", [("vehicle", Num (1 / 1)); ("bicycle", Num (0 / 1));
               ("pedestrian", Num (0 / 1)); ("generic_object", Num (0 / 1))])].*1
  = ["boston"].
Proof.
  apply (proj1 (class_proportion_rows (rng := unit) dangling_fs "data/" ["boston"]
                  [0%nat] None [["a.db"]] tt _ eq_refl)).
Defined.

(** ** Only the last database of a folder counts *)

Lemma row_set_counts (vs : pyobj * pyobj * pyobj * pyobj)
    (row : list (string * pyobj)) :
  row_set "generic_object" vs.2
    (row_set "pedestrian" vs.1.2
       (row_set "bicycle" vs.1.1.2 (row_set "vehicle" vs.1.1.1 row)))
  = (fun cell : string * pyobj => (cell.1, count_value vs cell.1 cell.2)) <$> row.
Proof.
  unfold row_set. induction row as [| [c a] row IH]; [reflexivity |].
  cbn [fmap list_fmap] in *. f_equal; [| exact IH]. clear IH.
  unfold count_value. cbn [fst snd].
  destruct (bool_decide (c = "vehicle")); cbn [fst snd];
    destruct (bool_decide (c = "bicycle")); cbn [fst snd];
    destruct (bool_decide (c = "pedestrian")); cbn [fst snd];
    destruct (bool_decide (c = "generic_object")); reflexivity.
Qed.

Lemma write_counts_rows label vs (df : list (string * list (string * pyobj))) :
  frame_write label "generic_object" vs.2
    (frame_write label "pedestrian" vs.1.2
       (frame_write label "bicycle" vs.1.1.2
          (frame_write label "vehicle" vs.1.1.1 df)))
  = (fun r : string * list (string * pyobj) =>
       if bool_decide (r.1 = label)
       then (r.1, (fun cell : string * pyobj =>
                     (cell.1, count_value vs cell.1 cell.2)) <$> r.2)
       else r) <$> df.
Proof.
  unfold frame_write. induction df as [| [l row] df IH]; [reflexivity |].
  cbn [fmap list_fmap] in *. f_equal; [| exact IH]. clear IH. cbn [fst snd].
  destruct (bool_decide (l = label)) eqn:El;
    repeat (progress (cbn [fst snd]; rewrite ?El)); [| reflexivity].
  f_equal. apply row_set_counts.
Qed.

(** The four assignments write the row of a label that is in the index
    once, and nothing otherwise. *)
Lemma set_counts_rows label vs (df : list (string * list (string * pyobj))) :
  set_counts label vs df
  = if bool_decide (count_label label df = 1%nat)
    then (fun r : string * list (string * pyobj) =>
            if bool_decide (r.1 = label)
            then (r.1, (fun cell : string * pyobj =>
                          (cell.1, count_value vs cell.1 cell.2)) <$> r.2)
            else r) <$> df
    else df.
Proof.
  unfold set_counts. rewrite <- write_counts_rows.
  unfold frame_set at 4.
  destruct (bool_decide (count_label label df = 1%nat)) eqn:E.
  - unfold frame_set at 3.
    rewrite (count_label_labels label _ df) by apply frame_write_labels.
    rewrite E. unfold frame_set at 2.
    rewrite (count_label_labels label _ df)
      by (now rewrite !frame_write_labels).
    rewrite E. unfold frame_set.
    rewrite (count_label_labels label _ df)
      by (now rewrite !frame_write_labels).
    now rewrite E.
  - unfold frame_set. now rewrite !E.
Qed.

Lemma count_value_absorb vs ws column old :
  count_value ws column (count_value vs column old) = count_value ws column old.
Proof.
  unfold count_value.
  destruct (bool_decide (column = "generic_object")),
           (bool_decide (column = "pedestrian")),
           (bool_decide (column = "bicycle")),
           (bool_decide (column = "vehicle")); reflexivity.
Qed.

Lemma set_counts_absorb label vs ws (df : list (string * list (string * pyobj))) :
  set_counts label ws (set_counts label vs df) = set_counts label ws df.
Proof.
  rewrite (set_counts_rows label ws (set_counts label vs df)).
  assert (Hcount : count_label label (set_counts label vs df) = count_label label df).
  { unfold set_counts. now rewrite !count_label_frame_set. }
  rewrite Hcount, !set_counts_rows. clear Hcount.
  destruct (bool_decide (count_label label df = 1%nat)); [| reflexivity].
  induction df as [| [l row] df IH]; [reflexivity |].
  cbn [fmap list_fmap] in *. f_equal; [| exact IH]. clear IH. cbn [fst snd].
  destruct (bool_decide (l = label)) eqn:El; cbn [fst snd]; rewrite ?El;
    [| reflexivity].
  f_equal. induction row as [| [c a] row IH]; [reflexivity |].
  cbn [fmap list_fmap fst snd] in *. f_equal; [| exact IH].
  now rewrite count_value_absorb.
Qed.

Lemma class_file_set_counts fs data_path folder df f :
  is_db f = true ->
  class_file fs data_path folder df f
  = (db <- read_db fs (data_path +:+ folder +:+ "/" +:+ f) ;;
     let dict_category :=
       py_dict ((fun r : string * string => (r.2, r.1)) <$> category db) in
     t1 <- dict_get dict_category "vehicle" ;;
     t2 <- dict_get dict_category "bicycle" ;;
     t3 <- dict_get dict_category "pedestrian" ;;
     t4 <- dict_get dict_category "generic_object" ;;
     Ok (set_counts folder
           (PyInt (count_tracks db t1), PyInt (count_tracks db t2),
            PyInt (count_tracks db t3), PyInt (count_tracks db t4)) df)).
Proof.
  intros Hf. unfold class_file. rewrite Hf. cbn [negb].
  destruct (read_db fs _) as [db |]; cbn [bind]; [| reflexivity].
  unfold dynamic_category. cbn [for_each]. unfold class_category.
  destruct (dict_get _ "vehicle"); cbn [bind]; [| reflexivity].
  destruct (dict_get _ "bicycle"); cbn [bind]; [| reflexivity].
  destruct (dict_get _ "pedestrian"); cbn [bind]; [| reflexivity].
  destruct (dict_get _ "generic_object"); reflexivity.
Qed.

Lemma class_file_absorb fs data_path folder df f1 df1 f2 :
  class_file fs data_path folder df f1 = Ok df1 ->
  is_db f2 = true ->
  class_file fs data_path folder df1 f2 = class_file fs data_path folder df f2.
Proof.
  intros Hf1 Hf2. rewrite !(class_file_set_counts _ _ _ _ f2) by assumption.
  destruct (is_db f1) eqn:Edb.
  - rewrite class_file_set_counts in Hf1 by assumption.
    destruct (read_db fs (data_path +:+ folder +:+ "/" +:+ f1)) as [db1 |];
      cbn [bind] in Hf1; [| discriminate].
    cbn zeta in Hf1.
    destruct (dict_get _ "vehicle") as [a1 |]; cbn [bind] in Hf1; [| discriminate].
    destruct (dict_get _ "bicycle") as [a2 |]; cbn [bind] in Hf1; [| discriminate].
    destruct (dict_get _ "pedestrian") as [a3 |]; cbn [bind] in Hf1; [| discriminate].
    destruct (dict_get _ "generic_object") as [a4 |]; cbn [bind] in Hf1;
      [| discriminate].
    inversion Hf1; subst df1. clear Hf1.
    destruct (read_db fs (data_path +:+ folder +:+ "/" +:+ f2)) as [db2 |];
      cbn [bind]; [| reflexivity].
    cbn zeta.
    destruct (dict_get _ "vehicle"); cbn [bind]; [| reflexivity].
    destruct (dict_get _ "bicycle"); cbn [bind]; [| reflexivity].
    destruct (dict_get _ "pedestrian"); cbn [bind]; [| reflexivity].
    destruct (dict_get _ "generic_object"); cbn [bind]; [| reflexivity].
    now rewrite set_counts_absorb.
  - unfold class_file in Hf1. rewrite Edb in Hf1. now inversion Hf1.
Qed.

(** The loop over the files of a folder (lines 125-142) leaves in the
    frame what its last [.db] entry alone would have left: line 138 assigns,
    so every database overwrites the counts of the one before. A folder
    without a [.db] entry leaves the frame as it was. *)
Theorem class_counts_of_last_file fs data_path folder (files : list string) :
  forall df df',
    for_each (class_file fs data_path folder) files df = Ok df' ->
    match last (filter (fun f => is_db f = true) files) with
    | Some f => class_file fs data_path folder df f = Ok df'
    | None => df' = df
    end.
Proof.
  induction files as [| f files IH]; intros df df' Hrun; cbn in Hrun.
  - now inversion Hrun.
  - destruct (class_file fs data_path folder df f) as [df1 |] eqn:Ef;
      cbn [bind] in Hrun; [| discriminate].
    specialize (IH _ _ Hrun). rewrite filter_cons.
    destruct (decide (is_db f = true)) as [Hf | Hf].
    + rewrite last_cons.
      destruct (last (filter (fun f => is_db f = true) files)) as [f' |] eqn:Elast.
      * rewrite <- IH. symmetry. eapply class_file_absorb; [exact Ef |].
        apply last_Some_elem_of in Elast.
        now apply list_elem_of_filter in Elast as [Hdb _].
      * now subst df'.
    + unfold class_file in Ef. destruct (is_db f); [contradiction |].
      inversion Ef; subst df1. exact IH.
Qed.

Lemma class_counts_of_last_file_witness :
  match last (filter (fun f => is_db f = true) ["a.db"; "b.db"]) with
  | Some f => class_file two_file_fs "data/" "boston" (new_frame ["boston"]) f
              = Ok [("boston", [("vehicle", PyInt 0); ("bicycle", PyInt 0);
                                ("pedestrian", PyInt 1);
                                ("generic_object", PyInt 0)])]
  | None => [("boston", [("vehicle", PyInt 0); ("bicycle", PyInt 0);
                         ("pedestrian", PyInt 1); ("generic_object", PyInt 0)])]
            = new_frame ["boston"]
  end.
Proof.
  apply (class_counts_of_last_file two_file_fs "data/" "boston" ["a.db"; "b.db"]).
  vm_compute. reflexivity.
Defined.

Lemma count_label_elem label (df : list (string * list (string * pyobj))) :
  label ∈ df.*1 -> (1 <= count_label label df)%nat.
Proof.
  unfold count_label. intros Hin.
  apply list_elem_of_fmap in Hin as (r & -> & Hr).
  assert (Hf : r ∈ filter (fun r' : string * list (string * pyobj) => r'.1 = r.1) df)
    by now apply list_elem_of_filter.
  destruct (filter _ df); [now apply elem_of_nil in Hf | cbn; lia].
Qed.

Lemma count_label_NoDup label (df : list (string * list (string * pyobj))) :
  NoDup df.*1 -> label ∈ df.*1 -> count_label label df = 1%nat.
Proof.
  unfold count_label. induction df as [| r df IH]; intros Hnodup Hin.
  - now apply elem_of_nil in Hin.
  - rewrite fmap_cons in Hnodup, Hin.
    apply NoDup_cons in Hnodup as [Hr Hnodup]. rewrite filter_cons.
    destruct (decide (r.1 = label)) as [Heq | Hne].
    + cbn [length]. f_equal. subst label.
      assert (Hnone : forall l : list (string * list (string * pyobj)),
                 r.1 ∉ l.*1 -> filter (fun r' => r'.1 = r.1) l = []).
      { induction l as [| r' l IHl]; intros Hl; [reflexivity |].
        rewrite fmap_cons in Hl. apply not_elem_of_cons in Hl as [Hr' Hl].
        rewrite filter_cons. destruct (decide (r'.1 = r.1)); [congruence |].
        now apply IHl. }
      now rewrite Hnone.
    + apply IH; [assumption |].
      apply elem_of_cons in Hin as [Heq | Hin]; [congruence | assumption].
Qed.



(** ** When [plot_speed_distribution] returns *)

Lemma collect_ok_iff {A B} (f : A -> result (list B)) (l : list A) :
  is_ok (collect f l) = true <-> forall a, a ∈ l -> is_ok (f a) = true.
Proof.
  induction l as [| a l IH]; cbn.
  - split; [intros _ a Ha; now apply elem_of_nil in Ha | reflexivity].
  - destruct (f a) as [hs |] eqn:Ea; cbn.
    + destruct (collect f l) as [hs' |]; cbn in *.
      * split; [| reflexivity]. intros _ a' Ha'.
        apply elem_of_cons in Ha' as [-> | Ha']; [now rewrite Ea |].
        now apply IH.
      * split; [discriminate |]. intros Hl. apply IH. intros a' Ha'.
        apply Hl. apply elem_of_cons. now right.
    + split; [discriminate |]. intros Hl.
      specialize (Hl a ltac:(apply elem_of_cons; now left)).
      rewrite Ea in Hl. discriminate.
Qed.

Lemma coordinate_unique (v : pyfloat) (m : R) (c c' : Z) :
  coordinate v m c -> coordinate v m c' -> c = c'.
Proof.
  intros (p & Hp & _ & ->) (p' & Hp' & _ & ->). rewrite Hp in Hp'.
  now inversion Hp'.
Qed.

Lemma row_hits_ok_iff x_min y_min (matrix_x matrix_y : Z) db row :
  (0 <= matrix_x)%Z -> (0 <= matrix_y)%Z ->
  is_ok (row_hits x_min y_min matrix_x matrix_y (Z.to_nat matrix_y) db row) = true
  <-> row_fits x_min y_min matrix_x matrix_y db row.
Proof.
  intros Hx Hy. unfold row_hits, row_fits.
  destruct (resolve_category db row) as [cat |]; cbn [bind].
  2:{ split; [discriminate | intros (cat & Hcat & _); discriminate]. }
  destruct (bool_decide_reflect (cat = "vehicle")) as [-> | Hne].
  2:{ split; [| reflexivity]. intros _. exists cat. split; [reflexivity |].
      intros Hveh. contradiction. }
  destruct (record_cell x_min y_min row) as [[cx cy] |] eqn:Ecell; cbn [bind fst snd].
  2:{ split; [discriminate |]. intros (cat & Hcat & Hfit).
      inversion Hcat; subst cat.
      destruct (Hfit eq_refl) as (cx & cy & Hcx & Hcy & _).
      rewrite (proj2 (record_cell_coordinate x_min y_min row cx cy)) in Ecell
        by now split.
      discriminate. }
  apply record_cell_coordinate in Ecell as [Hcx Hcy].
  rewrite out_of_map_false by assumption.
  assert (Hfit : forall cat : string,
             (cat = "vehicle" ->
              exists cx' cy',
                coordinate (x row) x_min cx' /\ coordinate (y row) y_min cy'
                /\ (- matrix_x <= cx' < matrix_x)%Z /\ (- matrix_y <= cy' < matrix_y)%Z
                /\ square_in_range (vx row) /\ square_in_range (vy row)
                /\ square_in_range (vz row)) ->
             cat = "vehicle" ->
             (- matrix_x <= cx < matrix_x)%Z /\ (- matrix_y <= cy < matrix_y)%Z
             /\ is_ok (py_speed row) = true).
  { intros cat Hcat Hveh.
    destruct (Hcat Hveh) as (cx' & cy' & Hcx' & Hcy' & Hrx & Hry & Hv).
    rewrite (coordinate_unique _ _ _ _ Hcx Hcx'), (coordinate_unique _ _ _ _ Hcy Hcy').
    split; [assumption |]. split; [assumption |]. now apply py_speed_ok_iff. }
  destruct (decide (- matrix_y <= cy < matrix_y)%Z) as [Hry | Hry].
  - rewrite (np_index_in_range (Z.to_nat matrix_y) cy) by lia. cbn [bind].
    destruct (decide (- matrix_x <= cx < matrix_x)%Z) as [Hrx | Hrx].
    + rewrite (np_index_in_range (Z.to_nat matrix_x) cx) by lia. cbn [bind].
      destruct (py_speed row) as [s |] eqn:Es; cbn [bind is_ok].
      * split; [| reflexivity]. intros _. exists "vehicle".
        split; [reflexivity |]. intros _. exists cx, cy.
        split; [assumption |]. split; [assumption |].
        split; [assumption |]. split; [assumption |].
        apply py_speed_ok_iff. now rewrite Es.
      * split; [discriminate |]. intros (cat & Hcat & Hrow).
        inversion Hcat; subst cat.
        destruct (Hfit _ Hrow eq_refl) as (_ & _ & Hs). discriminate.
    + rewrite (np_index_out_of_range (Z.to_nat matrix_x) cx) by lia. cbn.
      split; [discriminate |]. intros (cat & Hcat & Hrow).
      inversion Hcat; subst cat. destruct (Hfit _ Hrow eq_refl) as (? & _).
      contradiction.
  - rewrite (np_index_out_of_range (Z.to_nat matrix_y) cy) by lia. cbn.
    split; [discriminate |]. intros (cat & Hcat & Hrow).
    inversion Hcat; subst cat. destruct (Hfit _ Hrow eq_refl) as (_ & ? & _).
    contradiction.
Qed.

(** Without sampling, [plot_speed_distribution] returns its grid exactly
    when neither dimension of the grid is negative, every [.db] entry of
    the list is a database, every lidar box in them resolves to a category,
    and every vehicle record has coordinates that are numbers at an offset
    within the range of float64, a cell [(cx, cy)] with
    [-matrix_x <= cx < matrix_x] and [-matrix_y <= cy < matrix_y], and a
    velocity whose components are floats with a square in range. In every
    other case it raises. *)
Theorem speed_grid_ok_iff `{GeneratorOk rng} fs x_min x_max y_min y_max data_path
    folder files (g : rng) :
  let matrix_x := py_int (x_max - x_min) in
  let matrix_y := py_int (y_max - y_min) in
  is_ok (plot_speed_distribution fs (x_min, x_max, y_min, y_max) data_path folder
           files None g).2 = true
  <-> (0 <= matrix_x)%Z /\ (0 <= matrix_y)%Z
      /\ forall f, f ∈ files -> is_db f = true ->
           exists db,
             fs !! (data_path +:+ folder +:+ "/" +:+ f) = Some db
             /\ forall row, row ∈ lidar_box db ->
                  row_fits x_min y_min matrix_x matrix_y db row.
Proof.
  intros matrix_x matrix_y. unfold plot_speed_distribution, speed_grid.
  fold matrix_x matrix_y. unfold np_zeros.
  destruct (Z.ltb_spec matrix_y 0) as [Hy | Hy]; cbn [orb].
  { cbn. split; [discriminate | intros (_ & Hy' & _); lia]. }
  destruct (Z.ltb_spec matrix_x 0) as [Hx | Hx].
  { cbn. split; [discriminate | intros (Hx' & _); lia]. }
  cbn [snd option_map]. rewrite speed_files_hits, length_replicate.
  assert (Hgoal : forall r : result (list (nat * nat * float64)),
             is_ok (grid <- (speed_map' <-
                             (hs <- r ;;
                              Ok (apply_hits hs
                                    (replicate (Z.to_nat matrix_y)
                                       (replicate (Z.to_nat matrix_x) (Num 0, 0))))) ;;
                             Ok (finalize speed_map')) ;;
                    Ok (reverse grid)) = is_ok r)
    by (intros [hs |]; reflexivity).
  rewrite Hgoal, collect_ok_iff. clear Hgoal. split.
  - intros Hfiles. split; [assumption |]. split; [assumption |].
    intros f Hf Hdb. rewrite <- (shuffle_perm g files) in Hf.
    specialize (Hfiles f Hf). unfold file_hits, read_db in Hfiles.
    rewrite Hdb in Hfiles. cbn [negb] in Hfiles.
    destruct (fs !! _) as [db |]; cbn [bind] in Hfiles; [| discriminate].
    exists db. split; [reflexivity |]. intros row Hrow.
    apply row_hits_ok_iff; [assumption .. |].
    now apply (proj1 (collect_ok_iff _ _) Hfiles).
  - intros (_ & _ & Hfiles) f Hf. rewrite (shuffle_perm g files) in Hf.
    unfold file_hits, read_db. destruct (is_db f) eqn:Hdb; [| reflexivity].
    cbn [negb]. destruct (Hfiles f Hf Hdb) as (db & -> & Hrows). cbn [bind].
    apply collect_ok_iff. intros row Hrow.
    apply row_hits_ok_iff; [assumption .. |]. now apply Hrows.
Qed.

Lemma one_vehicle_row_fits :
  row_fits 0 0 10 10 (one_vehicle_db 5 5) (box "t1" 5 5 3 4 0).
Proof.
  pose proof float_max_big as Hbig.
  exists "vehicle". split; [reflexivity |]. intros _. exists 5%Z, 5%Z.
  assert (Hc : coordinate (PyFloat (Num 5)) 0 5).
  { exists 5. split; [reflexivity |]. split; [lra |].
    replace (5 - 0) with (IZR 5) by lra. now rewrite py_int_IZR. }
  split; [exact Hc |]. split; [exact Hc |].
  split; [lia |]. split; [lia |]. cbn. repeat split; lra.
Qed.

Lemma speed_grid_ok_iff_witness :
  is_ok (plot_speed_distribution (one_vehicle_fs 5 5) (0, 10, 0, 10) "data/"
           "boston" ["a.db"] None tt).2
  = true.
Proof.
  apply (proj2 (speed_grid_ok_iff (rng := unit) (one_vehicle_fs 5 5) 0 10 0 10
                  "data/" "boston" ["a.db"] tt)).
  replace (10 - 0) with (IZR 10) by lra. rewrite py_int_IZR.
  split; [lia |]. split; [lia |].
  intros f Hf _. apply list_elem_of_singleton in Hf as ->.
  exists (one_vehicle_db 5 5). split; [reflexivity |].
  intros row Hrow. apply list_elem_of_singleton in Hrow as ->.
  exact one_vehicle_row_fits.
Defined.

Lemma count_tracks_is_spec_count_witness :
  count_tracks dangling_db "c_veh" = spec_count_by_category [dangling_db] "vehicle".
Proof.
  apply count_tracks_is_spec_count.
  - cbn. repeat constructor; rewrite ?elem_of_cons, ?elem_of_nil; intuition discriminate.
  - cbn. repeat constructor; rewrite ?elem_of_cons, ?elem_of_nil; intuition discriminate.
  - cbn. repeat constructor; rewrite ?elem_of_cons, ?elem_of_nil; intuition discriminate.
  - reflexivity.
Defined.

(** ** Coordinates and velocities that are not numbers in range *)

(** What lines 227-228 raise: [x] is looked at before [y]; None has no
    subtraction (TypeError), [int] refuses NaN (ValueError) and the
    infinities (OverflowError), and an offset that leaves the range of
    float64 is an infinity. *)
Theorem record_cell_errors (x_min y_min : R) (row : lidar_box_row) :
  (x row = PyNone -> record_cell x_min y_min row = Raise TypeError)
  /\ (x row = PyFloat NaN -> record_cell x_min y_min row = Raise ValueError)
  /\ (x row = PyFloat PosInf \/ x row = PyFloat NegInf ->
      record_cell x_min y_min row = Raise OverflowError)
  /\ (forall p, x row = PyFloat (Num p) ->
        float_max <= p - x_min \/ p - x_min <= - float_max ->
        record_cell x_min y_min row = Raise OverflowError)
  /\ (forall cx, coordinate (x row) x_min cx ->
        (y row = PyNone -> record_cell x_min y_min row = Raise TypeError)
        /\ (y row = PyFloat NaN -> record_cell x_min y_min row = Raise ValueError)
        /\ (y row = PyFloat PosInf \/ y row = PyFloat NegInf ->
            record_cell x_min y_min row = Raise OverflowError)
        /\ (forall p, y row = PyFloat (Num p) ->
              float_max <= p - y_min \/ p - y_min <= - float_max ->
              record_cell x_min y_min row = Raise OverflowError)).
Proof.
  pose proof float_max_pos as Hmax.
  assert (Hout : forall p m, float_max <= p - m \/ p - m <= - float_max ->
                   py_int_float (np_float (p - m)) = Raise OverflowError).
  { intros p m Hp. unfold np_float.
    destruct (Rle_dec float_max (p - m)); [reflexivity |].
    destruct (Rle_dec (p - m) (- float_max)); [reflexivity | lra]. }
  unfold record_cell. repeat split.
  - intros ->. reflexivity.
  - intros ->. reflexivity.
  - intros [-> | ->]; reflexivity.
  - intros p -> Hp. cbn [py_sub f_sub bind]. now rewrite Hout.
  - intros ->. apply py_int_float_sub in H. cbn [bind] in H |- *.
    destruct (py_sub (x row) x_min) as [dx |]; cbn [bind] in H |- *; [| discriminate].
    now rewrite H.
  - intros ->. apply py_int_float_sub in H.
    destruct (py_sub (x row) x_min) as [dx |]; cbn [bind] in H |- *; [| discriminate].
    now rewrite H.
  - intros Hy. apply py_int_float_sub in H.
    destruct (py_sub (x row) x_min) as [dx |]; cbn [bind] in H |- *; [| discriminate].
    rewrite H. now destruct Hy as [-> | ->].
  - intros p Hy Hp. apply py_int_float_sub in H.
    destruct (py_sub (x row) x_min) as [dx |]; cbn [bind] in H |- *; [| discriminate].
    rewrite H, Hy. cbn [py_sub f_sub bind]. now rewrite Hout.
Qed.

Lemma f_add_PosInf_l (b : float64) :
  sum_ok b -> is_nan b = false -> f_add PosInf b = PosInf.
Proof. destruct b; cbn; try reflexivity; try discriminate; contradiction. Qed.

(** A velocity component that is a number with a square out of the range
    of float64: the Python arithmetic of [plot_speed_distribution] raises
    OverflowError on it, the numpy arithmetic of
    [plot_mean_speed_distribution] gives the speed +inf. *)
Theorem velocity_overflow (row : lidar_box_row) (r : R) :
  vx row = PyFloat (Num r) -> float_max <= r * r ->
  py_speed row = Raise OverflowError
  /\ (undefined_velocity row = false -> row_speed row = PosInf).
Proof.
  intros Hvx Hr. split.
  - unfold py_speed. rewrite Hvx. cbn [py_square].
    destruct (Rle_dec float_max (r * r)); [reflexivity | contradiction].
  - unfold undefined_velocity, row_speed, np_speed. rewrite Hvx.
    cbn [float_of is_nan orb]. intros Hdef.
    apply orb_false_iff in Hdef as [Hy Hz].
    cbn [np_square]. rewrite np_float_over by assumption.
    rewrite f_add_PosInf_l
      by (apply np_square_sum_ok || now rewrite np_square_nan).
    rewrite f_add_PosInf_l
      by (apply np_square_sum_ok || now rewrite np_square_nan).
    reflexivity.
Qed.

Lemma velocity_overflow_witness :
  py_speed (box "t1" 5 5 (IZR (2 ^ 600)) 0 0) = Raise OverflowError
  /\ (undefined_velocity (box "t1" 5 5 (IZR (2 ^ 600)) 0 0) = false ->
      row_speed (box "t1" 5 5 (IZR (2 ^ 600)) 0 0) = PosInf).
Proof.
  apply (velocity_overflow (box "t1" 5 5 (IZR (2 ^ 600)) 0 0) (IZR (2 ^ 600)));
    [reflexivity |].
  unfold float_max. rewrite <- mult_IZR. apply IZR_le, Z.leb_le.
  vm_compute. reflexivity.
Defined.
